(** * i4CastleApp: frame-resource ring, dirty-count propagation and scene data

    A shallow embedding of [Assignment2/i4CastleApp/i4CastleApp.cpp].

    - machine integers are [Z] with the wrap-around of their C++ type written
      out ([UINT], [INT], [UINT64], [uint16_t]);
    - [float] is IEEE binary32, computed with the Standard Library's
      [SpecFloat] operations at precision 24;
    - [std::unordered_map<std::string, _>] is stdpp's [gmap string _], its
      [operator[]] inserting a default value for an absent key;
    - a raw pointer into a container is the key (or position) of the element
      it points to, [None] being [nullptr];
    - code that calls the graphics API runs in the monad [M]: it reads the
      HRESULT of every call and the value of the GPU fence from the
      environment, appends to a trace of events, and ends by returning,
      by throwing a [DxException], in undefined behaviour, or blocked in a
      wait that has not returned. *)

From Stdlib Require Import ZArith Lia Floats.SpecFloat.
From stdpp Require Import base option list gmap strings fin_maps.

Local Open Scope Z_scope.

(** ** Machine integers *)

Module Int.

Definition UINT (z : Z) : Z := z mod 2 ^ 32.
Definition UINT64 (z : Z) : Z := z mod 2 ^ 64.
Definition uint16 (z : Z) : Z := z mod 2 ^ 16.

(** Conversion to a 32-bit signed [int] (two's complement). *)
Definition INT (z : Z) : Z := (z + 2 ^ 31) mod 2 ^ 32 - 2 ^ 31.

(** [(UINT)v.size()] *)
Definition size {A} (l : list A) : Z := UINT (Z.of_nat (length l)).

End Int.

(** ** [float]: IEEE binary32 *)

Module F32.

Definition prec : Z := 24.
Definition emax : Z := 128.

Definition float : Type := spec_float.

Definition of_int (z : Z) : float :=
  match z with
  | Z0 => S754_zero false
  | _ => binary_normalize prec emax z 0 false
  end.

Definition add : float -> float -> float := SFadd prec emax.
Definition mul : float -> float -> float := SFmul prec emax.
Definition div : float -> float -> float := SFdiv prec emax.
Definition neg : float -> float := SFopp.

(** The literal [m / 10^k] written in decimal with suffix [f], e.g. [8.9f] is
    [dec 89 1].  Both operands are exact in binary32 for the literals of this
    program, so the correctly rounded quotient is the correctly rounded
    literal. *)
Definition dec (m : Z) (k : nat) : float :=
  match k with
  | O => of_int m
  | _ => div (of_int m) (of_int (10 ^ Z.of_nat k))
  end.

(** [XM_PI = 3.141592654f], bit pattern [0x40490FDB]. *)
Definition XM_PI : float := S754_finite false 13176795 (-22).

(** [XMConvertToRadians]: [fDegrees * (XM_PI / 180.0f)]. *)
Definition XMConvertToRadians (fDegrees : float) : float :=
  mul fDegrees (div XM_PI (dec 180 0)).

End F32.

Abbreviation float := F32.float.

Declare Scope f32_scope.
Delimit Scope f32_scope with f32.
Infix "+" := F32.add : f32_scope.
Infix "*" := F32.mul : f32_scope.

(** ** DirectXMath vectors and matrices *)

Record XMFLOAT2 := mkFloat2 { x2 : float; y2 : float }.
Record XMFLOAT3 := mkFloat3 { x3 : float; y3 : float; z3 : float }.
Record XMFLOAT4 := mkFloat4 { vx : float; vy : float; vz : float; vw : float }.

(** A row-major 4x4 matrix; [XMMATRIX] and [XMFLOAT4X4] hold the same sixteen
    floats, so [XMLoadFloat4x4] and [XMStoreFloat4x4] are the identity. *)
Record XMFLOAT4X4 := mkMatrix { r0 : XMFLOAT4; r1 : XMFLOAT4; r2 : XMFLOAT4; r3 : XMFLOAT4 }.

Module XM.

Definition zero : float := S754_zero false.
Definition one : float := F32.of_int 1.

(** [MathHelper::Identity4x4()] *)
Definition Identity4x4 : XMFLOAT4X4 :=
  mkMatrix (mkFloat4 one zero zero zero)
           (mkFloat4 zero one zero zero)
           (mkFloat4 zero zero one zero)
           (mkFloat4 zero zero zero one).

Definition XMMatrixScaling (sx sy sz : float) : XMFLOAT4X4 :=
  mkMatrix (mkFloat4 sx zero zero zero)
           (mkFloat4 zero sy zero zero)
           (mkFloat4 zero zero sz zero)
           (mkFloat4 zero zero zero one).

Definition XMMatrixTranslation (ox oy oz : float) : XMFLOAT4X4 :=
  mkMatrix (mkFloat4 one zero zero zero)
           (mkFloat4 zero one zero zero)
           (mkFloat4 zero zero one zero)
           (mkFloat4 ox oy oz one).

(** Rotations are built from the sine and cosine of the angle, which
    DirectXMath computes with [XMScalarSinCos]. *)
Definition XMMatrixRotationX (s c : float) : XMFLOAT4X4 :=
  mkMatrix (mkFloat4 one zero zero zero)
           (mkFloat4 zero c s zero)
           (mkFloat4 zero (F32.neg s) c zero)
           (mkFloat4 zero zero zero one).

Definition XMMatrixRotationY (s c : float) : XMFLOAT4X4 :=
  mkMatrix (mkFloat4 c zero (F32.neg s) zero)
           (mkFloat4 zero one zero zero)
           (mkFloat4 s zero c zero)
           (mkFloat4 zero zero zero one).

(** One row of [M1] times [M2]:
    [(x * M2[0][j]) + (y * M2[1][j]) + (z * M2[2][j]) + (w * M2[3][j])]. *)
Definition mulRow (v : XMFLOAT4) (M2 : XMFLOAT4X4) : XMFLOAT4 :=
  let dot (sel : XMFLOAT4 -> float) : float :=
    (((vx v * sel (r0 M2)) + (vy v * sel (r1 M2))) + (vz v * sel (r2 M2))
     + (vw v * sel (r3 M2)))%f32 in
  mkFloat4 (dot vx) (dot vy) (dot vz) (dot vw).

Definition XMMatrixMultiply (M1 M2 : XMFLOAT4X4) : XMFLOAT4X4 :=
  mkMatrix (mulRow (r0 M1) M2) (mulRow (r1 M1) M2) (mulRow (r2 M1) M2) (mulRow (r3 M1) M2).

Definition XMMatrixTranspose (M : XMFLOAT4X4) : XMFLOAT4X4 :=
  mkMatrix (mkFloat4 (vx (r0 M)) (vx (r1 M)) (vx (r2 M)) (vx (r3 M)))
           (mkFloat4 (vy (r0 M)) (vy (r1 M)) (vy (r2 M)) (vy (r3 M)))
           (mkFloat4 (vz (r0 M)) (vz (r1 M)) (vz (r2 M)) (vz (r3 M)))
           (mkFloat4 (vw (r0 M)) (vw (r1 M)) (vw (r2 M)) (vw (r3 M))).

End XM.

Declare Scope xm_scope.
Delimit Scope xm_scope with xm.
Infix "*" := XM.XMMatrixMultiply : xm_scope.

(** ** Scene data *)

(** [const int gNumFrameResources = 3;] *)
Definition gNumFrameResources : Z := 3.

(** [D3D11_PRIMITIVE_TOPOLOGY_TRIANGLELIST] *)
Definition D3D11_PRIMITIVE_TOPOLOGY_TRIANGLELIST : Z := 4.

Module Material.

(** The fields of [struct Material] that this program reads or writes. *)
Record t := mk {
  Name : string;
  MatCBIndex : Z;            (* int *)
  DiffuseSrvHeapIndex : Z;   (* int *)
  NumFramesDirty : Z;        (* int *)
  DiffuseAlbedo : XMFLOAT4;
  FresnelR0 : XMFLOAT3;
  Roughness : float;
  MatTransform : XMFLOAT4X4
}.

(** Modelled from the spec: the member initialisers of [struct Material]
    (d3dUtil.h), which [std::make_unique<Material>()] runs.  The dirty count
    starts at the number of frame resources (the "same N-deep dirty-count
    propagation scheme as RenderItem"), the indices at -1 and the UV
    transform at the identity; every other field is assigned by
    [BuildMaterials] before it is read. *)
Definition make_unique : t :=
  mk "" (-1) (-1) gNumFrameResources
     (mkFloat4 XM.one XM.one XM.one XM.one)
     (mkFloat3 (F32.dec 1 2) (F32.dec 1 2) (F32.dec 1 2))
     (F32.dec 25 2) XM.Identity4x4.

Definition set_NumFramesDirty (n : Z) (m : t) : t :=
  mk (Name m) (MatCBIndex m) (DiffuseSrvHeapIndex m) n
     (DiffuseAlbedo m) (FresnelR0 m) (Roughness m) (MatTransform m).

End Material.

Module SubmeshGeometry.

Record t := mk {
  IndexCount : Z;          (* UINT *)
  StartIndexLocation : Z;  (* UINT *)
  BaseVertexLocation : Z   (* INT *)
}.

(** A default-constructed submesh, as [DrawArgs[name]] inserts for an absent
    name. *)
Definition default : t := mk 0 0 0.

End SubmeshGeometry.

Module RenderItem.

Record t := mk {
  World : XMFLOAT4X4;
  TexTransform : XMFLOAT4X4;
  NumFramesDirty : Z;           (* int *)
  ObjCBIndex : Z;               (* UINT *)
  Mat : option string;          (* Material*: the key of the material in mMaterials *)
  Geo : option string;          (* MeshGeometry*: the key of the geometry in mGeometries *)
  PrimitiveType : Z;
  IndexCount : Z;               (* UINT *)
  StartIndexLocation : Z;       (* UINT *)
  BaseVertexLocation : Z        (* int *)
}.

(** [std::make_unique<RenderItem>()]: the member initialisers of the struct. *)
Definition make_unique : t :=
  mk XM.Identity4x4 XM.Identity4x4 gNumFrameResources (Int.UINT (-1)) None None
     D3D11_PRIMITIVE_TOPOLOGY_TRIANGLELIST 0 0 0.

Definition set_NumFramesDirty (n : Z) (e : t) : t :=
  mk (World e) (TexTransform e) n (ObjCBIndex e) (Mat e) (Geo e)
     (PrimitiveType e) (IndexCount e) (StartIndexLocation e) (BaseVertexLocation e).

End RenderItem.

(** The vertex format of the vertex buffer. *)
Record Vertex := mkVertex { Pos : XMFLOAT3; Normal : XMFLOAT3; TexC : XMFLOAT2 }.

Definition sizeof_Vertex : Z := 32.
Definition sizeof_uint16 : Z := 2.

Module GeometryGenerator.

Record Vertex := mkVertex {
  Position : XMFLOAT3;
  Normal : XMFLOAT3;
  TangentU : XMFLOAT3;
  TexC : XMFLOAT2
}.

Record MeshData := mkMeshData {
  Vertices : list Vertex;
  Indices32 : list Z      (* uint32 *)
}.

(** [GetIndices16()]: every 32-bit index cast to [uint16]. *)
Definition GetIndices16 (m : MeshData) : list Z := map Int.uint16 (Indices32 m).

End GeometryGenerator.

(** The mesh generators of [GeometryGenerator] that [BuildShapeGeometry]
    calls.  Their code is not part of this file; every result below holds for
    whatever meshes they return. *)
Class GeometryGenerator := {
  CreateBox : float -> float -> float -> Z -> GeometryGenerator.MeshData;
  CreateGrid : float -> float -> Z -> Z -> GeometryGenerator.MeshData;
  CreateSphere : float -> Z -> Z -> GeometryGenerator.MeshData;
  CreateCylinder : float -> float -> float -> Z -> Z -> GeometryGenerator.MeshData;
  CreateDiamond : float -> float -> GeometryGenerator.MeshData;
  CreateWedge : float -> float -> float -> Z -> GeometryGenerator.MeshData;
  CreateOctahedron : float -> GeometryGenerator.MeshData;
  CreateTriangularPrism : float -> float -> float -> Z -> GeometryGenerator.MeshData;
  CreateHexagon : float -> float -> Z -> GeometryGenerator.MeshData;
  CreateOctagon : float -> float -> Z -> GeometryGenerator.MeshData;
  CreateCone : float -> float -> Z -> Z -> GeometryGenerator.MeshData;
  CreatePyramid : float -> float -> float -> float -> float -> Z -> GeometryGenerator.MeshData;
  CreateHexagonContainer : float -> float -> Z -> GeometryGenerator.MeshData;
  CreateCandy : float -> float -> Z -> GeometryGenerator.MeshData
}.

Module MeshGeometry.

Record t := mk {
  Name : string;
  VertexBufferCPU : list Vertex;
  IndexBufferCPU : list Z;       (* uint16_t *)
  VertexByteStride : Z;
  VertexBufferByteSize : Z;
  IndexBufferByteSize : Z;
  DrawArgs : gmap string SubmeshGeometry.t
}.

Definition set_DrawArgs (d : gmap string SubmeshGeometry.t) (g : t) : t :=
  mk (Name g) (VertexBufferCPU g) (IndexBufferCPU g) (VertexByteStride g)
     (VertexBufferByteSize g) (IndexBufferByteSize g) d.

End MeshGeometry.

(** The constants copied to the GPU per object and per material. *)
Record ObjectConstants := mkObjectConstants {
  oc_World : XMFLOAT4X4;
  oc_TexTransform : XMFLOAT4X4;
  oc_MaterialIndex : Z       (* UINT *)
}.

Record MaterialData := mkMaterialData {
  md_DiffuseAlbedo : XMFLOAT4;
  md_FresnelR0 : XMFLOAT3;
  md_Roughness : float;
  md_MatTransform : XMFLOAT4X4;
  md_DiffuseMapIndex : Z     (* UINT *)
}.

(** ** Upload buffers *)

Module UploadBuffer.

(** An upload buffer of [elementCount] elements; [None] is an element that
    has not been written since the buffer was mapped. *)
Abbreviation t T := (list (option T)).

Definition create {T} (elementCount : Z) : t T := replicate (Z.to_nat elementCount) None.

(** [CopyData(int elementIndex, const T& data)] is a [memcpy] to
    [mMappedData + elementIndex * mElementByteSize] without a bounds check:
    an index outside the buffer is undefined behaviour, [None] here. *)
Definition CopyData {T} (elementIndex : Z) (data : T) (b : t T) : option (t T) :=
  if decide (0 <= elementIndex < Z.of_nat (length b))
  then Some (<[Z.to_nat elementIndex := Some data]> b)
  else None.

End UploadBuffer.

(** ** Exceptions, events and the environment *)

(** [DxException(hr, functionName, filename, lineNumber)]; the file name is
    always this source file. *)
Record DxException := mkDxException {
  ErrorCode : Z;            (* HRESULT *)
  FunctionName : string;
  LineNumber : Z
}.

(** The character that delimits a string literal in the text of an
    argument. *)
Definition quote : string := String (Ascii.ascii_of_nat 34) EmptyString.

(** [FAILED(hr)] *)
Definition FAILED (hr : Z) : bool := hr <? 0.

(** [INFINITE], the time-out of a wait that never times out. *)
Definition INFINITE : Z := 4294967295.


(** One indexed draw recorded by [DrawRenderItems]: the byte offset of the
    object constants from the start of the per-object buffer and the
    arguments of [DrawIndexedInstanced]. *)
Record DrawCall := mkDrawCall {
  dc_objCBOffset : Z;
  dc_IndexCount : Z;
  dc_StartIndexLocation : Z;
  dc_BaseVertexLocation : Z
}.

Inductive Event :=
| EvApi (name : string) (hr : Z)
    (* a call of the graphics API that returned the HRESULT hr *)
| EvWait (fenceValue : Z) (dwMilliseconds : Z)
    (* WaitForSingleObject on the event set when the fence reaches fenceValue *)
| EvExecute (draws : list DrawCall)
    (* ExecuteCommandLists of the recorded frame *)
| EvSignal (fenceValue : Z) (hr : Z)
    (* mCommandQueue->Signal(mFence, fenceValue) *)
| EvMessageBox (text caption : string) (uType : Z)
| EvOutputDebugString (text : string)
    (* ::OutputDebugStringA(text) *).

(** The environment of the CPU thread.  [fenceTimeline n] is the value
    [mFence] holds the [n]-th time the CPU thread observes it (through
    [GetCompletedValue] or while it sleeps in a wait); [hresults n] is the
    HRESULT of the [n]-th API call.  Both are arbitrary. *)
Record World := mkWorld {
  fenceTimeline : nat -> Z;
  hresults : nat -> Z;
  clock : nat;
  calls : nat;
  trace : list Event
}.

Definition log (ev : Event) (w : World) : World :=
  mkWorld (fenceTimeline w) (hresults w) (clock w) (calls w) (trace w ++ [ev]).

Definition tick (w : World) : World :=
  mkWorld (fenceTimeline w) (hresults w) (S (clock w)) (calls w) (trace w).

Definition called (w : World) : World :=
  mkWorld (fenceTimeline w) (hresults w) (clock w) (S (calls w)) (trace w).

(** ** The platform *)

(** What the program takes from headers and libraries whose code is not part
    of this file: the camera, the timer, the layout of the pass constants,
    the sine and cosine of DirectXMath, the aligned size of one
    [ObjectConstants] element, the iteration order of
    [std::unordered_map] and the text of an exception. *)
Class Platform := {
  GameTimer : Type;
  Camera : Type;
  PassConstants : Type;
  Camera_default : Camera;
  PassConstants_default : PassConstants;
  Camera_SetPosition : float -> float -> float -> Camera -> Camera;
  (** the effect of [OnKeyboardInput] on [mCamera] *)
  Camera_input : GameTimer -> Camera -> Camera;
  (** the value [UpdateMainPassCB] leaves in [mMainPassCB] *)
  MainPassConstants : GameTimer -> Camera -> PassConstants -> PassConstants;
  XMScalarSin : float -> float;
  XMScalarCos : float -> float;
  (** [d3dUtil::CalcConstantBufferByteSize(sizeof(ObjectConstants))] *)
  objCBByteSize : Z;
  (** the order in which [for (auto& e : mMaterials)] visits the keys: some
      enumeration of the keys, each once *)
  mMaterials_order : gmap string (option Material.t) -> list string;
  mMaterials_order_perm :
    forall m : gmap string (option Material.t), mMaterials_order m ≡ₚ (map_to_list m).*1;
  (** [DxException::ToString()] *)
  ToString : DxException -> string;
  (** [D3DApp::SwapChainBufferCount] *)
  SwapChainBufferCount : Z
}.

Section App.

Context {platform : Platform} {geoGen : GeometryGenerator}.

Definition XMMatrixRotationX (Angle : float) : XMFLOAT4X4 :=
  XM.XMMatrixRotationX (XMScalarSin Angle) (XMScalarCos Angle).

Definition XMMatrixRotationY (Angle : float) : XMFLOAT4X4 :=
  XM.XMMatrixRotationY (XMScalarSin Angle) (XMScalarCos Angle).

(** ** Frame resources and the application object *)

(** Modelled from the spec: [struct FrameResource] (FrameResource.h) and its
    constructor [FrameResource(device, passCount, objectCount,
    materialCount)]: "a per-object constant buffer (one slot per drawable
    instance), a per-material constant buffer (one slot per material), and a
    single pass constant buffer", and a [Fence] value that starts at 0
    ("never submitted"). *)
Record FrameResource := mkFrameResource {
  PassCB : UploadBuffer.t PassConstants;
  MaterialBuffer : UploadBuffer.t MaterialData;
  ObjectCB : UploadBuffer.t ObjectConstants;
  Fence : Z       (* UINT64 *)
}.

Definition FrameResource_new (passCount objectCount materialCount : Z) : FrameResource :=
  mkFrameResource (UploadBuffer.create passCount) (UploadBuffer.create materialCount)
                  (UploadBuffer.create objectCount) 0.

Definition set_PassCB (b : UploadBuffer.t PassConstants) (fr : FrameResource) :=
  mkFrameResource b (MaterialBuffer fr) (ObjectCB fr) (Fence fr).
Definition set_MaterialBuffer (b : UploadBuffer.t MaterialData) (fr : FrameResource) :=
  mkFrameResource (PassCB fr) b (ObjectCB fr) (Fence fr).
Definition set_ObjectCB (b : UploadBuffer.t ObjectConstants) (fr : FrameResource) :=
  mkFrameResource (PassCB fr) (MaterialBuffer fr) b (Fence fr).
Definition set_Fence (v : Z) (fr : FrameResource) :=
  mkFrameResource (PassCB fr) (MaterialBuffer fr) (ObjectCB fr) v.

(** The members of [i4CastleApp] (and of its base [D3DApp]) that the code
    below reads or writes.  [unique_ptr] values of the maps are [option]s,
    [None] being an empty pointer. *)
Record i4CastleApp := mkApp {
  mFrameResources : list FrameResource;
  mCurrFrameResource : option nat;   (* FrameResource*: a position in mFrameResources *)
  mCurrFrameResourceIndex : Z;   (* int *)
  mGeometries : gmap string (option MeshGeometry.t);
  mMaterials : gmap string (option Material.t);
  mAllRitems : list RenderItem.t;
  mOpaqueRitems : list nat;   (* RenderItem*: positions in mAllRitems *)
  mMainPassCB : PassConstants;
  mCamera : Camera;
  mCurrentFence : Z;   (* UINT64, D3DApp *)
  mCurrBackBuffer : Z;   (* int, D3DApp *)
  md3dDevice : bool   (* whether the ComPtr is non-null, D3DApp *)
}.

Definition set_mFrameResources v (a : i4CastleApp) : i4CastleApp :=
  mkApp v (mCurrFrameResource a) (mCurrFrameResourceIndex a) (mGeometries a) (mMaterials a)
    (mAllRitems a) (mOpaqueRitems a) (mMainPassCB a) (mCamera a) (mCurrentFence a)
    (mCurrBackBuffer a) (md3dDevice a).
Definition set_mCurrFrameResource v (a : i4CastleApp) : i4CastleApp :=
  mkApp (mFrameResources a) v (mCurrFrameResourceIndex a) (mGeometries a) (mMaterials a)
    (mAllRitems a) (mOpaqueRitems a) (mMainPassCB a) (mCamera a) (mCurrentFence a)
    (mCurrBackBuffer a) (md3dDevice a).
Definition set_mCurrFrameResourceIndex v (a : i4CastleApp) : i4CastleApp :=
  mkApp (mFrameResources a) (mCurrFrameResource a) v (mGeometries a) (mMaterials a) (mAllRitems
    a) (mOpaqueRitems a) (mMainPassCB a) (mCamera a) (mCurrentFence a) (mCurrBackBuffer a)
    (md3dDevice a).
Definition set_mGeometries v (a : i4CastleApp) : i4CastleApp :=
  mkApp (mFrameResources a) (mCurrFrameResource a) (mCurrFrameResourceIndex a) v (mMaterials a)
    (mAllRitems a) (mOpaqueRitems a) (mMainPassCB a) (mCamera a) (mCurrentFence a)
    (mCurrBackBuffer a) (md3dDevice a).
Definition set_mMaterials v (a : i4CastleApp) : i4CastleApp :=
  mkApp (mFrameResources a) (mCurrFrameResource a) (mCurrFrameResourceIndex a) (mGeometries a)
    v (mAllRitems a) (mOpaqueRitems a) (mMainPassCB a) (mCamera a) (mCurrentFence a)
    (mCurrBackBuffer a) (md3dDevice a).
Definition set_mAllRitems v (a : i4CastleApp) : i4CastleApp :=
  mkApp (mFrameResources a) (mCurrFrameResource a) (mCurrFrameResourceIndex a) (mGeometries a)
    (mMaterials a) v (mOpaqueRitems a) (mMainPassCB a) (mCamera a) (mCurrentFence a)
    (mCurrBackBuffer a) (md3dDevice a).
Definition set_mOpaqueRitems v (a : i4CastleApp) : i4CastleApp :=
  mkApp (mFrameResources a) (mCurrFrameResource a) (mCurrFrameResourceIndex a) (mGeometries a)
    (mMaterials a) (mAllRitems a) v (mMainPassCB a) (mCamera a) (mCurrentFence a)
    (mCurrBackBuffer a) (md3dDevice a).
Definition set_mMainPassCB v (a : i4CastleApp) : i4CastleApp :=
  mkApp (mFrameResources a) (mCurrFrameResource a) (mCurrFrameResourceIndex a) (mGeometries a)
    (mMaterials a) (mAllRitems a) (mOpaqueRitems a) v (mCamera a) (mCurrentFence a)
    (mCurrBackBuffer a) (md3dDevice a).
Definition set_mCamera v (a : i4CastleApp) : i4CastleApp :=
  mkApp (mFrameResources a) (mCurrFrameResource a) (mCurrFrameResourceIndex a) (mGeometries a)
    (mMaterials a) (mAllRitems a) (mOpaqueRitems a) (mMainPassCB a) v (mCurrentFence a)
    (mCurrBackBuffer a) (md3dDevice a).
Definition set_mCurrentFence v (a : i4CastleApp) : i4CastleApp :=
  mkApp (mFrameResources a) (mCurrFrameResource a) (mCurrFrameResourceIndex a) (mGeometries a)
    (mMaterials a) (mAllRitems a) (mOpaqueRitems a) (mMainPassCB a) (mCamera a) v
    (mCurrBackBuffer a) (md3dDevice a).
Definition set_mCurrBackBuffer v (a : i4CastleApp) : i4CastleApp :=
  mkApp (mFrameResources a) (mCurrFrameResource a) (mCurrFrameResourceIndex a) (mGeometries a)
    (mMaterials a) (mAllRitems a) (mOpaqueRitems a) (mMainPassCB a) (mCamera a) (mCurrentFence
    a) v (md3dDevice a).
Definition set_md3dDevice v (a : i4CastleApp) : i4CastleApp :=
  mkApp (mFrameResources a) (mCurrFrameResource a) (mCurrFrameResourceIndex a) (mGeometries a)
    (mMaterials a) (mAllRitems a) (mOpaqueRitems a) (mMainPassCB a) (mCamera a) (mCurrentFence
    a) (mCurrBackBuffer a) v.

(** Modelled from the spec: the members as the constructors of [i4CastleApp]
    and [D3DApp] leave them; [mCurrentFence] is declared in d3dApp.h and "the
    fence counter starts at 0". *)
Definition theApp : i4CastleApp :=
  mkApp [] None 0 ∅ ∅ [] [] PassConstants_default Camera_default 0 0 false.

(** ** Building the scene *)

Definition makeMaterial (Name : string) (MatCBIndex DiffuseSrvHeapIndex : Z)
    (DiffuseAlbedo : XMFLOAT4) (FresnelR0 : XMFLOAT3) (Roughness : float) : Material.t :=
  Material.mk Name MatCBIndex DiffuseSrvHeapIndex
    (Material.NumFramesDirty Material.make_unique)
    DiffuseAlbedo FresnelR0 Roughness
    (Material.MatTransform Material.make_unique).

Definition bricks0 : Material.t :=
  makeMaterial "bricks0" 0 0 (mkFloat4 (F32.dec 10 1) (F32.dec 10 1) (F32.dec 10 1) (F32.dec 10 1))
    (mkFloat3 (F32.dec 2 2) (F32.dec 2 2) (F32.dec 2 2)) (F32.dec 1 1).

Definition stone0 : Material.t :=
  makeMaterial "stone0" 1 1 (mkFloat4 (F32.dec 10 1) (F32.dec 10 1) (F32.dec 10 1) (F32.dec 10 1))
    (mkFloat3 (F32.dec 5 2) (F32.dec 5 2) (F32.dec 5 2)) (F32.dec 3 1).

Definition tile0 : Material.t :=
  makeMaterial "tile0" 2 2 (mkFloat4 (F32.dec 10 1) (F32.dec 10 1) (F32.dec 10 1) (F32.dec 10 1))
    (mkFloat3 (F32.dec 2 2) (F32.dec 2 2) (F32.dec 2 2)) (F32.dec 3 1).

Definition crate0 : Material.t :=
  makeMaterial "crate0" 3 3 (mkFloat4 (F32.dec 10 1) (F32.dec 10 1) (F32.dec 10 1) (F32.dec 10 1))
    (mkFloat3 (F32.dec 5 2) (F32.dec 5 2) (F32.dec 5 2)) (F32.dec 2 1).

Definition diamondMat : Material.t :=
  makeMaterial "diaMat" 4 4 (mkFloat4 (F32.dec 0 0) (F32.dec 0 0) (F32.dec 1 0) (F32.dec 1 0))
    (mkFloat3 (F32.dec 5 2) (F32.dec 5 2) (F32.dec 5 2)) (F32.dec 3 1).

(** [BuildMaterials]: the five materials are made, four of them are moved
    into [mMaterials]; the line that would store a fifth entry is commented
    out in the source, and [diamondMat] is destroyed at the end of the
    function. *)
Definition BuildMaterials (a : i4CastleApp) : i4CastleApp :=
  let m := mMaterials a in
  let m := <["bricks0" := Some bricks0]> m in
  let m := <["stone0" := Some stone0]> m in
  let m := <["tile0" := Some tile0]> m in
  let m := <["crate0" := Some crate0]> m in
  set_mMaterials m a.

(** *** The meshes and the packed geometry *)

Definition box : GeometryGenerator.MeshData := CreateBox (F32.dec 15 1) (F32.dec 5 1) (F32.dec 15 1) 3.
Definition grid : GeometryGenerator.MeshData := CreateGrid (F32.dec 200 1) (F32.dec 300 1) 60 40.
Definition sphere : GeometryGenerator.MeshData := CreateSphere (F32.dec 5 1) 20 20.
Definition cylinder : GeometryGenerator.MeshData :=
  CreateCylinder (F32.dec 5 1) (F32.dec 5 1) (F32.dec 30 1) 20 20.
Definition diamond : GeometryGenerator.MeshData := CreateDiamond (F32.dec 1 0) (F32.dec 1 0).
Definition wedge : GeometryGenerator.MeshData := CreateWedge (F32.dec 15 1) (F32.dec 15 1) (F32.dec 15 1) 3.
Definition octahedron : GeometryGenerator.MeshData := CreateOctahedron (F32.dec 5 1).
Definition triangularPrism : GeometryGenerator.MeshData :=
  CreateTriangularPrism (F32.dec 1 0) (F32.dec 1 0) (F32.dec 1 0) 3.
Definition hexagon : GeometryGenerator.MeshData := CreateHexagon (F32.dec 15 1) (F32.dec 15 1) 3.
Definition octagon : GeometryGenerator.MeshData := CreateOctagon (F32.dec 15 1) (F32.dec 15 1) 3.
Definition cone : GeometryGenerator.MeshData := CreateCone (F32.dec 10 1) (F32.dec 10 1) 20 20.
Definition pyramid : GeometryGenerator.MeshData :=
  CreatePyramid (F32.dec 1 0) (F32.dec 1 0) (F32.dec 0 0) (F32.dec 0 0) (F32.dec 1 0) 3.
Definition container : GeometryGenerator.MeshData := CreateHexagonContainer (F32.dec 1 0) (F32.dec 1 0) 3.
Definition star : GeometryGenerator.MeshData := CreateCandy (F32.dec 1 0) (F32.dec 1 0) 3.

(** The body of each copy loop: position, normal and texture coordinate. *)
Definition packVertex (v : GeometryGenerator.Vertex) : Vertex :=
  mkVertex (GeometryGenerator.Position v) (GeometryGenerator.Normal v) (GeometryGenerator.TexC v).

(** One copy loop [for (i = 0; i < m.Vertices.size(); ++i, ++k) vertices[k] = ...]:
    the vertices of [m] land at consecutive positions from the running [k]. *)
Definition packVertices (m : GeometryGenerator.MeshData) : list Vertex :=
  map packVertex (GeometryGenerator.Vertices m).

Definition nVertices (m : GeometryGenerator.MeshData) : Z := Int.size (GeometryGenerator.Vertices m).
Definition nIndices (m : GeometryGenerator.MeshData) : Z := Int.size (GeometryGenerator.Indices32 m).

(** The [MeshGeometry] that [BuildShapeGeometry] assembles: offsets in [UINT]
    arithmetic, one vertex array, one 16-bit index array, and the draw
    arguments of the fourteen submeshes. *)
Definition shapeGeo : MeshGeometry.t :=
  let boxVertexOffset := 0 in
  let gridVertexOffset := nVertices box in
  let sphereVertexOffset := Int.UINT (gridVertexOffset + nVertices grid) in
  let cylinderVertexOffset := Int.UINT (sphereVertexOffset + nVertices sphere) in
  let diamondVertexOffset := Int.UINT (cylinderVertexOffset + nVertices cylinder) in
  let wedgeVertexOffset := Int.UINT (diamondVertexOffset + nVertices diamond) in
  let octahedronVertexOffset := Int.UINT (wedgeVertexOffset + nVertices wedge) in
  let triPrismVertexOffset := Int.UINT (octahedronVertexOffset + nVertices octahedron) in
  let hexagonVertexOffset := Int.UINT (triPrismVertexOffset + nVertices triangularPrism) in
  let octagonVertexOffset := Int.UINT (hexagonVertexOffset + nVertices hexagon) in
  let coneVertexOffset := Int.UINT (octagonVertexOffset + nVertices octagon) in
  let pyramidVertexOffset := Int.UINT (coneVertexOffset + nVertices cone) in
  let containerVertexOffset := Int.UINT (pyramidVertexOffset + nVertices pyramid) in
  let starVertexOffset := Int.UINT (containerVertexOffset + nVertices container) in

  let boxIndexOffset := 0 in
  let gridIndexOffset := nIndices box in
  let sphereIndexOffset := Int.UINT (gridIndexOffset + nIndices grid) in
  let cylinderIndexOffset := Int.UINT (sphereIndexOffset + nIndices sphere) in
  let diamondIndexOffset := Int.UINT (cylinderIndexOffset + nIndices cylinder) in
  let wedgeIndexOffset := Int.UINT (diamondIndexOffset + nIndices diamond) in
  let octahedronIndexOffset := Int.UINT (wedgeIndexOffset + nIndices wedge) in
  let triPrismIndexOffset := Int.UINT (octahedronIndexOffset + nIndices octahedron) in
  let hexagonIndexOffset := Int.UINT (triPrismIndexOffset + nIndices triangularPrism) in
  let octagonIndexOffset := Int.UINT (hexagonIndexOffset + nIndices hexagon) in
  let coneIndexOffset := Int.UINT (octagonIndexOffset + nIndices octagon) in
  let pyramidIndexOffset := Int.UINT (coneIndexOffset + nIndices cone) in
  let containerIndexOffset := Int.UINT (pyramidIndexOffset + nIndices pyramid) in
  let starIndexOffset := Int.UINT (containerIndexOffset + nIndices container) in

  let boxSubmesh := SubmeshGeometry.mk (nIndices box) boxIndexOffset (Int.INT boxVertexOffset) in
  let gridSubmesh := SubmeshGeometry.mk (nIndices grid) gridIndexOffset (Int.INT gridVertexOffset) in
  let sphereSubmesh :=
    SubmeshGeometry.mk (nIndices sphere) sphereIndexOffset (Int.INT sphereVertexOffset) in
  let cylinderSubmesh :=
    SubmeshGeometry.mk (nIndices cylinder) cylinderIndexOffset (Int.INT cylinderVertexOffset) in
  let diamondSubmesh :=
    SubmeshGeometry.mk (nIndices diamond) diamondIndexOffset (Int.INT diamondVertexOffset) in
  let wedgeSubmesh :=
    SubmeshGeometry.mk (nIndices wedge) wedgeIndexOffset (Int.INT wedgeVertexOffset) in
  let octahedronSubmesh :=
    SubmeshGeometry.mk (nIndices octahedron) octahedronIndexOffset (Int.INT octahedronVertexOffset) in
  let triPrismSubmesh :=
    SubmeshGeometry.mk (nIndices triangularPrism) triPrismIndexOffset (Int.INT triPrismVertexOffset) in
  let hexagonSubmesh :=
    SubmeshGeometry.mk (nIndices hexagon) hexagonIndexOffset (Int.INT hexagonVertexOffset) in
  let octagonSubmesh :=
    SubmeshGeometry.mk (nIndices octagon) octagonIndexOffset (Int.INT octagonVertexOffset) in
  let coneSubmesh := SubmeshGeometry.mk (nIndices cone) coneIndexOffset (Int.INT coneVertexOffset) in
  let pyramidSubmesh :=
    SubmeshGeometry.mk (nIndices pyramid) pyramidIndexOffset (Int.INT pyramidVertexOffset) in
  let containerSubmesh :=
    SubmeshGeometry.mk (nIndices container) containerIndexOffset (Int.INT containerVertexOffset) in
  let starSubmesh := SubmeshGeometry.mk (nIndices star) starIndexOffset (Int.INT starVertexOffset) in

  let vertices :=
    packVertices box ++ packVertices grid ++ packVertices sphere ++ packVertices cylinder ++
    packVertices diamond ++ packVertices wedge ++ packVertices octahedron ++
    packVertices triangularPrism ++ packVertices hexagon ++ packVertices octagon ++
    packVertices cone ++ packVertices pyramid ++ packVertices container ++ packVertices star in

  let indices :=
    GeometryGenerator.GetIndices16 box ++ GeometryGenerator.GetIndices16 grid ++
    GeometryGenerator.GetIndices16 sphere ++ GeometryGenerator.GetIndices16 cylinder ++
    GeometryGenerator.GetIndices16 diamond ++ GeometryGenerator.GetIndices16 wedge ++
    GeometryGenerator.GetIndices16 octahedron ++ GeometryGenerator.GetIndices16 triangularPrism ++
    GeometryGenerator.GetIndices16 hexagon ++ GeometryGenerator.GetIndices16 octagon ++
    GeometryGenerator.GetIndices16 cone ++ GeometryGenerator.GetIndices16 pyramid ++
    GeometryGenerator.GetIndices16 container ++ GeometryGenerator.GetIndices16 star in

  let vbByteSize := Int.UINT (Int.size vertices * sizeof_Vertex) in
  let ibByteSize := Int.UINT (Int.size indices * sizeof_uint16) in

  let DrawArgs : gmap string SubmeshGeometry.t := ∅ in
  let DrawArgs := <["box" := boxSubmesh]> DrawArgs in
  let DrawArgs := <["grid" := gridSubmesh]> DrawArgs in
  let DrawArgs := <["sphere" := sphereSubmesh]> DrawArgs in
  let DrawArgs := <["cylinder" := cylinderSubmesh]> DrawArgs in
  let DrawArgs := <["diamond" := diamondSubmesh]> DrawArgs in
  let DrawArgs := <["wedge" := wedgeSubmesh]> DrawArgs in
  let DrawArgs := <["octahedron" := octahedronSubmesh]> DrawArgs in
  let DrawArgs := <["triangularPrism" := triPrismSubmesh]> DrawArgs in
  let DrawArgs := <["hexagon" := hexagonSubmesh]> DrawArgs in
  let DrawArgs := <["octagon" := octagonSubmesh]> DrawArgs in
  let DrawArgs := <["cone" := coneSubmesh]> DrawArgs in
  let DrawArgs := <["pyramid" := pyramidSubmesh]> DrawArgs in
  let DrawArgs := <["container" := containerSubmesh]> DrawArgs in
  let DrawArgs := <["star" := starSubmesh]> DrawArgs in
  MeshGeometry.mk "shapeGeo" vertices indices sizeof_Vertex vbByteSize ibByteSize DrawArgs.

(** The meshes in the order in which [BuildShapeGeometry] concatenates them,
    each with the name under which its draw arguments are stored. *)
Definition shapes : list (string * GeometryGenerator.MeshData) :=
  [("box", box); ("grid", grid); ("sphere", sphere); ("cylinder", cylinder);
   ("diamond", diamond); ("wedge", wedge); ("octahedron", octahedron);
   ("triangularPrism", triangularPrism); ("hexagon", hexagon); ("octagon", octagon);
   ("cone", cone); ("pyramid", pyramid); ("container", container); ("star", star)].

(** The number of vertices, and of indices, of the meshes that precede the
    [k]-th one. *)
Definition verticesBefore (k : nat) : nat :=
  sum_list (take k (map (fun s => length (GeometryGenerator.Vertices s.2)) shapes)).
Definition indicesBefore (k : nat) : nat :=
  sum_list (take k (map (fun s => length (GeometryGenerator.Indices32 s.2)) shapes)).

(** *** Render items *)

(** [BuildRenderItems] reads and writes the members of the application
    object and dereferences pointers: a state monad over [i4CastleApp] in
    which dereferencing [nullptr] fails. *)
Definition Build (A : Type) : Type := i4CastleApp -> option (A * i4CastleApp).

#[export] Instance Build_ret : MRet Build := fun A a s => Some (a, s).
#[export] Instance Build_bind : MBind Build :=
  fun A B f c s => match c s with Some (a, s') => f a s' | None => None end.

(** [mMaterials[name].get()]: [operator[]] inserts an empty [unique_ptr] for
    an absent name; the pointer returned is null when the entry is empty. *)
Definition mMaterials_at (name : string) : Build (option string) := fun a =>
  match mMaterials a !! name with
  | Some (Some _) => Some (Some name, a)
  | Some None => Some (None, a)
  | None => Some (None, set_mMaterials (<[name := None]> (mMaterials a)) a)
  end.

(** [mGeometries[name].get()] *)
Definition mGeometries_at (name : string) : Build (option string) := fun a =>
  match mGeometries a !! name with
  | Some (Some _) => Some (Some name, a)
  | Some None => Some (None, a)
  | None => Some (None, set_mGeometries (<[name := None]> (mGeometries a)) a)
  end.

(** [Geo->DrawArgs[name]]: [Geo] is dereferenced, and [operator[]] inserts a
    default submesh for an absent name. *)
Definition DrawArgs_at (Geo : option string) (name : string) : Build SubmeshGeometry.t := fun a =>
  g ← Geo;
  mg ← mGeometries a !! g;
  geo ← mg;
  match MeshGeometry.DrawArgs geo !! name with
  | Some sm => Some (sm, a)
  | None =>
      let geo' :=
        MeshGeometry.set_DrawArgs (<[name := SubmeshGeometry.default]> (MeshGeometry.DrawArgs geo)) geo in
      Some (SubmeshGeometry.default, set_mGeometries (<[g := Some geo']> (mGeometries a)) a)
  end.

(** [mAllRitems.push_back(std::move(ritem))] *)
Definition push_back (e : RenderItem.t) : Build unit := fun a =>
  Some (tt, set_mAllRitems (mAllRitems a ++ [e]) a).

(** The block of assignments the source repeats for every render item:
    [World], [TexTransform], [ObjCBIndex], [Mat = mMaterials[mat].get()],
    [Geo = mGeometries["shapeGeo"].get()], the primitive type, and the three
    draw arguments read from [Geo->DrawArgs[shape]].  [NumFramesDirty] keeps
    the value of the member initialiser. *)
Definition ritem (World TexTransform : XMFLOAT4X4) (ObjCBIndex : Z) (mat shape : string)
  : Build RenderItem.t :=
  Mat ← mMaterials_at mat;
  Geo ← mGeometries_at "shapeGeo";
  ic ← DrawArgs_at Geo shape;
  si ← DrawArgs_at Geo shape;
  bv ← DrawArgs_at Geo shape;
  mret (RenderItem.mk World TexTransform
          (RenderItem.NumFramesDirty RenderItem.make_unique) ObjCBIndex Mat Geo
          D3D11_PRIMITIVE_TOPOLOGY_TRIANGLELIST
          (SubmeshGeometry.IndexCount ic)
          (SubmeshGeometry.StartIndexLocation si)
          (SubmeshGeometry.BaseVertexLocation bv)).

(** [for (int i = 0; i < 2; ++i) body], threading the [UINT objCBIndex] that
    the body post-increments. *)
Definition for_i_0_2 (body : Z -> Z -> Build Z) (objCBIndex : Z) : Build Z :=
  objCBIndex ← body 0 objCBIndex;
  body 1 objCBIndex.

Definition incr (objCBIndex : Z) : Z := Int.UINT (objCBIndex + 1).

Definition brickTexTransform : XMFLOAT4X4 :=
  XM.XMMatrixScaling (F32.dec 10 1) (F32.dec 30 1) (F32.dec 10 1).
Definition sphereTransform : XMFLOAT4X4 :=
  XM.XMMatrixScaling (F32.dec 14 1) (F32.dec 14 1) (F32.dec 14 1).
Definition hexTransform : XMFLOAT4X4 :=
  XM.XMMatrixScaling (F32.dec 5 1) (F32.dec 12 1) (F32.dec 5 1).
Definition coneTransform : XMFLOAT4X4 :=
  XM.XMMatrixScaling (F32.dec 7 1) (F32.dec 7 1) (F32.dec 7 1).

(** The local matrices of the first placement loop, [i] being the loop
    counter: [1.5f + i * 8.9f] converts [i] to [float]. *)
Definition leftCylWorld (i : Z) : XMFLOAT4X4 :=
  XM.XMMatrixTranslation (F32.neg (F32.dec 30 1)) (F32.dec 2 0)
    (F32.dec 15 1 + F32.of_int i * F32.dec 89 1)%f32.
Definition rightCylWorld (i : Z) : XMFLOAT4X4 :=
  XM.XMMatrixTranslation (F32.dec 30 1) (F32.dec 2 0)
    (F32.dec 15 1 + F32.of_int i * F32.dec 89 1)%f32.
Definition leftSphereWorld (i : Z) : XMFLOAT4X4 :=
  XM.XMMatrixTranslation (F32.neg (F32.dec 30 1)) (F32.dec 5 0)
    (F32.dec 15 1 + F32.of_int i * F32.dec 89 1)%f32.
Definition rightSphereWorld (i : Z) : XMFLOAT4X4 :=
  XM.XMMatrixTranslation (F32.dec 30 1) (F32.dec 5 0)
    (F32.dec 15 1 + F32.of_int i * F32.dec 89 1)%f32.

(** The body of the loop at source lines 1223-1279. *)
Definition cylSphereLoop (i : Z) (objCBIndex : Z) : Build Z :=
  leftCylRitem ← ritem (brickTexTransform * rightCylWorld i)%xm brickTexTransform
                   objCBIndex "stone0" "octagon";
  let objCBIndex := incr objCBIndex in
  rightCylRitem ← ritem (brickTexTransform * leftCylWorld i)%xm brickTexTransform
                   objCBIndex "stone0" "octagon";
  let objCBIndex := incr objCBIndex in
  leftSphereRitem ← ritem (sphereTransform * leftSphereWorld i)%xm
                   (RenderItem.TexTransform RenderItem.make_unique)
                   objCBIndex "stone0" "sphere";
  let objCBIndex := incr objCBIndex in
  rightSphereRitem ← ritem (sphereTransform * rightSphereWorld i)%xm XM.Identity4x4
                   objCBIndex "stone0" "sphere";
  let objCBIndex := incr objCBIndex in
  _ ← push_back leftCylRitem;
  _ ← push_back rightCylRitem;
  _ ← push_back leftSphereRitem;
  _ ← push_back rightSphereRitem;
  mret objCBIndex.

Definition leftHexWorld (i : Z) : XMFLOAT4X4 :=
  XM.XMMatrixTranslation (F32.neg (F32.dec 70 1)) (F32.dec 6 1)
    (F32.dec 5 1 + F32.of_int i * F32.dec 12 0)%f32.
Definition rightHexWorld (i : Z) : XMFLOAT4X4 :=
  XM.XMMatrixTranslation (F32.dec 70 1) (F32.dec 6 1)
    (F32.dec 5 1 + F32.of_int i * F32.dec 12 0)%f32.
Definition leftConeWorld (i : Z) : XMFLOAT4X4 :=
  XM.XMMatrixTranslation (F32.neg (F32.dec 70 1)) (F32.dec 16 1)
    (F32.dec 5 1 + F32.of_int i * F32.dec 12 0)%f32.
Definition rightConeWorld (i : Z) : XMFLOAT4X4 :=
  XM.XMMatrixTranslation (F32.dec 70 1) (F32.dec 16 1)
    (F32.dec 5 1 + F32.of_int i * F32.dec 12 0)%f32.

(** The body of the loop at source lines 1284-1340; the source calls the two
    cone matrices [leftSphereWorld] and [rightSphereWorld] again. *)
Definition hexConeLoop (i : Z) (objCBIndex : Z) : Build Z :=
  leftHexRitem ← ritem (hexTransform * leftHexWorld i)%xm brickTexTransform
                   objCBIndex "crate0" "hexagon";
  let objCBIndex := incr objCBIndex in
  righHexRitem ← ritem (hexTransform * rightHexWorld i)%xm brickTexTransform
                   objCBIndex "crate0" "hexagon";
  let objCBIndex := incr objCBIndex in
  leftSphereRitem ← ritem (coneTransform * leftConeWorld i)%xm
                   (RenderItem.TexTransform RenderItem.make_unique)
                   objCBIndex "crate0" "cone";
  let objCBIndex := incr objCBIndex in
  rightSphereRitem ← ritem (coneTransform * rightConeWorld i)%xm XM.Identity4x4
                   objCBIndex "crate0" "cone";
  let objCBIndex := incr objCBIndex in
  _ ← push_back leftHexRitem;
  _ ← push_back righHexRitem;
  _ ← push_back leftSphereRitem;
  _ ← push_back rightSphereRitem;
  mret objCBIndex.

(** The five wall loops at source lines 1438-1511 have one item per
    iteration; [World i] is the world matrix of iteration [i]. *)
Definition wallLoop (World : Z -> XMFLOAT4X4) (i : Z) (objCBIndex : Z) : Build Z :=
  wallsRitem ← ritem (World i) (XM.XMMatrixScaling (F32.dec 10 1) (F32.dec 10 1) (F32.dec 10 1))
                  objCBIndex "crate0" "box";
  let objCBIndex := incr objCBIndex in
  _ ← push_back wallsRitem;
  mret objCBIndex.

(** A render item that is pushed as soon as it is filled in. *)
Definition item (World TexTransform : XMFLOAT4X4) (ObjCBIndex : Z) (mat shape : string)
  : Build unit :=
  e ← ritem World TexTransform ObjCBIndex mat shape;
  push_back e.

(** The world matrices of the five wall loops, [i] being the loop counter. *)
Definition wallsInMidWorld (i : Z) : XMFLOAT4X4 := (* source line 1441 *)
  (XM.XMMatrixScaling (F32.dec 2 1) (F32.dec 26 1) (F32.dec 3 0)
   * XMMatrixRotationY (F32.XMConvertToRadians (F32.of_int (90)))
   * XM.XMMatrixTranslation ((F32.neg (F32.dec 5 0)) + (F32.dec 10 0) * F32.of_int i)%f32
       (F32.dec 5 1) (F32.dec 5 1))%xm.
Definition wallsInMidWorld' (i : Z) : XMFLOAT4X4 := (* source line 1456 *)
  (XM.XMMatrixScaling (F32.dec 2 1) (F32.dec 26 1) (F32.dec 2 0)
   * XMMatrixRotationY (F32.XMConvertToRadians (F32.of_int (90)))
   * XM.XMMatrixTranslation ((F32.neg (F32.dec 4 0)) + (F32.dec 8 0) * F32.of_int i)%f32
       (F32.dec 5 1) (F32.neg (F32.dec 55 1)))%xm.
Definition wallsInMidWorld2 (i : Z) : XMFLOAT4X4 := (* source line 1471 *)
  (XM.XMMatrixScaling (F32.dec 2 1) (F32.dec 26 1) (F32.dec 4 0)
   * XM.XMMatrixTranslation ((F32.neg (F32.dec 535 2)) + (F32.dec 107 1) * F32.of_int i)%f32
       (F32.dec 5 1) (F32.neg (F32.dec 85 1)))%xm.
Definition frontWallsWorld (i : Z) : XMFLOAT4X4 := (* source line 1486 *)
  (XM.XMMatrixScaling (F32.dec 2 1) (F32.dec 26 1) (F32.dec 2 0)
   * XMMatrixRotationY (F32.XMConvertToRadians (F32.of_int (90)))
   * XM.XMMatrixTranslation ((F32.neg (F32.dec 4 0)) + (F32.dec 8 0) * F32.of_int i)%f32
       (F32.dec 5 1) (F32.neg (F32.dec 115 1)))%xm.
Definition CorridorWallsWorld (i : Z) : XMFLOAT4X4 := (* source line 1501 *)
  (XM.XMMatrixScaling (F32.dec 2 1) (F32.dec 26 1) (F32.dec 42 1)
   * XM.XMMatrixTranslation ((F32.neg (F32.dec 27 1)) + (F32.dec 54 1) * F32.of_int i)%f32
       (F32.dec 5 1) (F32.neg (F32.dec 25 1)))%xm.

(** [for (auto& e : mAllRitems) mOpaqueRitems.push_back(e.get());] *)
Definition collectOpaque : Build unit := fun a =>
  Some (tt, set_mOpaqueRitems (mOpaqueRitems a ++ seq 0 (length (mAllRitems a))) a).

(** [BuildRenderItems]: the items in the order of the source, each with the
    literal [ObjCBIndex] the source assigns; the loops restart their counter
    at the literal the source gives. *)
Definition BuildRenderItems : Build unit :=
  (* FountainBaseCylinderRitem *)
  _ ← item (XM.XMMatrixScaling (F32.dec 43 1) (F32.dec 3 1) (F32.dec 43 1)
          * XM.XMMatrixTranslation (F32.dec 0 0) (F32.dec 3 1) (F32.neg (F32.dec 8 0)))%xm
        (XM.XMMatrixScaling (F32.dec 10 1) (F32.dec 10 1) (F32.dec 10 1)) 0 "bricks0" "cylinder";
  (* containerRitem *)
  _ ← item (XM.XMMatrixScaling (F32.dec 13 1) (F32.dec 1 0) (F32.dec 13 1)
          * XM.XMMatrixTranslation (F32.dec 0 0) (F32.dec 13 1) (F32.neg (F32.dec 8 0)))%xm
        (XM.XMMatrixScaling (F32.dec 10 1) (F32.dec 10 1) (F32.dec 10 1)) 1 "bricks0" "container";
  (* pyramidRitem *)
  _ ← item (XM.XMMatrixScaling (F32.dec 1 0) (F32.dec 15 1) (F32.dec 1 0)
          * XM.XMMatrixTranslation (F32.neg (F32.dec 35 1)) (F32.dec 5 1) (F32.neg (F32.dec 8 0)))%xm
        (XM.XMMatrixScaling (F32.dec 10 1) (F32.dec 10 1) (F32.dec 10 1)) 2 "stone0" "pyramid";
  (* pyramidRitem2 *)
  _ ← item (XM.XMMatrixScaling (F32.dec 1 0) (F32.dec 15 1) (F32.dec 1 0)
          * XM.XMMatrixTranslation (F32.dec 35 1) (F32.dec 5 1) (F32.neg (F32.dec 8 0)))%xm
        (XM.XMMatrixScaling (F32.dec 10 1) (F32.dec 10 1) (F32.dec 10 1)) 3 "stone0" "pyramid";
  (* coneRitem *)
  _ ← item (XM.XMMatrixScaling (F32.dec 3 0) (F32.dec 2 0) (F32.dec 3 0)
          * XM.XMMatrixTranslation (F32.dec 0 1) (F32.dec 75 1) (F32.dec 60 1))%xm
        (XM.XMMatrixScaling (F32.dec 10 1) (F32.dec 10 1) (F32.dec 10 1)) 4 "stone0" "cone";
  (* cylinderRitem *)
  _ ← item (XM.XMMatrixScaling (F32.dec 5 0) (F32.dec 1 0) (F32.dec 5 0)
          * XM.XMMatrixTranslation (F32.dec 0 1) (F32.dec 5 0) (F32.dec 60 1))%xm
        (XM.XMMatrixScaling (F32.dec 10 1) (F32.dec 10 1) (F32.dec 10 1)) 5 "stone0" "cylinder";
  (* HexagonRitem *)
  _ ← item (XM.XMMatrixScaling (F32.dec 45 1) (F32.dec 20 1) (F32.dec 45 1)
          * XM.XMMatrixTranslation (F32.dec 0 1) (F32.dec 20 1) (F32.dec 60 1))%xm
        (XM.XMMatrixScaling (F32.dec 10 1) (F32.dec 10 1) (F32.dec 10 1)) 6 "stone0" "hexagon";
  (* triPrismRitem *)
  _ ← item (XM.XMMatrixScaling (F32.dec 15 1) (F32.dec 15 1) (F32.dec 25 1)
          * XM.XMMatrixTranslation (F32.dec 0 1) (F32.dec 5 1) (F32.neg (F32.dec 25 1)))%xm
        (XM.XMMatrixScaling (F32.dec 10 1) (F32.dec 10 1) (F32.dec 10 1)) 7 "tile0" "triangularPrism";
  (* leftDoorRitem *)
  _ ← item (XM.XMMatrixScaling (F32.dec 5 1) (F32.dec 20 1) (F32.dec 7 1)
          * XMMatrixRotationX (F32.XMConvertToRadians (F32.of_int (-90)))
          * XMMatrixRotationY (F32.XMConvertToRadians (F32.of_int (-30)))
          * XM.XMMatrixTranslation (F32.neg (F32.dec 17 1)) (F32.dec 25 2) (F32.neg (F32.dec 120 1)))%xm
        (XM.XMMatrixScaling (F32.dec 10 1) (F32.dec 10 1) (F32.dec 10 1)) 8 "tile0" "triangularPrism";
  (* rightDoorRitem *)
  _ ← item (XM.XMMatrixScaling (F32.dec 5 1) (F32.dec 20 1) (F32.dec 7 1)
          * XMMatrixRotationX (F32.XMConvertToRadians (F32.of_int (-90)))
          * XMMatrixRotationY (F32.XMConvertToRadians (F32.of_int (60)))
          * XM.XMMatrixTranslation (F32.dec 15 1) (F32.dec 25 2) (F32.neg (F32.dec 120 1)))%xm
        (XM.XMMatrixScaling (F32.dec 10 1) (F32.dec 10 1) (F32.dec 10 1)) 9 "tile0" "triangularPrism";
  (* diamondRitem *)
  _ ← item (XM.XMMatrixScaling (F32.dec 7 1) (F32.dec 5 1) (F32.dec 7 1)
          * XM.XMMatrixTranslation (F32.dec 0 1) (F32.dec 2 0) (F32.neg (F32.dec 80 1)))%xm
        (XM.XMMatrixScaling (F32.dec 10 1) (F32.dec 10 1) (F32.dec 10 1)) 10 "stone0" "diamond";
  (* boxRitem *)
  _ ← item (XM.XMMatrixScaling (F32.dec 45 1) (F32.dec 20 1) (F32.dec 45 1)
          * XM.XMMatrixTranslation (F32.dec 0 1) (F32.dec 5 1) (F32.dec 60 1))%xm
        (XM.XMMatrixScaling (F32.dec 10 1) (F32.dec 10 1) (F32.dec 10 1)) 11 "crate0" "box";
  (* gridRitem *)
  _ ← item XM.Identity4x4
        (XM.XMMatrixScaling (F32.dec 80 1) (F32.dec 80 1) (F32.dec 10 1)) 12 "stone0" "grid";
  (* WedgeRitem *)
  _ ← item (XM.XMMatrixScaling (F32.dec 3 1) (F32.dec 4 1) (F32.dec 25 1)
          * XMMatrixRotationY (F32.XMConvertToRadians (F32.of_int (-90)))
          * XM.XMMatrixTranslation (F32.dec 0 1) (F32.dec 35 2) (F32.dec 25 1))%xm
        (XM.XMMatrixScaling (F32.dec 10 1) (F32.dec 10 1) (F32.dec 10 1)) 13 "stone0" "wedge";
  (* octahedronRitem1 *)
  _ ← item (XM.XMMatrixScaling (F32.dec 1 0) (F32.dec 1 0) (F32.dec 1 0)
          * XM.XMMatrixTranslation (F32.dec 35 1) (F32.dec 2 0) (F32.neg (F32.dec 8 0)))%xm
        (XM.Identity4x4) 14 "tile0" "octahedron";
  (* octahedronRitem *)
  _ ← item (XM.XMMatrixScaling (F32.dec 1 0) (F32.dec 1 0) (F32.dec 1 0)
          * XM.XMMatrixTranslation (F32.neg (F32.dec 35 1)) (F32.dec 2 0) (F32.neg (F32.dec 8 0)))%xm
        (XM.Identity4x4) 15 "tile0" "octahedron";
  _ ← for_i_0_2 cylSphereLoop 16;
  _ ← for_i_0_2 hexConeLoop 24;
  (* leftMainWedgeRitem *)
  _ ← item (XM.XMMatrixScaling (F32.dec 3 1) (F32.dec 4 1) (F32.dec 4 0)
          * XM.XMMatrixTranslation (F32.neg (F32.dec 365 2)) (F32.dec 35 2) (F32.dec 6 0))%xm
        (XM.XMMatrixScaling (F32.dec 10 1) (F32.dec 10 1) (F32.dec 10 1)) 32 "crate0" "wedge";
  (* rightMainWedgeRitem *)
  _ ← item (XM.XMMatrixScaling (F32.dec 3 1) (F32.dec 4 1) (F32.dec 4 0)
          * XMMatrixRotationY (F32.XMConvertToRadians (F32.of_int (180)))
          * XM.XMMatrixTranslation (F32.dec 365 2) (F32.dec 35 2) (F32.dec 6 0))%xm
        (XM.XMMatrixScaling (F32.dec 10 1) (F32.dec 10 1) (F32.dec 10 1)) 33 "crate0" "wedge";
  (* backMainWedgeRitem *)
  _ ← item (XM.XMMatrixScaling (F32.dec 3 1) (F32.dec 4 1) (F32.dec 25 1)
          * XMMatrixRotationY (F32.XMConvertToRadians (F32.of_int (90)))
          * XM.XMMatrixTranslation (F32.dec 0 1) (F32.dec 35 2) (F32.dec 96 1))%xm
        (XM.XMMatrixScaling (F32.dec 10 1) (F32.dec 10 1) (F32.dec 10 1)) 34 "crate0" "wedge";
  (* stickRitem *)
  _ ← item (XM.XMMatrixScaling (F32.dec 2 1) (F32.dec 1 0) (F32.dec 2 1)
          * XM.XMMatrixTranslation (F32.dec 0 0) (F32.dec 83 1) (F32.dec 6 0))%xm
        (XM.XMMatrixScaling (F32.dec 10 1) (F32.dec 10 1) (F32.dec 10 1)) 35 "crate0" "cylinder";
  (* starRitem *)
  _ ← item (XM.XMMatrixScaling (F32.dec 6 1) (F32.dec 1 0) (F32.dec 6 1)
          * XM.XMMatrixTranslation (F32.dec 0 0) (F32.dec 95 1) (F32.dec 6 0))%xm
        (XM.XMMatrixScaling (F32.dec 10 1) (F32.dec 10 1) (F32.dec 10 1)) 36 "crate0" "star";
  (* wallsInBackRitem *)
  _ ← item (XM.XMMatrixScaling (F32.dec 2 1) (F32.dec 26 1) (F32.dec 8 0)
          * XM.XMMatrixTranslation (F32.neg (F32.dec 70 1)) (F32.dec 5 1) (F32.dec 65 1))%xm
        (XM.XMMatrixScaling (F32.dec 10 1) (F32.dec 10 1) (F32.dec 10 1)) 37 "crate0" "box";
  (* wallsInBackRitem2 *)
  _ ← item (XM.XMMatrixScaling (F32.dec 2 1) (F32.dec 26 1) (F32.dec 9 0)
          * XMMatrixRotationY (F32.XMConvertToRadians (F32.of_int (90)))
          * XM.XMMatrixTranslation (F32.dec 0 1) (F32.dec 5 1) (F32.dec 125 1))%xm
        (XM.XMMatrixScaling (F32.dec 10 1) (F32.dec 10 1) (F32.dec 10 1)) 38 "crate0" "box";
  (* wallsInBackRitem3 *)
  _ ← item (XM.XMMatrixScaling (F32.dec 2 1) (F32.dec 26 1) (F32.dec 8 0)
          * XM.XMMatrixTranslation (F32.dec 70 1) (F32.dec 5 1) (F32.dec 65 1))%xm
        (XM.XMMatrixScaling (F32.dec 10 1) (F32.dec 10 1) (F32.dec 10 1)) 39 "crate0" "box";
  _ ← for_i_0_2 (wallLoop wallsInMidWorld) 40;
  _ ← for_i_0_2 (wallLoop wallsInMidWorld') 42;
  _ ← for_i_0_2 (wallLoop wallsInMidWorld2) 44;
  _ ← for_i_0_2 (wallLoop frontWallsWorld) 46;
  _ ← for_i_0_2 (wallLoop CorridorWallsWorld) 48;
  (* All the render items are opaque. *)
  collectOpaque.

(** One iteration of [BuildFrameResources]: a frame resource with one pass
    slot, [mAllRitems.size()] object slots and [mMaterials.size()] material
    slots is appended. *)
Definition pushFrameResource (a : i4CastleApp) : i4CastleApp :=
  let fr := FrameResource_new 1 (Int.size (mAllRitems a))
                              (Int.UINT (Z.of_nat (size (mMaterials a)))) in
  set_mFrameResources (mFrameResources a ++ [fr]) a.

(** ** Code that talks to the device *)

Record Machine := mkMachine { app : i4CastleApp; world : World }.

(** How a call ends. *)
Inductive result (A : Type) : Type :=
| Returns (a : A) (m : Machine)         (* normal return *)
| Throws (e : DxException) (m : Machine) (* a DxException propagates *)
| Undefined                             (* undefined behaviour *)
| Blocked (m : Machine)                 (* still inside a wait *)
| Aborted (m : Machine).                (* std::terminate *)

Arguments Returns {A} a m.
Arguments Throws {A} e m.
Arguments Undefined {A}.
Arguments Blocked {A} m.
Arguments Aborted {A} m.

Definition M (A : Type) : Type := Machine -> result A.

#[export] Instance M_ret : MRet M := fun A a m => Returns a m.
#[export] Instance M_bind : MBind M := fun A B f c m =>
  match c m with
  | Returns a m' => f a m'
  | Throws e m' => Throws e m'
  | Undefined => Undefined
  | Blocked m' => Blocked m'
  | Aborted m' => Aborted m'
  end.

Definition getApp : M i4CastleApp := fun m => Returns (app m) m.

Definition modifyApp (f : i4CastleApp -> i4CastleApp) : M unit := fun m =>
  Returns tt (mkMachine (f (app m)) (world m)).

(** A step on the application object in which a bad dereference or a copy
    outside a buffer is undefined behaviour. *)
Definition liftUB (f : i4CastleApp -> option i4CastleApp) : M unit := fun m =>
  match f (app m) with
  | Some a => Returns tt (mkMachine a (world m))
  | None => Undefined
  end.

Definition readUB {A} (f : i4CastleApp -> option A) : M A := fun m =>
  match f (app m) with
  | Some v => Returns v m
  | None => Undefined
  end.

Definition logEvent (ev : Event) : M unit := fun m =>
  Returns tt (mkMachine (app m) (log ev (world m))).

(** A call of the graphics API that returns an HRESULT. *)
Definition api (name : string) : M Z := fun m =>
  let w := world m in
  let hr := hresults w (calls w) in
  Returns hr (mkMachine (app m) (log (EvApi name hr) (called w))).

(** [ThrowIfFailed(x)]: throws [DxException(hr, L#x, __FILE__, __LINE__)] when
    the HRESULT is a failure code. *)
Definition ThrowIfFailed (hr : Z) (x : string) (line : Z) : M unit := fun m =>
  if FAILED hr then Throws (mkDxException hr x line) m else Returns tt m.

(** [ThrowIfFailed(x)] for an API call [x]: [name] is the function called,
    under which the call is recorded, and [x] the text of the whole argument,
    which the exception carries. *)
Definition checked (name x : string) (line : Z) : M unit :=
  hr ← api name;
  ThrowIfFailed hr x line.

(** [mFence->GetCompletedValue()]: one observation of the fence. *)
Definition GetCompletedValue : M Z := fun m =>
  let w := world m in
  Returns (fenceTimeline w (clock w)) (mkMachine (app m) (tick w)).

(** The thread sleeps until an observation of the fence shows at least
    [fenceValue]; [budget] bounds the observations it may make.  The result
    is the world at wake-up, or the world after the whole budget. *)
Fixpoint sleep (budget : nat) (fenceValue : Z) (w : World) : World + World :=
  if decide (fenceValue <= fenceTimeline w (clock w)) then inl (tick w)
  else match budget with
       | O => inr w
       | S budget' => sleep budget' fenceValue (tick w)
       end.

Definition WAIT_OBJECT_0 : Z := 0.
Definition WAIT_TIMEOUT : Z := 258.

(** [WaitForSingleObject(eventHandle, dwMilliseconds)] on an event that
    [SetEventOnCompletion(fenceValue, eventHandle)] has armed.  With
    [INFINITE] the call returns only when the fence has reached [fenceValue]
    ([fuel] bounds how long this model follows the sleeping thread: when it
    runs out the call is still [Blocked]); with any other time-out the call
    gives up after that many observations and returns [WAIT_TIMEOUT]. *)
Definition WaitForSingleObject (fuel : nat) (fenceValue : Z) (dwMilliseconds : Z) : M Z := fun m =>
  let w := log (EvWait fenceValue dwMilliseconds) (world m) in
  if decide (dwMilliseconds = INFINITE) then
    match sleep fuel fenceValue w with
    | inl w' => Returns WAIT_OBJECT_0 (mkMachine (app m) w')
    | inr w' => Blocked (mkMachine (app m) w')
    end
  else
    match sleep (Z.to_nat dwMilliseconds) fenceValue w with
    | inl w' => Returns WAIT_OBJECT_0 (mkMachine (app m) w')
    | inr w' => Returns WAIT_TIMEOUT (mkMachine (app m) w')
    end.

(** *** The base class *)

(** The members of [D3DApp] that this file calls and whose code is not part
    of it. *)
Class D3DApp := {
  D3DApp_Initialize : M bool;
  D3DApp_Run : M Z;
  FlushCommandQueue : M unit;
  D3DApp_destructor : M unit
}.

Context {d3dApp : D3DApp}.

(** *** Helpers *)

(** A function that is called here, whose code is not part of this file and
    which has no access to the members of [i4CastleApp]: it acts on the
    environment, and returns or throws. *)
Definition Helper : Type := World -> World + DxException * World.

(** The helpers of [d3dUtil] and of [FrameResource] that this file calls,
    and what [D3D12SerializeRootSignature] leaves besides its HRESULT. *)
Class d3dUtil := {
  (** [d3dUtil::CompileShader(filename, defines, entrypoint, target)], with
      [defines] a null pointer *)
  CompileShader : string -> string -> string -> Helper;
  (** [d3dUtil::CreateDefaultBuffer(device, cmdList, initData, byteSize,
      uploadBuffer)] *)
  CreateDefaultBuffer : Z -> Helper;
  (** what the constructor [FrameResource(device, passCount, objectCount,
      materialCount)] asks of the device *)
  FrameResource_device : Z -> Z -> Z -> Helper;
  (** the text of the error blob that [D3D12SerializeRootSignature] has
      left, when it has left one *)
  errorBlob : World -> option string
}.

Context {helpers : d3dUtil}.

(** A call of a helper: the application object is as it was. *)
Definition call (h : Helper) : M unit := fun m =>
  match h (world m) with
  | inl w => Returns tt (mkMachine (app m) w)
  | inr (e, w) => Throws e (mkMachine (app m) w)
  end.

(** *** Per-frame update *)

Definition OnKeyboardInput (gt : GameTimer) : M unit :=
  modifyApp (fun a => set_mCamera (Camera_input gt (mCamera a)) a).

(** [(i + 1) % N] on [int]s. *)
Definition nextFrameResourceIndex (N i : Z) : Z := Z.rem (i + 1) N.

(** Source lines 210-211: the ring index advances and the slot it names
    becomes the current frame resource.  Signed overflow of [i + 1] and an
    index outside the vector are undefined behaviour. *)
Definition cycleFrameResource (a : i4CastleApp) : option i4CastleApp :=
  if decide (mCurrFrameResourceIndex a + 1 < 2 ^ 31) then
    let i := nextFrameResourceIndex gNumFrameResources (mCurrFrameResourceIndex a) in
    if decide (0 <= i < Z.of_nat (length (mFrameResources a))) then
      Some (set_mCurrFrameResource (Some (Z.to_nat i)) (set_mCurrFrameResourceIndex i a))
    else None
  else None.

(** [*mCurrFrameResource] *)
Definition currFrameResource (a : i4CastleApp) : option FrameResource :=
  p ← mCurrFrameResource a;
  mFrameResources a !! p.

(** Source lines 215-221: the wait for the fence of the current slot. *)
Definition waitForFrameResource (fuel : nat) : M unit :=
  fr ← readUB currFrameResource;
  busy ← (if decide (Fence fr ≠ 0)
          then c ← GetCompletedValue; mret (bool_decide (c < Fence fr))
          else mret false);
  if (busy : bool) then
    (* CreateEventEx *)
    _ ← checked "mFence->SetEventOnCompletion"
          "mFence->SetEventOnCompletion(mCurrFrameResource->Fence, eventHandle)" 218;
    _ ← WaitForSingleObject fuel (Fence fr) INFINITE;
    (* CloseHandle *)
    mret tt
  else mret tt.

Definition AnimateMaterials (gt : GameTimer) : M unit := mret tt.

(** The constants that [UpdateObjectCBs] computes for a render item: the
    transposed world and texture transforms and [e->Mat->MatCBIndex]. *)
Definition objectConstantsOf (mats : gmap string (option Material.t)) (e : RenderItem.t)
  : option ObjectConstants :=
  matp ← RenderItem.Mat e;
  entry ← mats !! matp;
  mat ← entry;
  Some (mkObjectConstants (XM.XMMatrixTranspose (RenderItem.World e))
                          (XM.XMMatrixTranspose (RenderItem.TexTransform e))
                          (Int.UINT (Material.MatCBIndex mat))).

(** The element of the per-object buffer that belongs to a render item:
    [CopyData] takes [ObjCBIndex] as an [int]. *)
Definition slotOf (e : RenderItem.t) : Z := Int.INT (RenderItem.ObjCBIndex e).

(** The body of the loop of [UpdateObjectCBs] over [mAllRitems], threading
    the per-object buffer of the current frame resource. *)
Fixpoint UpdateObjectCBs_loop (mats : gmap string (option Material.t))
    (items : list RenderItem.t) (currObjectCB : UploadBuffer.t ObjectConstants)
  : option (list RenderItem.t * UploadBuffer.t ObjectConstants) :=
  match items with
  | [] => Some ([], currObjectCB)
  | e :: rest =>
      if decide (RenderItem.NumFramesDirty e > 0) then
        objConstants ← objectConstantsOf mats e;
        cb ← UploadBuffer.CopyData (slotOf e) objConstants currObjectCB;
        r ← UpdateObjectCBs_loop mats rest cb;
        Some (RenderItem.set_NumFramesDirty (RenderItem.NumFramesDirty e - 1) e :: r.1, r.2)
      else
        r ← UpdateObjectCBs_loop mats rest currObjectCB;
        Some (e :: r.1, r.2)
  end.

Definition UpdateObjectCBs (a : i4CastleApp) : option i4CastleApp :=
  p ← mCurrFrameResource a;
  fr ← mFrameResources a !! p;
  r ← UpdateObjectCBs_loop (mMaterials a) (mAllRitems a) (ObjectCB fr);
  Some (set_mAllRitems r.1
          (set_mFrameResources (<[p := set_ObjectCB r.2 fr]> (mFrameResources a)) a)).

(** The element that [UpdateMaterialBuffer] computes for a material. *)
Definition materialDataOf (mat : Material.t) : MaterialData :=
  mkMaterialData (Material.DiffuseAlbedo mat) (Material.FresnelR0 mat)
                 (Material.Roughness mat)
                 (XM.XMMatrixTranspose (Material.MatTransform mat))
                 (Int.UINT (Material.DiffuseSrvHeapIndex mat)).

(** The body of the loop of [UpdateMaterialBuffer], over the keys of
    [mMaterials] in the order the map enumerates them. *)
Fixpoint UpdateMaterialBuffer_loop (keys : list string)
    (mats : gmap string (option Material.t)) (currMaterialBuffer : UploadBuffer.t MaterialData)
  : option (gmap string (option Material.t) * UploadBuffer.t MaterialData) :=
  match keys with
  | [] => Some (mats, currMaterialBuffer)
  | k :: rest =>
      entry ← mats !! k;
      mat ← entry;
      if decide (Material.NumFramesDirty mat > 0) then
        buf ← UploadBuffer.CopyData (Material.MatCBIndex mat) (materialDataOf mat) currMaterialBuffer;
        UpdateMaterialBuffer_loop rest
          (<[k := Some (Material.set_NumFramesDirty (Material.NumFramesDirty mat - 1) mat)]> mats)
          buf
      else UpdateMaterialBuffer_loop rest mats currMaterialBuffer
  end.

Definition UpdateMaterialBuffer (a : i4CastleApp) : option i4CastleApp :=
  p ← mCurrFrameResource a;
  fr ← mFrameResources a !! p;
  r ← UpdateMaterialBuffer_loop (mMaterials_order (mMaterials a)) (mMaterials a) (MaterialBuffer fr);
  Some (set_mMaterials r.1
          (set_mFrameResources (<[p := set_MaterialBuffer r.2 fr]> (mFrameResources a)) a)).

Definition UpdateMainPassCB (gt : GameTimer) (a : i4CastleApp) : option i4CastleApp :=
  let pc := MainPassConstants gt (mCamera a) (mMainPassCB a) in
  p ← mCurrFrameResource a;
  fr ← mFrameResources a !! p;
  cb ← UploadBuffer.CopyData 0 pc (PassCB fr);
  Some (set_mMainPassCB pc
          (set_mFrameResources (<[p := set_PassCB cb fr]> (mFrameResources a)) a)).

(** [i4CastleApp::Update] *)
Definition Update (fuel : nat) (gt : GameTimer) : M unit :=
  _ ← OnKeyboardInput gt;
  _ ← liftUB cycleFrameResource;
  _ ← waitForFrameResource fuel;
  _ ← AnimateMaterials gt;
  _ ← liftUB UpdateObjectCBs;
  _ ← liftUB UpdateMaterialBuffer;
  liftUB (UpdateMainPassCB gt).

(** *** Drawing *)

(** [DrawRenderItems]: for every render item the address of its object
    constants, [ObjCBIndex * objCBByteSize] in [UINT] arithmetic past the
    start of the current per-object buffer, and the arguments of the draw. *)
Definition DrawRenderItems (a : i4CastleApp) (ritems : list nat) : option (list DrawCall) :=
  _ ← currFrameResource a;
  mapM (fun p =>
          ri ← mAllRitems a !! p;
          g ← RenderItem.Geo ri;
          entry ← mGeometries a !! g;
          _ ← (entry : option MeshGeometry.t);
          Some (mkDrawCall (Int.UINT (RenderItem.ObjCBIndex ri * Int.UINT objCBByteSize))
                           (RenderItem.IndexCount ri)
                           (RenderItem.StartIndexLocation ri)
                           (RenderItem.BaseVertexLocation ri)))
       ritems.

(** [mCurrFrameResource->Fence = ++mCurrentFence;] *)
Definition advanceFence (a : i4CastleApp) : option i4CastleApp :=
  p ← mCurrFrameResource a;
  fr ← mFrameResources a !! p;
  let v := Int.UINT64 (mCurrentFence a + 1) in
  Some (set_mFrameResources (<[p := set_Fence v fr]> (mFrameResources a))
          (set_mCurrentFence v a)).

(** [mCommandQueue->Signal(mFence.Get(), mCurrentFence);]  The HRESULT is
    not looked at. *)
Definition Signal : M unit := fun m =>
  let w := world m in
  let hr := hresults w (calls w) in
  Returns tt (mkMachine (app m) (log (EvSignal (mCurrentFence (app m)) hr) (called w))).

(** [mCurrBackBuffer = (mCurrBackBuffer + 1) % SwapChainBufferCount;] on
    [int]s: signed overflow of the sum and a zero divisor are undefined
    behaviour. *)
Definition swapBackBuffer (a : i4CastleApp) : option i4CastleApp :=
  if decide (mCurrBackBuffer a + 1 < 2 ^ 31) then
    if decide (SwapChainBufferCount = 0) then None
    else Some (set_mCurrBackBuffer (Z.rem (mCurrBackBuffer a + 1) SwapChainBufferCount) a)
  else None.

(** [i4CastleApp::Draw].  The calls that record commands and return nothing
    are left out. *)
Definition Draw (gt : GameTimer) : M unit :=
  _ ← readUB currFrameResource;
  _ ← checked "cmdListAlloc->Reset" "cmdListAlloc->Reset()" 235;
  _ ← checked "mCommandList->Reset"
        ("mCommandList->Reset(cmdListAlloc.Get(), mPSOs[" +:+ quote +:+ "opaque" +:+ quote
         +:+ "].Get())") 239;
  draws ← readUB (fun a => DrawRenderItems a (mOpaqueRitems a));
  _ ← checked "mCommandList->Close" "mCommandList->Close()" 280;
  _ ← logEvent (EvExecute draws);
  _ ← checked "mSwapChain->Present" "mSwapChain->Present(0, 0)" 287;
  _ ← liftUB swapBackBuffer;
  _ ← liftUB advanceFence;
  Signal.

(** *** Initialisation *)

Definition LoadTextures : M unit :=
  _ ← checked "DirectX::CreateDDSTextureFromFile12"
        ("DirectX::CreateDDSTextureFromFile12(md3dDevice.Get(), mCommandList.Get(), "
         +:+ "bricksTex->Filename.c_str(), bricksTex->Resource, bricksTex->UploadHeap)") 492;
  _ ← checked "DirectX::CreateDDSTextureFromFile12"
        ("DirectX::CreateDDSTextureFromFile12(md3dDevice.Get(), mCommandList.Get(), "
         +:+ "stoneTex->Filename.c_str(), stoneTex->Resource, stoneTex->UploadHeap)") 499;
  _ ← checked "DirectX::CreateDDSTextureFromFile12"
        ("DirectX::CreateDDSTextureFromFile12(md3dDevice.Get(), mCommandList.Get(), "
         +:+ "tileTex->Filename.c_str(), tileTex->Resource, tileTex->UploadHeap)") 506;
  checked "DirectX::CreateDDSTextureFromFile12"
    ("DirectX::CreateDDSTextureFromFile12(md3dDevice.Get(), mCommandList.Get(), "
     +:+ "crateTex->Filename.c_str(), crateTex->Resource, crateTex->UploadHeap)") 513.

(** [if (errorBlob != nullptr) ::OutputDebugStringA(...)] *)
Definition reportErrorBlob : M unit := fun m =>
  match errorBlob (world m) with
  | Some text => logEvent (EvOutputDebugString text) m
  | None => Returns tt m
  end.

(** [BuildRootSignature]: the HRESULT of [D3D12SerializeRootSignature] is
    checked after the error blob has been reported. *)
Definition BuildRootSignature : M unit :=
  hr ← api "D3D12SerializeRootSignature";
  _ ← reportErrorBlob;
  _ ← ThrowIfFailed hr "hr" 555;
  checked "md3dDevice->CreateRootSignature"
    ("md3dDevice->CreateRootSignature( 0, serializedRootSig->GetBufferPointer(), "
     +:+ "serializedRootSig->GetBufferSize(), IID_PPV_ARGS(mRootSignature.GetAddressOf()))")
    557.

Definition BuildDescriptorHeaps : M unit :=
  checked "md3dDevice->CreateDescriptorHeap"
    "md3dDevice->CreateDescriptorHeap(&srvHeapDesc, IID_PPV_ARGS(&mSrvDescriptorHeap))" 573.

(** [BuildShadersAndInputLayout]: the two shaders are compiled by
    [d3dUtil::CompileShader]. *)
Definition BuildShadersAndInputLayout : M unit :=
  _ ← call (CompileShader "Shaders\Default.hlsl" "VS" "vs_5_1");
  call (CompileShader "Shaders\Default.hlsl" "PS" "ps_5_1").

(** [BuildShapeGeometry]: the geometry is assembled, its two blobs are
    created, [d3dUtil::CreateDefaultBuffer] makes the two buffers of the
    GPU, and the geometry is stored under its name. *)
Definition BuildShapeGeometry : M unit :=
  let geo := shapeGeo in
  _ ← checked "D3DCreateBlob" "D3DCreateBlob(vbByteSize, &geo->VertexBufferCPU)" 897;
  _ ← checked "D3DCreateBlob" "D3DCreateBlob(ibByteSize, &geo->IndexBufferCPU)" 900;
  _ ← call (CreateDefaultBuffer (MeshGeometry.VertexBufferByteSize geo));
  _ ← call (CreateDefaultBuffer (MeshGeometry.IndexBufferByteSize geo));
  modifyApp (fun a => set_mGeometries (<[MeshGeometry.Name geo := Some geo]> (mGeometries a)) a).

Definition BuildPSOs : M unit :=
  checked "md3dDevice->CreateGraphicsPipelineState"
    ("md3dDevice->CreateGraphicsPipelineState(&opaquePsoDesc, IID_PPV_ARGS(&mPSOs["
     +:+ quote +:+ "opaque" +:+ quote +:+ "]))") 963.

(** [for (int i = 0; i < gNumFrameResources; ++i) mFrameResources.push_back(...)]:
    each frame resource is constructed, which involves the device, and then
    appended. *)
Fixpoint BuildFrameResources_loop (n : nat) : M unit :=
  match n with
  | O => mret tt
  | S n' =>
      a ← getApp;
      _ ← call (FrameResource_device 1 (Int.size (mAllRitems a))
                  (Int.UINT (Z.of_nat (size (mMaterials a)))));
      _ ← modifyApp pushFrameResource;
      BuildFrameResources_loop n'
  end.

Definition BuildFrameResources : M unit :=
  BuildFrameResources_loop (Z.to_nat gNumFrameResources).

(** [md3dDevice->...]: a call through the device pointer, which is undefined
    behaviour when the pointer is null. *)
Definition throughDevice : M unit :=
  readUB (fun a => if md3dDevice a then Some tt else None).

(** [i4CastleApp::Initialize] *)
Definition Initialize : M bool :=
  ok ← D3DApp_Initialize;
  if negb ok then mret false else
  _ ← checked "mCommandList->Reset"
        "mCommandList->Reset(mDirectCmdListAlloc.Get(), nullptr)" 168;
  (* mCbvSrvDescriptorSize = md3dDevice->GetDescriptorHandleIncrementSize(...) *)
  _ ← throughDevice;
  _ ← modifyApp (fun a =>
        set_mCamera (Camera_SetPosition (F32.dec 0 1) (F32.dec 20 1) (F32.neg (F32.dec 150 1))
                       (mCamera a)) a);
  _ ← LoadTextures;
  _ ← BuildRootSignature;
  _ ← BuildDescriptorHeaps;
  _ ← BuildShadersAndInputLayout;
  _ ← BuildShapeGeometry;
  _ ← modifyApp BuildMaterials;
  _ ← liftUB (fun a => snd <$> BuildRenderItems a);
  _ ← BuildFrameResources;
  _ ← BuildPSOs;
  _ ← checked "mCommandList->Close" "mCommandList->Close()" 187;
  _ ← logEvent (EvExecute []);
  _ ← FlushCommandQueue;
  mret true.

(** *** The entry point *)






(** *** The scene after initialisation *)

(** What [Initialize] does to the application object between the return of
    [D3DApp::Initialize] and the final flush, when no call fails:
    [BuildShapeGeometry], [BuildMaterials], [BuildRenderItems] and the three
    iterations of [BuildFrameResources]. *)
Definition buildScene (a : i4CastleApp) : option i4CastleApp :=
  let a := set_mGeometries (<[MeshGeometry.Name shapeGeo := Some shapeGeo]> (mGeometries a)) a in
  let a := BuildMaterials a in
  r ← BuildRenderItems a;
  Some (pushFrameResource (pushFrameResource (pushFrameResource r.2))).

(** *** Observations used in the statements *)

(** The object constants that frame resource [j] holds in element [slot], if
    that element has been written. *)
Definition ObjectCB_at (a : i4CastleApp) (j : nat) (slot : Z) : option ObjectConstants :=
  fr ← mFrameResources a !! j;
  if decide (0 <= slot) then mjoin (ObjectCB fr !! Z.to_nat slot) else None.

(** The fence value recorded in frame resource [k]. *)
Definition FenceAt (a : i4CastleApp) (k : nat) : option Z :=
  Fence <$> mFrameResources a !! k.

(** The dirty count of the render item at position [p]. *)
Definition dirtyCount (a : i4CastleApp) (p : nat) : option Z :=
  RenderItem.NumFramesDirty <$> mAllRitems a !! p.

(** The events appended to the trace between two worlds. *)
Definition newEvents (w w' : World) : list Event := drop (length (trace w)) (trace w').

Definition isWait (ev : Event) : bool :=
  match ev with EvWait _ _ => true | _ => false end.

(** What one pass does to a render item. *)
Definition tickItem (e : RenderItem.t) : RenderItem.t :=
  if decide (RenderItem.NumFramesDirty e > 0)
  then RenderItem.set_NumFramesDirty (RenderItem.NumFramesDirty e - 1) e
  else e.

(** The fields of a material that the loop leaves alone. *)
Definition sameMaterial (m m' : Material.t) : Prop :=
  Material.set_NumFramesDirty 0 m' = Material.set_NumFramesDirty 0 m.

Definition materialsAgree (mats mats' : gmap string (option Material.t)) : Prop :=
  forall k,
    match mats !! k, mats' !! k with
    | Some (Some m), Some (Some m') =>
        sameMaterial m m' /\ Material.NumFramesDirty m' <= Material.NumFramesDirty m
    | Some None, Some None => True
    | None, None => True
    | _, _ => False
    end.

(** The world after an API call that returned. *)
Definition afterCall (name : string) (w : World) : World :=
  log (EvApi name (hresults w (calls w))) (called w).

Definition afterInput (gt : GameTimer) (a : i4CastleApp) : i4CastleApp :=
  set_mCamera (Camera_input gt (mCamera a)) a.

(** The material a render item points to: [e->Mat], looked up in
    [mMaterials]. *)
Definition materialOf (a : i4CastleApp) (e : RenderItem.t) : option Material.t :=
  matp ← RenderItem.Mat e;
  entry ← mMaterials a !! matp;
  entry.

(** [mMaterials.at(name)->MatCBIndex], when [name] has a material. *)
Definition matCBIndexAt (a : i4CastleApp) (name : string) : option Z :=
  match mMaterials a !! name with
  | Some (Some mat) => Some (Material.MatCBIndex mat)
  | _ => None
  end.

(** What [DrawRenderItems] dereferences for the render item at position [p]
    of [mAllRitems]: the item and its geometry. *)
Definition drawable (a : i4CastleApp) (p : nat) : bool :=
  match mAllRitems a !! p with
  | Some ri =>
      match RenderItem.Geo ri with
      | Some g => match mGeometries a !! g with Some (Some _) => true | _ => false end
      | None => false
      end
  | None => false
  end.

(** The two cylinders that iteration [i] of the first placement loop appends
    to [mAllRitems]: [leftCylRitem] is pushed at position [16 + 4 i],
    [rightCylRitem] right after it. *)
Definition cylinderPair (a : i4CastleApp) (i : nat) : option (RenderItem.t * RenderItem.t) :=
  leftCylRitem ← mAllRitems a !! (16 + 4 * i)%nat;
  rightCylRitem ← mAllRitems a !! (17 + 4 * i)%nat;
  Some (leftCylRitem, rightCylRitem).

(** The x component of the translation of a world matrix. *)
Definition translationX (M : XMFLOAT4X4) : float := vx (r3 M).

(** An exception [e] has just been thrown, leaving the machine [m]: its code
    is a failure code, and the last thing that happened is the API call that
    returned this code. *)
Definition thrownAtFailure (e : DxException) (m : Machine) : Prop :=
  FAILED (ErrorCode e) = true /\
  exists name, last (trace (world m)) = Some (EvApi name (ErrorCode e)).

(** *** Frames *)

(** One frame of the message loop: [Update] then [Draw]. *)
Definition Frame (fuel : nat) (gt : GameTimer) : M unit :=
  _ ← Update fuel gt;
  Draw gt.

(** The frames of the message loop, one for each reading of the timer. *)
Fixpoint frames (fuel : nat) (gts : list GameTimer) : M unit :=
  match gts with
  | [] => mret tt
  | gt :: rest => _ ← Frame fuel gt; frames fuel rest
  end.

(** What [Update] and [Draw] rely on and never check: the ring index is in
    the ring, every render item has a material and an element in the
    per-object buffer of every frame resource, every entry of [mMaterials]
    holds a material with an element in every material buffer, every pass
    buffer has an element 0, and every position of [mOpaqueRitems] is an item
    with its geometry. *)
Definition wellFormedScene (a : i4CastleApp) : Prop :=
  0 <= mCurrFrameResourceIndex a < gNumFrameResources /\
  length (mFrameResources a) = Z.to_nat gNumFrameResources /\
  Forall (fun e => is_Some (materialOf a e)) (mAllRitems a) /\
  map_Forall (fun _ entry => is_Some (entry : option Material.t)) (mMaterials a) /\
  Forall (fun p => drawable a p = true) (mOpaqueRitems a) /\
  Forall (fun fr =>
            (0 < length (PassCB fr))%nat /\
            Forall (fun e => 0 <= slotOf e < Z.of_nat (length (ObjectCB fr))) (mAllRitems a) /\
            map_Forall (fun _ entry =>
                          match entry with
                          | Some mat =>
                              0 <= Material.MatCBIndex mat
                              < Z.of_nat (length (MaterialBuffer fr))
                          | None => True
                          end) (mMaterials a))
         (mFrameResources a).


(** [wellFormedScene] as a check that runs. *)
Definition wellFormedSceneb (a : i4CastleApp) : bool :=
  bool_decide (0 <= mCurrFrameResourceIndex a < gNumFrameResources)
  && bool_decide (length (mFrameResources a) = Z.to_nat gNumFrameResources)
  && forallb (fun e => bool_decide (is_Some (materialOf a e))) (mAllRitems a)
  && forallb (fun kv : string * option Material.t => bool_decide (is_Some kv.2))
             (map_to_list (mMaterials a))
  && forallb (drawable a) (mOpaqueRitems a)
  && forallb (fun fr =>
                bool_decide (0 < length (PassCB fr))%nat
                && forallb (fun e => bool_decide (0 <= slotOf e < Z.of_nat (length (ObjectCB fr))))
                           (mAllRitems a)
                && forallb (fun kv : string * option Material.t =>
                              match kv.2 with
                              | Some mat =>
                                  bool_decide (0 <= Material.MatCBIndex mat
                                               < Z.of_nat (length (MaterialBuffer fr)))
                              | None => true
                              end) (map_to_list (mMaterials a)))
             (mFrameResources a).

(** The members that [i4CastleApp] declares, as its constructor leaves them:
    empty containers, no current frame resource, ring index 0. *)
Definition freshApp (a : i4CastleApp) : Prop :=
  mFrameResources a = [] /\ mCurrFrameResource a = None /\ mCurrFrameResourceIndex a = 0 /\
  mGeometries a = ∅ /\ mMaterials a = ∅ /\ mAllRitems a = [] /\ mOpaqueRitems a = [].

(** [mCamera.SetPosition(0.0f, 2.0f, -15.0f)] in [Initialize]. *)
Definition placeCamera (a : i4CastleApp) : i4CastleApp :=
  set_mCamera (Camera_SetPosition (F32.dec 0 1) (F32.dec 20 1) (F32.neg (F32.dec 150 1))
                 (mCamera a)) a.

(** The name under which each render item reads its draw arguments
    ([Geo->DrawArgs[name]]), in the order of [mAllRitems]. *)
Definition itemShapes : list string :=
  ["cylinder"; "container"; "pyramid"; "pyramid"; "cone"; "cylinder";
   "hexagon"; "triangularPrism"; "triangularPrism"; "triangularPrism";
   "diamond"; "box"; "grid"; "wedge"; "octahedron"; "octahedron";
   "octagon"; "octagon"; "sphere"; "sphere"; "octagon"; "octagon";
   "sphere"; "sphere"; "hexagon"; "hexagon"; "cone"; "cone";
   "hexagon"; "hexagon"; "cone"; "cone"; "wedge"; "wedge"; "wedge";
   "cylinder"; "star"; "box"; "box"; "box"; "box"; "box"; "box";
   "box"; "box"; "box"; "box"; "box"; "box"; "box"].

(** The three arguments of [DrawIndexedInstanced] that a render item or a
    submesh stores. *)
Definition itemArgs (e : RenderItem.t) : Z * Z * Z :=
  (RenderItem.IndexCount e, RenderItem.StartIndexLocation e, RenderItem.BaseVertexLocation e).
Definition submeshArgs (sm : SubmeshGeometry.t) : Z * Z * Z :=
  (SubmeshGeometry.IndexCount sm, SubmeshGeometry.StartIndexLocation sm,
   SubmeshGeometry.BaseVertexLocation sm).

(** The draw of [e] reads inside the buffers of [geo]: its index range lies
    in the index buffer, and every index it reads, added to the base vertex
    location, is a position of the vertex buffer. *)
Definition drawInBounds (geo : MeshGeometry.t) (e : RenderItem.t) : Prop :=
  0 <= RenderItem.StartIndexLocation e /\
  RenderItem.StartIndexLocation e + RenderItem.IndexCount e
    <= Z.of_nat (length (MeshGeometry.IndexBufferCPU geo)) /\
  forall i : nat,
    Z.of_nat i < RenderItem.IndexCount e ->
    exists u,
      MeshGeometry.IndexBufferCPU geo !! (Z.to_nat (RenderItem.StartIndexLocation e) + i)%nat
        = Some u /\
      0 <= RenderItem.BaseVertexLocation e + u
        < Z.of_nat (length (MeshGeometry.VertexBufferCPU geo)).

(** What one update does to a dirty count: [if (n > 0) n--]. *)
Definition countDown (n : Z) : Z := if decide (n > 0) then n - 1 else n.

(** What one pass of [UpdateMaterialBuffer] does to a material. *)
Definition tickMaterial (mat : Material.t) : Material.t :=
  if decide (Material.NumFramesDirty mat > 0)
  then Material.set_NumFramesDirty (Material.NumFramesDirty mat - 1) mat
  else mat.

(** No render item and no material is dirty. *)
Definition allClean (a : i4CastleApp) : Prop :=
  Forall (fun e => RenderItem.NumFramesDirty e <= 0) (mAllRitems a) /\
  map_Forall (fun _ entry =>
                match entry with
                | Some mat => Material.NumFramesDirty mat <= 0
                | None => True
                end) (mMaterials a).

(** No dirty count of a render item or of a material exceeds [n]. *)
Definition dirtyAtMost (n : Z) (a : i4CastleApp) : Prop :=
  Forall (fun e => RenderItem.NumFramesDirty e <= n) (mAllRitems a) /\
  map_Forall (fun _ entry =>
                match entry with
                | Some mat => Material.NumFramesDirty mat <= n
                | None => True
                end) (mMaterials a).

(** [dirtyAtMost] as a check that runs. *)
Definition dirtyAtMostb (n : Z) (a : i4CastleApp) : bool :=
  forallb (fun e => bool_decide (RenderItem.NumFramesDirty e <= n)) (mAllRitems a) &&
  forallb (fun p : string * option Material.t =>
             match p.2 with
             | Some mat => bool_decide (Material.NumFramesDirty mat <= n)
             | None => true
             end) (map_to_list (mMaterials a)).

(** From the machine [m], [Update] does not look at the fence: whatever the
    timer and however long it is followed, it neither waits nor throws, and
    when it returns the world is as it was (no call, no event, no
    observation of the fence). *)
Definition updatesAtOnce (m : Machine) : Prop :=
  forall fuel gt,
    (forall m', Update fuel gt m ≠ Blocked m') /\
    (forall e m', Update fuel gt m ≠ Throws e m') /\
    (forall m', Update fuel gt m = Returns tt m' -> world m' = world m).

(** The exception [e] reports the code of the API call that has just
    returned; after the call to [D3D12SerializeRootSignature], the text of
    its error blob may have been sent to the debugger in between. *)
Definition failedCall (e : DxException) (m : Machine) : Prop :=
  FAILED (ErrorCode e) = true /\
  ((exists name, last (trace (world m)) = Some (EvApi name (ErrorCode e))) \/
   (exists evs text,
      trace (world m)
      = evs ++ [EvApi "D3D12SerializeRootSignature" (ErrorCode e); EvOutputDebugString text])).

(** The helpers that [Initialize] calls, at any arguments. *)
Definition isHelper (h : Helper) : Prop :=
  (exists filename entrypoint target, h = CompileShader filename entrypoint target) \/
  (exists byteSize, h = CreateDefaultBuffer byteSize) \/
  (exists passCount objectCount materialCount,
     h = FrameResource_device passCount objectCount materialCount).

(** The exception [e] was thrown by a helper, which left the environment as
    it is in [m]. *)
Definition thrownByHelper (e : DxException) (m : Machine) : Prop :=
  exists h w, isHelper h /\ h w = inr (e, world m).

(** A step that returns, with the application object [f (app m)], or
    throws. *)
Definition proceeds (c : M unit) (f : i4CastleApp -> i4CastleApp) : Prop :=
  forall m,
    (exists e m', c m = Throws e m') \/
    (exists w, c m = Returns tt (mkMachine (f (app m)) w)).



End App.

Arguments Returns {platform A} a m.
Arguments Throws {platform A} e m.
Arguments Undefined {platform A}.
Arguments Blocked {platform A} m.
Arguments Aborted {platform A} m.

(** ** A concrete platform

    A small instance of everything the program takes from outside, used to
    run the definitions on concrete inputs. *)

Definition origin : GeometryGenerator.Vertex :=
  GeometryGenerator.mkVertex (mkFloat3 XM.zero XM.zero XM.zero) (mkFloat3 XM.zero XM.one XM.zero)
                             (mkFloat3 XM.one XM.zero XM.zero) (mkFloat2 XM.zero XM.zero).

(** A mesh of one triangle. *)
Definition triangle : GeometryGenerator.MeshData :=
  GeometryGenerator.mkMeshData [origin; origin; origin] [0; 1; 2].

Definition triangleGenerator : GeometryGenerator := {|
  CreateBox := fun _ _ _ _ => triangle;
  CreateGrid := fun _ _ _ _ => triangle;
  CreateSphere := fun _ _ _ => triangle;
  CreateCylinder := fun _ _ _ _ _ => triangle;
  CreateDiamond := fun _ _ => triangle;
  CreateWedge := fun _ _ _ _ => triangle;
  CreateOctahedron := fun _ => triangle;
  CreateTriangularPrism := fun _ _ _ _ => triangle;
  CreateHexagon := fun _ _ _ => triangle;
  CreateOctagon := fun _ _ _ => triangle;
  CreateCone := fun _ _ _ _ => triangle;
  CreatePyramid := fun _ _ _ _ _ _ => triangle;
  CreateHexagonContainer := fun _ _ _ => triangle;
  CreateCandy := fun _ _ _ => triangle
|}.

Definition plainPlatform : Platform := {|
  GameTimer := unit;
  Camera := unit;
  PassConstants := unit;
  Camera_default := tt;
  PassConstants_default := tt;
  Camera_SetPosition := fun _ _ _ c => c;
  Camera_input := fun _ c => c;
  MainPassConstants := fun _ _ pc => pc;
  XMScalarSin := fun _ => XM.zero;
  XMScalarCos := fun _ => XM.one;
  objCBByteSize := 256;
  mMaterials_order := fun m => (map_to_list m).*1;
  mMaterials_order_perm := fun m => reflexivity _;
  ToString := FunctionName;
  SwapChainBufferCount := 2
|}.

(** A base class that creates the device, runs two frames and then leaves
    the message loop, and whose flush returns at once. *)
Definition plainD3DApp : @D3DApp plainPlatform := {|
  D3DApp_Initialize :=
    modifyApp (platform := plainPlatform) (set_md3dDevice true) ≫= (fun _ => mret true);
  D3DApp_Run :=
    Frame (platform := plainPlatform) 4 tt ≫= (fun _ =>
    Frame (platform := plainPlatform) 4 tt ≫= (fun _ => mret 0));
  FlushCommandQueue := mret tt;
  D3DApp_destructor := mret tt
|}.

(** Helpers that return at once and leave the environment alone; no error
    blob. *)
Definition plainHelpers : d3dUtil := {|
  CompileShader := fun _ _ _ w => inl w;
  CreateDefaultBuffer := fun _ w => inl w;
  FrameResource_device := fun _ _ _ w => inl w;
  errorBlob := fun _ => None
|}.


(** A world in which every call succeeds and the GPU has completed
    nothing yet. *)
Definition idleWorld : World := mkWorld (fun _ => 0) (fun _ => 0) 0 0 [].

(** ** A concrete run *)

Module Example.

#[local] Existing Instances plainPlatform triangleGenerator plainD3DApp plainHelpers.

(** The GPU has completed fence value [n] at the [n]-th observation; every
    call succeeds. *)
Definition promptWorld : World := mkWorld (fun n => Z.of_nat n) (fun _ => 0) 0 0 [].


(** The machine a computation leaves. *)
Definition after {A} (c : M A) (m : Machine) : Machine :=
  match c m with
  | Returns _ m' | Throws _ m' | Blocked m' | Aborted m' => m'
  | Undefined => m
  end.

(** The exception a computation throws. *)
Definition thrown {A} (c : M A) (m : Machine) : DxException :=
  match c m with
  | Throws e _ => e
  | _ => mkDxException 0 "" 0
  end.

(** Initialisation and four frames. *)
Definition m0 : Machine := after Initialize (mkMachine theApp promptWorld).
Definition m1 : Machine := after (Update 4 tt) m0.
Definition m1' : Machine := after (Draw tt) m1.
Definition m2 : Machine := after (Update 4 tt) m1'.
Definition m2' : Machine := after (Draw tt) m2.
Definition m3 : Machine := after (Update 4 tt) m2'.
Definition m3' : Machine := after (Draw tt) m3.
Definition m4 : Machine := after (Update 4 tt) m3'.

(** The first render item. *)
Definition e0 : RenderItem.t := default RenderItem.make_unique (mAllRitems (app m0) !! 0%nat).

(** The slot that the fourth update selects. *)
Definition a4 : i4CastleApp := default theApp (cycleFrameResource (afterInput tt (app m3'))).
Definition fr4 : FrameResource := default (FrameResource_new 0 0 0) (currFrameResource a4).

(** The two loops of an update, on the application after the ring has
    advanced. *)
Definition u0 : i4CastleApp := default theApp (cycleFrameResource (app m0)).
Definition u1 : i4CastleApp := default theApp (UpdateObjectCBs u0).
Definition u2 : i4CastleApp := default theApp (UpdateMaterialBuffer u1).



(** The machine that [D3DApp::Initialize] leaves. *)
Definition mBase : Machine := after D3DApp_Initialize (mkMachine theApp promptWorld).

(** Initialisation in a world in which the sixth call of the API fails. *)
Definition brokenWorld : World :=
  mkWorld (fun _ => 0) (fun n => if decide (n = 5)%nat then -1 else 0) 0 0 [].
Definition initFailure : DxException := thrown Initialize (mkMachine theApp brokenWorld).
Definition mInitFailed : Machine := after Initialize (mkMachine theApp brokenWorld).

End Example.

Section Proofs.

Context {platform : Platform} {geoGen : GeometryGenerator} {d3dApp : D3DApp}
        {helpers : d3dUtil}.

(** ** Machine integers *)

Lemma UINT_small z : 0 <= z < 2 ^ 32 -> Int.UINT z = z.
Proof. intros. unfold Int.UINT. now apply Z.mod_small. Qed.

Lemma UINT64_small z : 0 <= z < 2 ^ 64 -> Int.UINT64 z = z.
Proof. intros. unfold Int.UINT64. now apply Z.mod_small. Qed.

Lemma uint16_small z : 0 <= z < 2 ^ 16 -> Int.uint16 z = z.
Proof. intros. unfold Int.uint16. now apply Z.mod_small. Qed.

Lemma INT_small z : - 2 ^ 31 <= z < 2 ^ 31 -> Int.INT z = z.
Proof. intros. unfold Int.INT. rewrite Z.mod_small; lia. Qed.

Lemma UINT_range z : 0 <= Int.UINT z < 2 ^ 32.
Proof. unfold Int.UINT. apply Z.mod_pos_bound. lia. Qed.

Lemma UINT64_range z : 0 <= Int.UINT64 z < 2 ^ 64.
Proof. unfold Int.UINT64. apply Z.mod_pos_bound. lia. Qed.

(** ** Upload buffers *)

Lemma CopyData_Some {T} (i : Z) (d : T) (b b' : UploadBuffer.t T) :
  UploadBuffer.CopyData i d b = Some b' ->
  0 <= i < Z.of_nat (length b) /\ b' = <[Z.to_nat i := Some d]> b.
Proof.
  unfold UploadBuffer.CopyData. case_decide; [|discriminate].
  intros [= <-]. auto.
Qed.

Lemma CopyData_is_Some {T} (i : Z) (d : T) (b : UploadBuffer.t T) :
  0 <= i < Z.of_nat (length b) -> is_Some (UploadBuffer.CopyData i d b).
Proof. intros. unfold UploadBuffer.CopyData. rewrite decide_True by done. eauto. Qed.

(** ** The loop of [UpdateObjectCBs] *)

Lemma UpdateObjectCBs_loop_items mats items cb r :
  UpdateObjectCBs_loop mats items cb = Some r -> r.1 = map tickItem items.
Proof.
  revert cb r. induction items as [|e items IH]; intros cb r; simpl.
  - intros [= <-]. done.
  - unfold tickItem at 1. case_decide; intros Hr; simplify_option_eq; f_equal; eauto.
Qed.

Lemma UpdateObjectCBs_loop_length mats items cb r :
  UpdateObjectCBs_loop mats items cb = Some r -> length r.2 = length cb.
Proof.
  revert cb r. induction items as [|e items IH]; intros cb r; simpl.
  - intros [= <-]. done.
  - case_decide; intros Hr; simplify_option_eq; eauto.
    match goal with H : UploadBuffer.CopyData _ _ _ = Some _ |- _ =>
      apply CopyData_Some in H as [_ ->] end.
    erewrite IH by eassumption. by rewrite length_insert.
Qed.

Lemma UpdateObjectCBs_loop_frame mats items cb r (s : nat) :
  UpdateObjectCBs_loop mats items cb = Some r ->
  (forall e, e ∈ items -> RenderItem.NumFramesDirty e > 0 -> slotOf e ≠ Z.of_nat s) ->
  r.2 !! s = cb !! s.
Proof.
  revert cb r. induction items as [|e items IH]; intros cb r; simpl.
  - intros [= <-]. done.
  - intros Hr Hs. case_decide; simplify_option_eq.
    + match goal with H : UploadBuffer.CopyData _ _ _ = Some _ |- _ =>
        apply CopyData_Some in H as [Hrange ->] end.
      erewrite IH; [|eassumption|].
      * apply list_lookup_insert_ne. specialize (Hs e). 
        assert (slotOf e ≠ Z.of_nat s) by (apply Hs; [left|done]). lia.
      * intros e' He'. apply Hs. by right.
    + eapply IH; [eassumption|]. intros e' He'. apply Hs. by right.
Qed.

Lemma UpdateObjectCBs_loop_writes mats items cb r (p : nat) e :
  UpdateObjectCBs_loop mats items cb = Some r ->
  items !! p = Some e ->
  RenderItem.NumFramesDirty e > 0 ->
  (forall q e', (p < q)%nat -> items !! q = Some e' -> RenderItem.NumFramesDirty e' > 0 ->
                slotOf e' ≠ slotOf e) ->
  exists oc, objectConstantsOf mats e = Some oc /\ 0 <= slotOf e /\
             r.2 !! Z.to_nat (slotOf e) = Some (Some oc).
Proof.
  revert cb r p. induction items as [|e0 items IH]; intros cb r p; simpl; [done|].
  intros Hr Hp Hd Hlater. destruct p as [|p]; simpl in Hp.
  - injection Hp as ->. rewrite decide_True in Hr by done. simplify_option_eq.
    match goal with H : UploadBuffer.CopyData _ _ _ = Some _ |- _ =>
      apply CopyData_Some in H as [Hrange ->] end.
    eexists; split; [done|]. split; [lia|].
    erewrite UpdateObjectCBs_loop_frame; [|eassumption|].
    + apply list_lookup_insert_eq. lia.
    + intros e' He' Hd'. apply list_elem_of_lookup in He' as [q Hq].
      rewrite Z2Nat.id by lia. apply (Hlater (S q) e'); [lia|done|done].
  - assert (Hrest : forall q e', (p < q)%nat -> items !! q = Some e' ->
              RenderItem.NumFramesDirty e' > 0 -> slotOf e' ≠ slotOf e).
    { intros q e' Hq. apply (Hlater (S q) e'). lia. }
    case_decide; simplify_option_eq; eapply IH; eauto.
Qed.

(** The loop succeeds when every dirty item has a material and an element of the
    buffer. *)
Lemma UpdateObjectCBs_loop_is_Some mats items cb :
  (forall e, e ∈ items -> RenderItem.NumFramesDirty e > 0 ->
     is_Some (objectConstantsOf mats e) /\ 0 <= slotOf e < Z.of_nat (length cb)) ->
  is_Some (UpdateObjectCBs_loop mats items cb).
Proof.
  revert cb. induction items as [|e items IH]; intros cb H; simpl; [eauto|].
  case_decide.
  - destruct (H e) as [[oc ->] Hr]; [left|done|]. simpl.
    destruct (CopyData_is_Some (slotOf e) oc cb Hr) as [cb' Hcb]. rewrite Hcb. simpl.
    apply CopyData_Some in Hcb as [_ ->].
    destruct (IH (<[Z.to_nat (slotOf e):=Some oc]> cb)) as [r ->]; [|simpl; eauto].
    intros e' He' Hd'. rewrite length_insert. apply H; [by right|done].
  - destruct (IH cb) as [r ->]; [|simpl; eauto].
    intros e' He'. apply H. by right.
Qed.

(** ** The loop of [UpdateMaterialBuffer] *)

Lemma materialsAgree_refl mats : materialsAgree mats mats.
Proof. intros k. destruct (mats !! k) as [[m|]|]; [split; [done|lia]|done..]. Qed.

Lemma materialsAgree_trans m1 m2 m3 :
  materialsAgree m1 m2 -> materialsAgree m2 m3 -> materialsAgree m1 m3.
Proof.
  intros H12 H23 k. specialize (H12 k). specialize (H23 k).
  destruct (m1 !! k) as [[a|]|], (m2 !! k) as [[b|]|], (m3 !! k) as [[c|]|]; try done.
  destruct H12 as [? ?], H23 as [? ?]. split; [unfold sameMaterial in *; congruence|lia].
Qed.

Lemma materialsAgree_tick mats k mat :
  mats !! k = Some (Some mat) -> Material.NumFramesDirty mat > 0 ->
  materialsAgree mats
    (<[k := Some (Material.set_NumFramesDirty (Material.NumFramesDirty mat - 1) mat)]> mats).
Proof.
  intros Hk Hd k'. destruct (decide (k = k')) as [<-|Hne].
  - rewrite Hk, lookup_insert_eq. split; [done|simpl; lia].
  - rewrite lookup_insert_ne by done. apply materialsAgree_refl.
Qed.

Lemma UpdateMaterialBuffer_loop_agree keys mats buf r :
  UpdateMaterialBuffer_loop keys mats buf = Some r -> materialsAgree mats r.1.
Proof.
  revert mats buf r. induction keys as [|k keys IH]; intros mats buf r; simpl.
  - intros [= <-]. apply materialsAgree_refl.
  - intros Hr. destruct (mats !! k) as [[mat|]|] eqn:Hk; simpl in Hr; try done.
    case_decide.
    + simplify_option_eq. eapply materialsAgree_trans; [|eapply IH; eassumption].
      by apply materialsAgree_tick.
    + eauto.
Qed.

Lemma UpdateMaterialBuffer_loop_length keys mats buf r :
  UpdateMaterialBuffer_loop keys mats buf = Some r -> length r.2 = length buf.
Proof.
  revert mats buf r. induction keys as [|k keys IH]; intros mats buf r; simpl.
  - intros [= <-]. done.
  - intros Hr. destruct (mats !! k) as [[mat|]|] eqn:Hk; simpl in Hr; try done.
    case_decide; [|eauto]. simplify_option_eq.
    match goal with H : UploadBuffer.CopyData _ _ _ = Some _ |- _ =>
      apply CopyData_Some in H as [_ ->] end.
    erewrite IH by eassumption. by rewrite length_insert.
Qed.

Lemma UpdateMaterialBuffer_loop_frame keys mats buf r (s : nat) :
  UpdateMaterialBuffer_loop keys mats buf = Some r ->
  (forall k mat, mats !! k = Some (Some mat) -> Material.NumFramesDirty mat > 0 ->
                 Material.MatCBIndex mat ≠ Z.of_nat s) ->
  r.2 !! s = buf !! s.
Proof.
  revert mats buf r. induction keys as [|k keys IH]; intros mats buf r; simpl.
  - intros [= <-]. done.
  - intros Hr Hs. destruct (mats !! k) as [[mat|]|] eqn:Hk; simpl in Hr; try done.
    case_decide; [|eauto]. simplify_option_eq.
    match goal with H : UploadBuffer.CopyData _ _ _ = Some _ |- _ =>
      apply CopyData_Some in H as [Hrange ->] end.
    erewrite IH; [|eassumption|].
    + apply list_lookup_insert_ne. specialize (Hs k mat Hk). lia.
    + intros k' mat' Hk' Hd'.
      pose proof (materialsAgree_tick mats k mat Hk ltac:(done) k') as Hag.
      rewrite Hk' in Hag. destruct (mats !! k') as [[m0|]|] eqn:Hm0; try done.
      destruct Hag as [Hsame Hle].
      assert (Material.MatCBIndex mat' = Material.MatCBIndex m0) as ->
        by (unfold sameMaterial in Hsame; by injection Hsame).
      apply (Hs k' m0 Hm0). lia.
Qed.

(** ** Steps on the application object *)

Lemma cycleFrameResource_Some a a' :
  cycleFrameResource a = Some a' ->
  let i := nextFrameResourceIndex gNumFrameResources (mCurrFrameResourceIndex a) in
  0 <= i < Z.of_nat (length (mFrameResources a)) /\
  a' = set_mCurrFrameResource (Some (Z.to_nat i)) (set_mCurrFrameResourceIndex i a).
Proof.
  unfold cycleFrameResource. intros H. repeat case_decide; try discriminate.
  injection H as <-. auto.
Qed.

Lemma UpdateObjectCBs_Some a a' :
  UpdateObjectCBs a = Some a' ->
  exists p fr cb,
    mCurrFrameResource a = Some p /\ mFrameResources a !! p = Some fr /\
    UpdateObjectCBs_loop (mMaterials a) (mAllRitems a) (ObjectCB fr)
      = Some (map tickItem (mAllRitems a), cb) /\
    a' = set_mAllRitems (map tickItem (mAllRitems a))
           (set_mFrameResources (<[p := set_ObjectCB cb fr]> (mFrameResources a)) a).
Proof.
  unfold UpdateObjectCBs. intros H.
  destruct (mCurrFrameResource a) as [p|] eqn:Hp; simpl in H; [|done].
  destruct (mFrameResources a !! p) as [fr|] eqn:Hfr; simpl in H; [|done].
  destruct (UpdateObjectCBs_loop _ _ _) as [[items cb]|] eqn:Hl; simpl in H; [|done].
  injection H as <-. pose proof (UpdateObjectCBs_loop_items _ _ _ _ Hl) as Hi. simpl in Hi.
  subst items. eauto 10.
Qed.

Lemma UpdateMaterialBuffer_Some a a' :
  UpdateMaterialBuffer a = Some a' ->
  exists p fr mats buf,
    mCurrFrameResource a = Some p /\ mFrameResources a !! p = Some fr /\
    UpdateMaterialBuffer_loop (mMaterials_order (mMaterials a)) (mMaterials a) (MaterialBuffer fr)
      = Some (mats, buf) /\
    a' = set_mMaterials mats
           (set_mFrameResources (<[p := set_MaterialBuffer buf fr]> (mFrameResources a)) a).
Proof.
  unfold UpdateMaterialBuffer. intros H.
  destruct (mCurrFrameResource a) as [p|] eqn:Hp; simpl in H; [|done].
  destruct (mFrameResources a !! p) as [fr|] eqn:Hfr; simpl in H; [|done].
  destruct (UpdateMaterialBuffer_loop _ _ _) as [[mats buf]|] eqn:Hl; simpl in H; [|done].
  injection H as <-. eauto 10.
Qed.

Lemma UpdateMainPassCB_Some gt a a' :
  UpdateMainPassCB gt a = Some a' ->
  exists p fr,
    mCurrFrameResource a = Some p /\ mFrameResources a !! p = Some fr /\
    a' = set_mMainPassCB (MainPassConstants gt (mCamera a) (mMainPassCB a))
           (set_mFrameResources
              (<[p := set_PassCB (<[0%nat := Some (MainPassConstants gt (mCamera a) (mMainPassCB a))]>
                                    (PassCB fr)) fr]> (mFrameResources a)) a).
Proof.
  unfold UpdateMainPassCB. intros H.
  destruct (mCurrFrameResource a) as [p|] eqn:Hp; simpl in H; [|done].
  destruct (mFrameResources a !! p) as [fr|] eqn:Hfr; simpl in H; [|done].
  destruct (UploadBuffer.CopyData _ _ _) as [cb|] eqn:Hc; simpl in H; [|done].
  apply CopyData_Some in Hc as [_ ->]. injection H as <-. eauto.
Qed.

Lemma swapBackBuffer_Some a a' :
  swapBackBuffer a = Some a' ->
  mCurrBackBuffer a + 1 < 2 ^ 31 /\ SwapChainBufferCount ≠ 0 /\
  a' = set_mCurrBackBuffer (Z.rem (mCurrBackBuffer a + 1) SwapChainBufferCount) a.
Proof. unfold swapBackBuffer. repeat case_decide; [done| |done]. by intros [= <-]. Qed.

Lemma advanceFence_Some a a' :
  advanceFence a = Some a' ->
  exists p fr,
    mCurrFrameResource a = Some p /\ mFrameResources a !! p = Some fr /\
    a' = set_mFrameResources
           (<[p := set_Fence (Int.UINT64 (mCurrentFence a + 1)) fr]> (mFrameResources a))
           (set_mCurrentFence (Int.UINT64 (mCurrentFence a + 1)) a).
Proof.
  unfold advanceFence. intros H.
  destruct (mCurrFrameResource a) as [p|] eqn:Hp; simpl in H; [|done].
  destruct (mFrameResources a !! p) as [fr|] eqn:Hfr; simpl in H; [|done].
  injection H as <-. eauto.
Qed.

(** ** The monad *)

Lemma bind_Returns {A B} (c : M A) (f : A -> M B) m b m' :
  (c ≫= f) m = Returns b m' -> exists a m1, c m = Returns a m1 /\ f a m1 = Returns b m'.
Proof.
  unfold mbind, M_bind. destruct (c m) as [a m1| | | |]; try discriminate. eauto.
Qed.

Lemma bind_Throws {A B} (c : M A) (f : A -> M B) m e m' :
  (c ≫= f) m = Throws e m' ->
  c m = Throws e m' \/ exists a m1, c m = Returns a m1 /\ f a m1 = Throws e m'.
Proof.
  unfold mbind, M_bind. destruct (c m) as [a m1| | | |]; intros H; try discriminate;
    [right; by eexists _, _ | injection H as -> ->; by left].
Qed.

Lemma bind_Blocked {A B} (c : M A) (f : A -> M B) m m' :
  (c ≫= f) m = Blocked m' ->
  c m = Blocked m' \/ exists a m1, c m = Returns a m1 /\ f a m1 = Blocked m'.
Proof.
  unfold mbind, M_bind. destruct (c m) as [a m1| | | |]; intros H; try discriminate;
    [right; by eexists _, _ | injection H as ->; by left].
Qed.

Lemma bind_eq_Returns {A B} (c : M A) (f : A -> M B) m a m1 :
  c m = Returns a m1 -> (c ≫= f) m = f a m1.
Proof. unfold mbind, M_bind. by intros ->. Qed.

Lemma liftUB_Returns f m u m' :
  liftUB f m = Returns u m' -> f (app m) = Some (app m') /\ world m' = world m.
Proof.
  unfold liftUB. destruct (f (app m)); [|done]. intros [= _ <-]. done.
Qed.

Lemma liftUB_not_Throws f m e m' : liftUB f m ≠ Throws e m'.
Proof. unfold liftUB. by destruct (f (app m)). Qed.

Lemma liftUB_not_Blocked f m m' : liftUB f m ≠ Blocked m'.
Proof. unfold liftUB. by destruct (f (app m)). Qed.


Lemma readUB_Returns {A} (f : i4CastleApp -> option A) m v m' :
  readUB f m = Returns v m' -> f (app m) = Some v /\ m' = m.
Proof. unfold readUB. destruct (f (app m)); [|done]. intros [= <- <-]. done. Qed.

(** ** Sleeping on the fence *)

Lemma sleep_env budget v w w' :
  sleep budget v w = inl w' \/ sleep budget v w = inr w' ->
  fenceTimeline w' = fenceTimeline w /\ hresults w' = hresults w /\
  calls w' = calls w /\ trace w' = trace w /\ (clock w <= clock w')%nat.
Proof.
  revert w. induction budget as [|n IH]; intros w; simpl; case_decide.
  - intros [[= <-]|[=]]. simpl. repeat split; lia.
  - intros [[=]|[= <-]]. repeat split; lia.
  - intros [[= <-]|[=]]. simpl. repeat split; lia.
  - intros Hs. apply IH in Hs. simpl in Hs. destruct Hs as (?&?&?&?&?). repeat split; auto; lia.
Qed.

(** A sleep that ends has seen the fence at the awaited value, and not before. *)
Lemma sleep_inl budget v w w' :
  sleep budget v w = inl w' ->
  exists t, (clock w <= t <= clock w + budget)%nat /\ v <= fenceTimeline w t /\
            clock w' = S t /\
            forall t', (clock w <= t' < t)%nat -> fenceTimeline w t' < v.
Proof.
  revert w. induction budget as [|n IH]; intros w; simpl; case_decide; try discriminate.
  - intros [= <-]. exists (clock w). repeat split; simpl; try lia; done.
  - intros [= <-]. exists (clock w). repeat split; simpl; try lia; done.
  - intros Hs. apply IH in Hs as (t & Ht & Hv & Hc & Hbefore). simpl in *.
    exists t. repeat split; try lia; try done.
    intros t' Ht'. destruct (decide (t' = clock w)) as [->|]; [lia|]. apply Hbefore. lia.
Qed.

(** A sleep that has not ended has seen the fence below the awaited value at
    every observation. *)
Lemma sleep_inr budget v w w' :
  sleep budget v w = inr w' ->
  forall t, (clock w <= t <= clock w + budget)%nat -> fenceTimeline w t < v.
Proof.
  revert w. induction budget as [|n IH]; intros w; simpl; case_decide; try discriminate.
  - intros _ t Ht. replace t with (clock w) by lia. lia.
  - intros Hs t Ht. destruct (decide (t = clock w)) as [->|]; [lia|].
    apply (IH _ Hs). simpl. lia.
Qed.

Lemma sleep_below budget v w :
  (forall t, (clock w <= t <= clock w + budget)%nat -> fenceTimeline w t < v) ->
  exists w', sleep budget v w = inr w'.
Proof.
  revert w. induction budget as [|n IH]; intros w H; simpl.
  - rewrite decide_False; [eauto|]. specialize (H (clock w)). lia.
  - rewrite decide_False; [|specialize (H (clock w)); lia].
    apply IH. intros t Ht. simpl in *. apply H. lia.
Qed.

Lemma sleep_reached budget v w t :
  (clock w <= t <= clock w + budget)%nat -> v <= fenceTimeline w t ->
  exists w', sleep budget v w = inl w'.
Proof.
  intros Ht Hv. destruct (sleep budget v w) as [w'|w'] eqn:E; [eauto|].
  pose proof (sleep_inr _ _ _ _ E t Ht). lia.
Qed.

(** ** Primitive calls *)

Lemma checked_Returns name x line m u m' :
  checked name x line m = Returns u m' ->
  FAILED (hresults (world m) (calls (world m))) = false /\
  m' = mkMachine (app m) (afterCall name (world m)).
Proof.
  unfold checked, api, ThrowIfFailed, mbind, M_bind, afterCall. simpl.
  destruct (FAILED _); [done|]. intros [= <-]. done.
Qed.

Lemma checked_Throws name x line m e m' :
  checked name x line m = Throws e m' ->
  FAILED (hresults (world m) (calls (world m))) = true /\
  e = mkDxException (hresults (world m) (calls (world m))) x line /\
  m' = mkMachine (app m) (afterCall name (world m)).
Proof.
  unfold checked, api, ThrowIfFailed, mbind, M_bind, afterCall. simpl.
  destruct (FAILED _); [|done]. intros [= <- <-]. done.
Qed.

Lemma checked_not_Blocked name x line m m' : checked name x line m ≠ Blocked m'.
Proof.
  unfold checked, api, ThrowIfFailed, mbind, M_bind. simpl. by destruct (FAILED _).
Qed.

Lemma checked_eq name x line m :
  checked name x line m =
    if FAILED (hresults (world m) (calls (world m)))
    then Throws (mkDxException (hresults (world m) (calls (world m))) x line)
                (mkMachine (app m) (afterCall name (world m)))
    else Returns tt (mkMachine (app m) (afterCall name (world m))).
Proof. reflexivity. Qed.

(** ** The wait of [Update] *)

(** The three ways the wait of [Update] can go, as an equation. *)
Lemma waitForFrameResource_eq fuel m fr :
  currFrameResource (app m) = Some fr ->
  waitForFrameResource fuel m =
    let w := world m in
    if decide (Fence fr = 0) then Returns tt m
    else if decide (fenceTimeline w (clock w) < Fence fr) then
      let w1 := afterCall "mFence->SetEventOnCompletion" (tick w) in
      if FAILED (hresults w (calls w))
      then Throws (mkDxException (hresults w (calls w))
                     "mFence->SetEventOnCompletion(mCurrFrameResource->Fence, eventHandle)" 218)
                  (mkMachine (app m) w1)
      else match sleep fuel (Fence fr) (log (EvWait (Fence fr) INFINITE) w1) with
           | inl w2 => Returns tt (mkMachine (app m) w2)
           | inr w2 => Blocked (mkMachine (app m) w2)
           end
    else Returns tt (mkMachine (app m) (tick w)).
Proof.
  intros Hfr. unfold waitForFrameResource, readUB, mbind at 1, M_bind at 1. rewrite Hfr.
  destruct (decide (Fence fr = 0)) as [H0|H0].
  - destruct (decide (Fence fr ≠ 0)); [done|]. reflexivity.
  - destruct (decide (Fence fr ≠ 0)); [|done].
    unfold GetCompletedValue, mbind, M_bind, mret, M_ret. simpl.
    destruct (decide (fenceTimeline (world m) (clock (world m)) < Fence fr)) as [Hb|Hb].
    + rewrite bool_decide_eq_true_2 by done. 
      unfold checked, api, ThrowIfFailed, mbind, M_bind, afterCall. simpl.
      destruct (FAILED _); [done|].
      unfold WaitForSingleObject. simpl.
      by destruct (sleep _ _ _).
    + rewrite bool_decide_eq_false_2 by done. reflexivity.
Qed.

(** The wait leaves the application object alone, however it ends. *)
Lemma waitForFrameResource_Returns fuel m u m' :
  waitForFrameResource fuel m = Returns u m' -> app m' = app m.
Proof.
  destruct (currFrameResource (app m)) as [fr|] eqn:Hfr.
  - rewrite (waitForFrameResource_eq _ _ _ Hfr). simpl.
    destruct (decide (Fence fr = 0)); [by intros [= _ <-]|].
    destruct (decide (_ < _)); [|by intros [= _ <-]].
    destruct (FAILED _); [done|]. destruct (sleep _ _ _); [|done]. by intros [= _ <-].
  - unfold waitForFrameResource, readUB, mbind, M_bind. by rewrite Hfr.
Qed.

(** ** [Update] as a composition *)

Lemma Update_eq fuel gt m :
  Update fuel gt m =
    match cycleFrameResource (afterInput gt (app m)) with
    | Some a1 =>
        (_ ← waitForFrameResource fuel;
         _ ← liftUB UpdateObjectCBs;
         _ ← liftUB UpdateMaterialBuffer;
         liftUB (UpdateMainPassCB gt)) (mkMachine a1 (world m))
    | None => Undefined
    end.
Proof.
  unfold Update, OnKeyboardInput, modifyApp, AnimateMaterials.
  unfold mbind, M_bind, mret, M_ret, liftUB at 1. simpl. fold (afterInput gt (app m)).
  destruct (cycleFrameResource _); [|done]. simpl.
  by destruct (waitForFrameResource fuel _).
Qed.

Lemma Update_Returns fuel gt m u m' :
  Update fuel gt m = Returns u m' ->
  exists a1 a2 a3 w1,
    cycleFrameResource (afterInput gt (app m)) = Some a1 /\
    waitForFrameResource fuel (mkMachine a1 (world m)) = Returns tt (mkMachine a1 w1) /\
    UpdateObjectCBs a1 = Some a2 /\
    UpdateMaterialBuffer a2 = Some a3 /\
    UpdateMainPassCB gt a3 = Some (app m') /\
    world m' = w1.
Proof.
  rewrite Update_eq. destruct (cycleFrameResource _) as [a1|] eqn:Hc; [|done].
  intros H.
  apply bind_Returns in H as ([] & m1 & Hw & H).
  pose proof (waitForFrameResource_Returns _ _ _ _ Hw) as Ha1. simpl in Ha1.
  apply bind_Returns in H as (? & m2 & H2 & H).
  apply bind_Returns in H as (? & m3 & H3 & H).
  apply liftUB_Returns in H2 as [H2 Hw2], H3 as [H3 Hw3], H as [H4 Hw4].
  destruct m1 as [a1' w1]. simpl in *. subst a1'.
  exists a1, (app m2), (app m3), w1. repeat split; try done. congruence.
Qed.

(** The effect of a returning [Update] on the application object: the ring
    advances to slot [j]; only frame resource [j] changes, its buffers being
    those the three loops produce; the render items and the materials tick. *)
Lemma Update_effect fuel gt m u m' :
  Update fuel gt m = Returns u m' ->
  let a := app m in
  let a' := app m' in
  let i := nextFrameResourceIndex gNumFrameResources (mCurrFrameResourceIndex a) in
  exists fr fr',
    0 <= i /\
    mCurrFrameResourceIndex a' = i /\
    mCurrFrameResource a' = Some (Z.to_nat i) /\
    mFrameResources a !! Z.to_nat i = Some fr /\
    mFrameResources a' = <[Z.to_nat i := fr']> (mFrameResources a) /\
    Fence fr' = Fence fr /\
    mAllRitems a' = map tickItem (mAllRitems a) /\
    UpdateObjectCBs_loop (mMaterials a) (mAllRitems a) (ObjectCB fr)
      = Some (map tickItem (mAllRitems a), ObjectCB fr') /\
    UpdateMaterialBuffer_loop (mMaterials_order (mMaterials a)) (mMaterials a) (MaterialBuffer fr)
      = Some (mMaterials a', MaterialBuffer fr') /\
    length (PassCB fr') = length (PassCB fr) /\
    mCurrentFence a' = mCurrentFence a /\
    mGeometries a' = mGeometries a /\
    mOpaqueRitems a' = mOpaqueRitems a /\
    md3dDevice a' = md3dDevice a /\
    waitForFrameResource fuel
      (mkMachine (set_mCurrFrameResource (Some (Z.to_nat i))
                    (set_mCurrFrameResourceIndex i (afterInput gt a))) (world m))
      = Returns tt (mkMachine (set_mCurrFrameResource (Some (Z.to_nat i))
                    (set_mCurrFrameResourceIndex i (afterInput gt a))) (world m')).
Proof.
  intros H a a' i. apply Update_Returns in H as (a1 & a2 & a3 & w1 & Hc & Hw & H2 & H3 & H4 & Hw').
  apply cycleFrameResource_Some in Hc as [Hi Ha1]. cbv zeta in Hi, Ha1.
  change (mCurrFrameResourceIndex (afterInput gt (app m))) with (mCurrFrameResourceIndex a) in Hi, Ha1.
  change (mFrameResources (afterInput gt (app m))) with (mFrameResources a) in Hi.
  fold i in Hi, Ha1.
  apply UpdateObjectCBs_Some in H2 as (p & fr & cb & Hp & Hfr & Hloop & Ha2).
  rewrite Ha1 in Hp. simpl in Hp. injection Hp as <-.
  rewrite Ha1 in Hfr, Hloop. simpl in Hfr, Hloop.
  assert (Hlt : (Z.to_nat i < length (mFrameResources a))%nat) by (eapply lookup_lt_Some; eauto).
  apply UpdateMaterialBuffer_Some in H3 as (p & fr2 & mats & buf & Hp & Hfr2 & Hloop2 & Ha3).
  rewrite Ha2, Ha1 in Hp. simpl in Hp. injection Hp as <-.
  rewrite Ha2, Ha1 in Hfr2, Hloop2. simpl in Hfr2, Hloop2.
  rewrite list_lookup_insert_eq in Hfr2 by done. injection Hfr2 as <-. simpl in Hloop2.
  apply UpdateMainPassCB_Some in H4 as (p & fr3 & Hp & Hfr3 & Ha').
  rewrite Ha3, Ha2, Ha1 in Hp. simpl in Hp. injection Hp as <-.
  rewrite Ha3, Ha2, Ha1 in Hfr3. simpl in Hfr3.
  rewrite list_lookup_insert_eq in Hfr3 by (by rewrite length_insert). injection Hfr3 as <-.
  subst w1. fold a' in Ha'. rewrite Ha1 in Hw.
  eexists fr, _. split; [lia|].
  rewrite Ha', Ha3, Ha2, Ha1. simpl.
  rewrite !list_insert_insert_eq.
  repeat split; try done.
  simpl. by rewrite length_insert.
Qed.

(** ** [Draw] *)

Lemma DrawRenderItems_length a ritems draws :
  DrawRenderItems a ritems = Some draws -> length draws = length ritems.
Proof.
  unfold DrawRenderItems. destruct (currFrameResource a); simpl; [|done].
  intros H. symmetry. by apply length_mapM in H.
Qed.

(** The effect of a returning [Draw]: the fence counter advances by one (in
    [UINT64]), the current slot records the new value, and the queue is asked to
    signal it. *)
Lemma Draw_effect gt m u m' :
  Draw gt m = Returns u m' ->
  let a := app m in
  let a' := app m' in
  let v := Int.UINT64 (mCurrentFence a + 1) in
  exists j fr draws w1,
    mCurrFrameResource a = Some j /\
    mFrameResources a !! j = Some fr /\
    DrawRenderItems a (mOpaqueRitems a) = Some draws /\
    a' = set_mFrameResources (<[j := set_Fence v fr]> (mFrameResources a))
           (set_mCurrentFence v
              (set_mCurrBackBuffer (Z.rem (mCurrBackBuffer a + 1) SwapChainBufferCount) a)) /\
    world m' = log (EvSignal v (hresults w1 (calls w1))) (called w1) /\
    w1 = afterCall "mSwapChain->Present"
           (log (EvExecute draws)
              (afterCall "mCommandList->Close"
                 (afterCall "mCommandList->Reset"
                    (afterCall "cmdListAlloc->Reset" (world m))))).
Proof.
  intros H. cbv zeta. unfold Draw in H.
  apply bind_Returns in H as (fr0 & m1 & H1 & H). apply readUB_Returns in H1 as [Hfr0 ->].
  apply bind_Returns in H as (? & m2 & H2 & H). apply checked_Returns in H2 as [_ ->].
  apply bind_Returns in H as (? & m3 & H3 & H). apply checked_Returns in H3 as [_ ->].
  apply bind_Returns in H as (draws & m4 & H4 & H). apply readUB_Returns in H4 as [Hdraws ->].
  apply bind_Returns in H as (? & m5 & H5 & H). apply checked_Returns in H5 as [_ ->].
  apply bind_Returns in H as (? & m6 & H6 & H). unfold logEvent in H6. simplify_eq/=.
  apply bind_Returns in H as (? & m7 & H7 & H). apply checked_Returns in H7 as [_ ->].
  apply bind_Returns in H as (? & m8 & H8 & H). apply liftUB_Returns in H8 as [H8 Hw8].
  apply swapBackBuffer_Some in H8 as (_ & _ & Ha8).
  apply bind_Returns in H as (? & m9 & H9 & H). apply liftUB_Returns in H9 as [H9 Hw9].
  apply advanceFence_Some in H9 as (j & fr & Hj & Hfr & Ha9). rewrite Ha8 in Hj, Hfr, Ha9.
  simpl in *.
  unfold Signal in H. simplify_eq/=.
  exists j, fr, draws. eexists. repeat split; try done.
  rewrite ?Hw9, ?Ha9, ?Hw8, ?Ha8. simpl. done.
Qed.

(** ** How [Update] can end without returning *)

Lemma waitForFrameResource_Throws fuel m e m' :
  waitForFrameResource fuel m = Throws e m' ->
  app m' = app m /\
  e = mkDxException (hresults (world m) (calls (world m)))
        "mFence->SetEventOnCompletion(mCurrFrameResource->Fence, eventHandle)" 218 /\
  FAILED (ErrorCode e) = true /\
  world m' = afterCall "mFence->SetEventOnCompletion" (tick (world m)).
Proof.
  destruct (currFrameResource (app m)) as [fr|] eqn:Hfr.
  - rewrite (waitForFrameResource_eq _ _ _ Hfr). simpl.
    destruct (decide (Fence fr = 0)); [done|].
    destruct (decide (_ < _)); [|done].
    destruct (FAILED _) eqn:Hf; [|by destruct (sleep _ _ _)].
    intros [= <- <-]. done.
  - unfold waitForFrameResource, readUB, mbind, M_bind. by rewrite Hfr.
Qed.

Lemma waitForFrameResource_Blocked fuel m m' :
  waitForFrameResource fuel m = Blocked m' ->
  exists fr,
    currFrameResource (app m) = Some fr /\ app m' = app m /\
    Fence fr ≠ 0 /\ fenceTimeline (world m) (clock (world m)) < Fence fr /\
    FAILED (hresults (world m) (calls (world m))) = false /\
    sleep fuel (Fence fr)
      (log (EvWait (Fence fr) INFINITE)
         (afterCall "mFence->SetEventOnCompletion" (tick (world m)))) = inr (world m').
Proof.
  destruct (currFrameResource (app m)) as [fr|] eqn:Hfr.
  - rewrite (waitForFrameResource_eq _ _ _ Hfr). simpl.
    destruct (decide (Fence fr = 0)); [done|].
    destruct (decide (_ < _)); [|done].
    destruct (FAILED _) eqn:Hf; [done|]. destruct (sleep _ _ _) eqn:Hs; [done|].
    intros [= <-]. exists fr. done.
  - unfold waitForFrameResource, readUB, mbind, M_bind. by rewrite Hfr.
Qed.

(** Only the wait throws or blocks: the buffers have not been touched then. *)
Lemma Update_Throws fuel gt m e m' :
  Update fuel gt m = Throws e m' ->
  exists a1, cycleFrameResource (afterInput gt (app m)) = Some a1 /\
             waitForFrameResource fuel (mkMachine a1 (world m)) = Throws e m'.
Proof.
  rewrite Update_eq. destruct (cycleFrameResource _) as [a1|]; [|done].
  intros H. exists a1. split; [done|].
  apply bind_Throws in H as [H|(? & m1 & _ & H)]; [done|].
  apply bind_Throws in H as [H|(? & m2 & _ & H)]; [by apply liftUB_not_Throws in H|].
  apply bind_Throws in H as [H|(? & m3 & _ & H)]; by apply liftUB_not_Throws in H.
Qed.

Lemma Update_Blocked fuel gt m m' :
  Update fuel gt m = Blocked m' ->
  exists a1, cycleFrameResource (afterInput gt (app m)) = Some a1 /\
             waitForFrameResource fuel (mkMachine a1 (world m)) = Blocked m'.
Proof.
  rewrite Update_eq. destruct (cycleFrameResource _) as [a1|]; [|done].
  intros H. exists a1. split; [done|].
  apply bind_Blocked in H as [H|(? & m1 & _ & H)]; [done|].
  apply bind_Blocked in H as [H|(? & m2 & _ & H)]; [by apply liftUB_not_Blocked in H|].
  apply bind_Blocked in H as [H|(? & m3 & _ & H)]; by apply liftUB_not_Blocked in H.
Qed.

(** ** The ring index *)

Lemma nextFrameResourceIndex_mod N i :
  0 < N -> 0 <= i -> nextFrameResourceIndex N i = (i + 1) mod N.
Proof. intros. unfold nextFrameResourceIndex. apply Z.rem_mod_nonneg; lia. Qed.

Lemma nextFrameResourceIndex_range N i :
  0 < N -> 0 <= i -> 0 <= nextFrameResourceIndex N i < N.
Proof.
  intros. rewrite nextFrameResourceIndex_mod by lia. apply Z.mod_pos_bound. lia.
Qed.

(** [k] advances from [i] reach [(i + k) mod N]. *)
Lemma nextFrameResourceIndex_iter N i (k : nat) :
  0 < N -> 0 <= i < N ->
  Nat.iter k (nextFrameResourceIndex N) i = (i + Z.of_nat k) mod N.
Proof.
  intros HN Hi. induction k as [|k IH].
  - simpl. rewrite Z.add_0_r. symmetry. apply Z.mod_small. lia.
  - rewrite Nat.iter_succ, IH.
    rewrite nextFrameResourceIndex_mod; [|lia|apply Z.mod_pos_bound; lia].
    rewrite Zplus_mod_idemp_l. f_equal. lia.
Qed.

(** C4: at every update the ring index advances to [(i + 1) mod N] and the slot
    it names becomes the current frame resource, whether the update then
    returns, throws or blocks; for every [N >= 1] the sequence of indices is
    periodic with period exactly [N]; in the code [N] is 3, so three updates
    bring the index back. *)
Theorem C4_ring_index_periodic :
  (forall N i, 1 <= N -> 0 <= i < N ->
     (forall k : nat, 0 <= Nat.iter k (nextFrameResourceIndex N) i < N) /\
     (forall k : nat,
        Nat.iter (k + Z.to_nat N) (nextFrameResourceIndex N) i
        = Nat.iter k (nextFrameResourceIndex N) i) /\
     (forall k : nat, (0 < k < Z.to_nat N)%nat ->
        Nat.iter k (nextFrameResourceIndex N) i ≠ i)) /\
  gNumFrameResources = 3 /\
  (forall fuel gt m m',
     Update fuel gt m = Returns tt m' \/ (exists e, Update fuel gt m = Throws e m') \/
     Update fuel gt m = Blocked m' ->
     mCurrFrameResourceIndex (app m')
       = nextFrameResourceIndex gNumFrameResources (mCurrFrameResourceIndex (app m)) /\
     0 <= mCurrFrameResourceIndex (app m') /\
     mCurrFrameResource (app m') = Some (Z.to_nat (mCurrFrameResourceIndex (app m'))) /\
     is_Some (mFrameResources (app m') !! Z.to_nat (mCurrFrameResourceIndex (app m')))) /\
  (forall gt m m', Draw gt m = Returns tt m' ->
     mCurrFrameResourceIndex (app m') = mCurrFrameResourceIndex (app m)) /\
  (forall fuel0 gt0 fuel1 gt1 fuel2 gt2 m0 m1 m1' m2 m2' m3,
     0 <= mCurrFrameResourceIndex (app m0) < gNumFrameResources ->
     Update fuel0 gt0 m0 = Returns tt m1 -> Draw gt0 m1 = Returns tt m1' ->
     Update fuel1 gt1 m1' = Returns tt m2 -> Draw gt1 m2 = Returns tt m2' ->
     Update fuel2 gt2 m2' = Returns tt m3 ->
     mCurrFrameResourceIndex (app m3) = mCurrFrameResourceIndex (app m0) /\
     mCurrFrameResourceIndex (app m1) ≠ mCurrFrameResourceIndex (app m0) /\
     mCurrFrameResourceIndex (app m2) ≠ mCurrFrameResourceIndex (app m0)).
Proof.
  split; [|split; [done|split; [|split]]].
  - intros N i HN Hi. split; [|split].
    + intros k. rewrite nextFrameResourceIndex_iter by lia. apply Z.mod_pos_bound. lia.
    + intros k. rewrite !nextFrameResourceIndex_iter by lia.
      rewrite Nat2Z.inj_add, Z2Nat.id by lia.
      replace (i + (Z.of_nat k + N)) with (i + Z.of_nat k + 1 * N) by lia.
      apply Z_mod_plus_full.
    + intros k Hk. rewrite nextFrameResourceIndex_iter by lia. intros Heq.
      assert (Hmod : (i + Z.of_nat k) mod N = i mod N) by (rewrite Heq; symmetry; apply Z.mod_small; lia).
      destruct (decide (i + Z.of_nat k < N)).
      * rewrite Z.mod_small in Heq by lia. lia.
      * replace (i + Z.of_nat k) with (i + Z.of_nat k - N + 1 * N) in Heq by lia.
        rewrite Z_mod_plus_full, Z.mod_small in Heq by lia. lia.
  - intros fuel gt m m' [H|[[e H]|H]].
    + apply Update_effect in H as (fr & fr' & Hi & Hidx & Hcur & Hfr & Hfrs & _).
      rewrite Hidx, Hcur. split_and!; try done. rewrite Hfrs.
      rewrite list_lookup_insert_eq; [eauto|]. by eapply lookup_lt_Some.
    + apply Update_Throws in H as (a1 & Hc & H).
      apply waitForFrameResource_Throws in H as (Ha & _). simpl in Ha. rewrite Ha.
      apply cycleFrameResource_Some in Hc as [Hi ->]. cbv zeta in Hi.
      unfold afterInput in *. simpl in *.
      split_and!; try done; try lia. apply lookup_lt_is_Some_2. lia.
    + apply Update_Blocked in H as (a1 & Hc & H).
      apply waitForFrameResource_Blocked in H as (? & _ & Ha & _). simpl in Ha. rewrite Ha.
      apply cycleFrameResource_Some in Hc as [Hi ->]. cbv zeta in Hi.
      unfold afterInput in *. simpl in *.
      split_and!; try done; try lia. apply lookup_lt_is_Some_2. lia.
  - intros gt m m' H. apply Draw_effect in H as (j & fr & draws & w1 & _ & _ & _ & E & _).
    by rewrite E.
  - intros fuel0 gt0 fuel1 gt1 fuel2 gt2 m0 m1 m1' m2 m2' m3 Hi U0 D0 U1 D1 U2.
    apply Update_effect in U0 as (? & ? & _ & I0 & _).
    apply Update_effect in U1 as (? & ? & _ & I1 & _).
    apply Update_effect in U2 as (? & ? & _ & I2 & _).
    apply Draw_effect in D0 as (? & ? & ? & ? & _ & _ & _ & E0 & _).
    apply Draw_effect in D1 as (? & ? & ? & ? & _ & _ & _ & E1 & _).
    rewrite E1 in I2. rewrite E0 in I1. simpl in I1, I2.
    rewrite I2, I1, I0.
    unfold gNumFrameResources in *.
    assert (mCurrFrameResourceIndex (app m0) = 0 \/ mCurrFrameResourceIndex (app m0) = 1 \/
            mCurrFrameResourceIndex (app m0) = 2) as [-> | [-> | ->]] by lia; done.
Qed.

(** ** The frame of one update *)

(** C6: one update cycle (the loop over the render items, then the loop over
    the materials) writes only into the per-object and per-material buffers of
    the current frame resource, and there only into elements that belong to
    an item or material whose dirty count is positive; the other frame
    resources, the other elements, and the pass buffer and fence of the
    current one are unchanged.  For the whole of [Update] (which also writes
    the pass constants of the current frame resource) the same holds of the
    slot the ring has just advanced to. *)
Theorem C6_update_writes_current_dirty_slots_only :
  (forall a a1 a2,
     UpdateObjectCBs a = Some a1 -> UpdateMaterialBuffer a1 = Some a2 ->
     exists j fr fr2,
       mCurrFrameResource a = Some j /\
       mFrameResources a !! j = Some fr /\
       mFrameResources a2 !! j = Some fr2 /\
       (forall k, k ≠ j -> mFrameResources a2 !! k = mFrameResources a !! k) /\
       length (mFrameResources a2) = length (mFrameResources a) /\
       PassCB fr2 = PassCB fr /\
       Fence fr2 = Fence fr /\
       length (ObjectCB fr2) = length (ObjectCB fr) /\
       length (MaterialBuffer fr2) = length (MaterialBuffer fr) /\
       (forall s : nat,
          (forall e, e ∈ mAllRitems a -> RenderItem.NumFramesDirty e > 0 ->
                     slotOf e ≠ Z.of_nat s) ->
          ObjectCB fr2 !! s = ObjectCB fr !! s) /\
       (forall s : nat,
          (forall k mat, mMaterials a !! k = Some (Some mat) ->
                         Material.NumFramesDirty mat > 0 ->
                         Material.MatCBIndex mat ≠ Z.of_nat s) ->
          MaterialBuffer fr2 !! s = MaterialBuffer fr !! s)) /\
  (forall fuel gt m m',
     Update fuel gt m = Returns tt m' ->
     exists j fr fr',
       mCurrFrameResource (app m') = Some j /\
       mFrameResources (app m) !! j = Some fr /\
       mFrameResources (app m') !! j = Some fr' /\
       (forall k, k ≠ j -> mFrameResources (app m') !! k = mFrameResources (app m) !! k) /\
       length (mFrameResources (app m')) = length (mFrameResources (app m)) /\
       Fence fr' = Fence fr /\
       (forall s : nat,
          (forall e, e ∈ mAllRitems (app m) -> RenderItem.NumFramesDirty e > 0 ->
                     slotOf e ≠ Z.of_nat s) ->
          ObjectCB fr' !! s = ObjectCB fr !! s) /\
       (forall s : nat,
          (forall k mat, mMaterials (app m) !! k = Some (Some mat) ->
                         Material.NumFramesDirty mat > 0 ->
                         Material.MatCBIndex mat ≠ Z.of_nat s) ->
          MaterialBuffer fr' !! s = MaterialBuffer fr !! s)).
Proof.
  split.
  - intros a a1 a2 H1 H2.
    apply UpdateObjectCBs_Some in H1 as (j & fr & cb & Hj & Hfr & Hloop & ->).
    apply UpdateMaterialBuffer_Some in H2 as (j' & fr1 & mats & buf & Hj' & Hfr1 & Hloop2 & ->).
    simpl in *. rewrite Hj in Hj'. injection Hj' as <-.
    assert (Hlt : (j < length (mFrameResources a))%nat) by (by eapply lookup_lt_Some).
    rewrite list_lookup_insert_eq in Hfr1 by done. injection Hfr1 as <-. simpl in *.
    rewrite list_insert_insert_eq.
    exists j, fr, (set_MaterialBuffer buf (set_ObjectCB cb fr)).
    split_and!; try done.
    + by apply list_lookup_insert_eq.
    + intros k Hk. by apply list_lookup_insert_ne.
    + by rewrite length_insert.
    + simpl. apply (UpdateObjectCBs_loop_length _ _ _ _ Hloop).
    + simpl. apply (UpdateMaterialBuffer_loop_length _ _ _ _ Hloop2).
    + intros s Hs. simpl. apply (UpdateObjectCBs_loop_frame _ _ _ _ s Hloop Hs).
    + intros s Hs. simpl. apply (UpdateMaterialBuffer_loop_frame _ _ _ _ s Hloop2 Hs).
  - intros fuel gt m m' H.
    apply Update_effect in H
      as (fr & fr' & Hi & Hidx & Hcur & Hfr & Hfrs & Hfence & _ & Hloop & Hloop2 & _).
    assert (Hlt : (Z.to_nat (nextFrameResourceIndex gNumFrameResources
                     (mCurrFrameResourceIndex (app m))) < length (mFrameResources (app m)))%nat)
      by (by eapply lookup_lt_Some).
    eexists _, fr, fr'. rewrite Hfrs. split_and!; try done.
    + by apply list_lookup_insert_eq.
    + intros k Hk. by apply list_lookup_insert_ne.
    + by rewrite length_insert.
    + intros s Hs. apply (UpdateObjectCBs_loop_frame _ _ _ _ s Hloop Hs).
    + intros s Hs. apply (UpdateMaterialBuffer_loop_frame _ _ _ _ s Hloop2 Hs).
Qed.

(** ** Propagation of one edit *)

Lemma tickItem_static e :
  RenderItem.set_NumFramesDirty 0 (tickItem e) = RenderItem.set_NumFramesDirty 0 e.
Proof. unfold tickItem. by case_decide. Qed.

Lemma tickItem_slotOf e : slotOf (tickItem e) = slotOf e.
Proof. unfold tickItem. by case_decide. Qed.

Lemma tickItem_dirty e :
  RenderItem.NumFramesDirty e > 0 ->
  RenderItem.NumFramesDirty (tickItem e) = RenderItem.NumFramesDirty e - 1.
Proof. intros. unfold tickItem. by rewrite decide_True. Qed.

Lemma tickItem_clean e : ¬ RenderItem.NumFramesDirty e > 0 -> tickItem e = e.
Proof. intros. unfold tickItem. by rewrite decide_False. Qed.

(** The constants of an item depend on its transforms and on the index of its
    material, which no update changes. *)
Lemma objectConstantsOf_agree mats mats' e e' :
  materialsAgree mats mats' ->
  RenderItem.set_NumFramesDirty 0 e' = RenderItem.set_NumFramesDirty 0 e ->
  objectConstantsOf mats' e' = objectConstantsOf mats e.
Proof.
  intros Hag Hst. unfold objectConstantsOf.
  injection Hst as -> -> _ ->. destruct (RenderItem.Mat e) as [k|]; simpl; [|done].
  specialize (Hag k). destruct (mats !! k) as [[mat|]|], (mats' !! k) as [[mat'|]|]; simpl; try done.
  destruct Hag as [Hs _]. unfold sameMaterial in Hs. by injection Hs as _ -> _ _ _ _ _.
Qed.

Lemma ObjectCB_at_insert_ne a a' (j k : nat) fr' slot :
  mFrameResources a' = <[j := fr']> (mFrameResources a) -> k ≠ j ->
  ObjectCB_at a' k slot = ObjectCB_at a k slot.
Proof. intros Hfrs Hk. unfold ObjectCB_at. rewrite Hfrs, list_lookup_insert_ne; done. Qed.

Lemma ObjectCB_at_insert_eq a a' (j : nat) fr fr' slot :
  mFrameResources a' = <[j := fr']> (mFrameResources a) ->
  mFrameResources a !! j = Some fr -> 0 <= slot ->
  ObjectCB_at a' j slot = mjoin (ObjectCB fr' !! Z.to_nat slot) /\
  ObjectCB_at a j slot = mjoin (ObjectCB fr !! Z.to_nat slot).
Proof.
  intros Hfrs Hfr Hs. unfold ObjectCB_at. rewrite Hfrs, Hfr.
  rewrite list_lookup_insert_eq by (by eapply lookup_lt_Some). simpl.
  by rewrite !decide_True.
Qed.

(** What a returning [Update] does for the item at position [p] whose element
    of the per-object buffer no other item shares. *)
Lemma Update_item fuel gt m m' (p : nat) e :
  Update fuel gt m = Returns tt m' ->
  mAllRitems (app m) !! p = Some e ->
  (forall q e', mAllRitems (app m) !! q = Some e' -> q ≠ p -> slotOf e' ≠ slotOf e) ->
  exists j : nat,
    mCurrFrameResource (app m') = Some j /\
    Z.of_nat j = nextFrameResourceIndex gNumFrameResources (mCurrFrameResourceIndex (app m)) /\
    mCurrFrameResourceIndex (app m') = Z.of_nat j /\
    (j < length (mFrameResources (app m)))%nat /\
    length (mFrameResources (app m')) = length (mFrameResources (app m)) /\
    mAllRitems (app m') = map tickItem (mAllRitems (app m)) /\
    materialsAgree (mMaterials (app m)) (mMaterials (app m')) /\
    (forall k, k ≠ j -> ObjectCB_at (app m') k (slotOf e) = ObjectCB_at (app m) k (slotOf e)) /\
    (RenderItem.NumFramesDirty e > 0 ->
       exists oc, objectConstantsOf (mMaterials (app m)) e = Some oc /\
                  ObjectCB_at (app m') j (slotOf e) = Some oc) /\
    (¬ RenderItem.NumFramesDirty e > 0 ->
       ObjectCB_at (app m') j (slotOf e) = ObjectCB_at (app m) j (slotOf e)).
Proof.
  intros H Hp Huniq.
  apply Update_effect in H
    as (fr & fr' & Hi & Hidx & Hcur & Hfr & Hfrs & _ & Hitems & Hloop & Hloop2 & _).
  set (i := nextFrameResourceIndex gNumFrameResources (mCurrFrameResourceIndex (app m))) in *.
  exists (Z.to_nat i). rewrite Z2Nat.id by done.
  assert (Hlt : (Z.to_nat i < length (mFrameResources (app m)))%nat) by (by eapply lookup_lt_Some).
  split_and!; try done.
  - by rewrite Hfrs, length_insert.
  - apply UpdateMaterialBuffer_loop_agree in Hloop2. done.
  - intros k Hk. by eapply ObjectCB_at_insert_ne.
  - intros Hd.
    destruct (UpdateObjectCBs_loop_writes _ _ _ _ p e Hloop Hp Hd) as (oc & Hoc & Hs & Hw).
    { intros q e' Hq He' _. apply (Huniq q e' He'). lia. }
    exists oc. split; [done|].
    destruct (ObjectCB_at_insert_eq _ _ _ _ _ (slotOf e) Hfrs Hfr Hs) as [-> _].
    simpl in Hw. by rewrite Hw.
  - intros Hd. unfold ObjectCB_at. rewrite Hfrs, Hfr.
    rewrite list_lookup_insert_eq by done. simpl. case_decide; [|done]. f_equal.
    apply (UpdateObjectCBs_loop_frame _ _ _ _ (Z.to_nat (slotOf e)) Hloop).
    intros e' He' Hd'. rewrite Z2Nat.id by done.
    apply list_elem_of_lookup in He' as [q Hq].
    destruct (decide (q = p)) as [->|Hne]; [congruence|]. by apply (Huniq q e').
Qed.

(** [Draw] leaves the render items, the materials and the constant buffers
    alone. *)
Lemma Draw_scene gt m m' :
  Draw gt m = Returns tt m' ->
  mAllRitems (app m') = mAllRitems (app m) /\
  mMaterials (app m') = mMaterials (app m) /\
  mCurrFrameResourceIndex (app m') = mCurrFrameResourceIndex (app m) /\
  mCurrFrameResource (app m') = mCurrFrameResource (app m) /\
  length (mFrameResources (app m')) = length (mFrameResources (app m)) /\
  forall k slot, ObjectCB_at (app m') k slot = ObjectCB_at (app m) k slot.
Proof.
  intros H. apply Draw_effect in H as (j & fr & draws & w1 & Hj & Hfr & _ & E & _).
  rewrite E. simpl. split_and!; try done.
  - by rewrite length_insert.
  - intros k slot. unfold ObjectCB_at. simpl.
    destruct (decide (k = j)) as [->|Hne].
    + rewrite list_lookup_insert_eq by (by eapply lookup_lt_Some). by rewrite Hfr.
    + by rewrite list_lookup_insert_ne.
Qed.

Lemma nextFrameResourceIndex_nat (j : nat) i :
  Z.of_nat j = nextFrameResourceIndex gNumFrameResources i -> (j < 3)%nat.
Proof.
  unfold nextFrameResourceIndex, gNumFrameResources. intros Hj.
  pose proof (Z.rem_bound_abs (i + 1) 3 ltac:(lia)). lia.
Qed.

Lemma nextFrameResourceIndex_succ (j j' : nat) :
  (j < 3)%nat ->
  Z.of_nat j' = nextFrameResourceIndex gNumFrameResources (Z.of_nat j) ->
  (j = 0 /\ j' = 1)%nat \/ (j = 1 /\ j' = 2)%nat \/ (j = 2 /\ j' = 0)%nat.
Proof.
  intros Hj. unfold nextFrameResourceIndex, gNumFrameResources.
  assert (j = 0 \/ j = 1 \/ j = 2)%nat as [-> | [-> | ->]] by lia;
    intros H; set (r := Z.rem _ _) in H; vm_compute in r; subst r; lia.
Qed.

(** C2: an item whose dirty count has been set to [gNumFrameResources] = 3 is
    copied, with its transposed transforms and the index of its material, into
    the per-object buffer of the current frame resource in each of the next
    three updates, and its dirty count goes 3, 2, 1, 0: after the first update
    only the first slot holds the new constants, after the second the first
    two, after the third all three, and the count is 0 only then.  The
    element of the item must not be shared with another item. *)
Theorem C2_dirty_count_propagation
    fuel0 gt0 fuel1 gt1 fuel2 gt2 (m0 m1 m1' m2 m2' m3 : Machine)
    (p : nat) (e : RenderItem.t) :
  mAllRitems (app m0) !! p = Some e ->
  RenderItem.NumFramesDirty e = gNumFrameResources ->
  (forall q e', mAllRitems (app m0) !! q = Some e' -> q ≠ p -> slotOf e' ≠ slotOf e) ->
  length (mFrameResources (app m0)) = Z.to_nat gNumFrameResources ->
  Update fuel0 gt0 m0 = Returns tt m1 -> Draw gt0 m1 = Returns tt m1' ->
  Update fuel1 gt1 m1' = Returns tt m2 -> Draw gt1 m2 = Returns tt m2' ->
  Update fuel2 gt2 m2' = Returns tt m3 ->
  exists (payload : ObjectConstants) (j0 j1 j2 : nat),
    objectConstantsOf (mMaterials (app m0)) e = Some payload /\
    oc_World payload = XM.XMMatrixTranspose (RenderItem.World e) /\
    oc_TexTransform payload = XM.XMMatrixTranspose (RenderItem.TexTransform e) /\
    mCurrFrameResource (app m1) = Some j0 /\
    mCurrFrameResource (app m2) = Some j1 /\
    mCurrFrameResource (app m3) = Some j2 /\
    j0 ≠ j1 /\ j1 ≠ j2 /\ j0 ≠ j2 /\
    (* update 0 *)
    ObjectCB_at (app m1) j0 (slotOf e) = Some payload /\
    ObjectCB_at (app m1) j1 (slotOf e) = ObjectCB_at (app m0) j1 (slotOf e) /\
    ObjectCB_at (app m1) j2 (slotOf e) = ObjectCB_at (app m0) j2 (slotOf e) /\
    dirtyCount (app m1) p = Some 2 /\
    (* update 1 *)
    ObjectCB_at (app m2) j0 (slotOf e) = Some payload /\
    ObjectCB_at (app m2) j1 (slotOf e) = Some payload /\
    ObjectCB_at (app m2) j2 (slotOf e) = ObjectCB_at (app m0) j2 (slotOf e) /\
    dirtyCount (app m2) p = Some 1 /\
    (* update 2 *)
    (forall j, (j < length (mFrameResources (app m3)))%nat ->
               ObjectCB_at (app m3) j (slotOf e) = Some payload) /\
    dirtyCount (app m3) p = Some 0.
Proof.
  intros Hp Hd Huniq Hlen U0 D0 U1 D1 U2.
  unfold gNumFrameResources in Hd, Hlen.
  assert (Hd1 : RenderItem.NumFramesDirty (tickItem e) = 2)
    by (rewrite tickItem_dirty; lia).
  assert (Hd2 : RenderItem.NumFramesDirty (tickItem (tickItem e)) = 1)
    by (rewrite tickItem_dirty; lia).
  assert (Hd3 : RenderItem.NumFramesDirty (tickItem (tickItem (tickItem e))) = 0)
    by (rewrite tickItem_dirty; lia).
  (* update 0 *)
  destruct (Update_item _ _ _ _ p e U0 Hp Huniq)
    as (j0 & C0 & N0 & I0 & L0 & Len0 & It0 & Ag0 & Oth0 & Wr0 & _).
  destruct Wr0 as (payload & Hpay & W0); [lia|].
  destruct (Draw_scene _ _ _ D0) as (DIt0 & DM0 & DI0 & _ & DLen0 & DO0).
  (* update 1 *)
  assert (Hp1 : mAllRitems (app m1') !! p = Some (tickItem e))
    by (by rewrite DIt0, It0, list_lookup_fmap, Hp).
  assert (Huniq1 : forall q e', mAllRitems (app m1') !! q = Some e' -> q ≠ p ->
                                slotOf e' ≠ slotOf (tickItem e)).
  { intros q e'. rewrite DIt0, It0, list_lookup_fmap.
    destruct (mAllRitems (app m0) !! q) as [e0|] eqn:Hq; [|done].
    intros [= <-] Hne. rewrite !tickItem_slotOf. by apply (Huniq q). }
  destruct (Update_item _ _ _ _ p (tickItem e) U1 Hp1 Huniq1)
    as (j1 & C1 & N1 & I1 & L1 & Len1 & It1 & Ag1 & Oth1 & Wr1 & _).
  rewrite tickItem_slotOf in Oth1, Wr1.
  destruct Wr1 as (payload1 & Hpay1 & W1); [lia|].
  assert (payload1 = payload) as ->.
  { rewrite DM0 in Hpay1.
    rewrite (objectConstantsOf_agree _ _ e (tickItem e) Ag0 (tickItem_static e)) in Hpay1.
    congruence. }
  destruct (Draw_scene _ _ _ D1) as (DIt1 & DM1 & DI1 & _ & DLen1 & DO1).
  (* update 2 *)
  assert (Hp2 : mAllRitems (app m2') !! p = Some (tickItem (tickItem e)))
    by (by rewrite DIt1, It1, list_lookup_fmap, Hp1).
  assert (Huniq2 : forall q e', mAllRitems (app m2') !! q = Some e' -> q ≠ p ->
                                slotOf e' ≠ slotOf (tickItem (tickItem e))).
  { intros q e'. rewrite DIt1, It1, list_lookup_fmap.
    destruct (mAllRitems (app m1') !! q) as [e0|] eqn:Hq; [|done].
    intros [= <-] Hne. rewrite (tickItem_slotOf e0), (tickItem_slotOf (tickItem e)).
    by apply (Huniq1 q). }
  destruct (Update_item _ _ _ _ p (tickItem (tickItem e)) U2 Hp2 Huniq2)
    as (j2 & C2 & N2 & I2 & L2 & Len2 & It2 & Ag2 & Oth2 & Wr2 & _).
  rewrite !tickItem_slotOf in Oth2, Wr2.
  destruct Wr2 as (payload2 & Hpay2 & W2); [lia|].
  assert (payload2 = payload) as ->.
  { rewrite DM1 in Hpay2.
    rewrite (objectConstantsOf_agree _ _ (tickItem e) (tickItem (tickItem e)) Ag1
               (tickItem_static (tickItem e))) in Hpay2.
    rewrite DM0 in Hpay2.
    rewrite (objectConstantsOf_agree _ _ e (tickItem e) Ag0 (tickItem_static e)) in Hpay2.
    congruence. }
  (* the three slots *)
  pose proof (nextFrameResourceIndex_nat _ _ N0) as B0.
  rewrite DI0, I0 in N1. pose proof (nextFrameResourceIndex_succ _ _ B0 N1) as S1.
  assert (B1 : (j1 < 3)%nat) by lia.
  rewrite DI1, I1 in N2. pose proof (nextFrameResourceIndex_succ _ _ B1 N2) as S2.
  assert (Hne01 : j0 ≠ j1) by lia. assert (Hne12 : j1 ≠ j2) by lia.
  assert (Hne02 : j0 ≠ j2) by lia.
  exists payload, j0, j1, j2.
  assert (Hw : oc_World payload = XM.XMMatrixTranspose (RenderItem.World e) /\
               oc_TexTransform payload = XM.XMMatrixTranspose (RenderItem.TexTransform e)).
  { unfold objectConstantsOf in Hpay. simplify_option_eq. done. }
  destruct Hw as [Hw1 Hw2].
  split_and!; try done.
  - apply Oth0. done.
  - apply Oth0. done.
  - unfold dirtyCount. rewrite It0, list_lookup_fmap, Hp. simpl. by rewrite Hd1.
  - rewrite Oth1 by done. by rewrite DO0.
  - rewrite Oth1 by done. rewrite DO0. by apply Oth0.
  - unfold dirtyCount. rewrite It1, list_lookup_fmap, Hp1. simpl. by rewrite Hd2.
  - intros j Hjlt. rewrite Len2, DLen1, Len1, DLen0, Len0, Hlen in Hjlt.
    assert (j = j0 \/ j = j1 \/ j = j2) as [-> | [-> | ->]] by lia.
    + rewrite Oth2 by done. rewrite DO1. rewrite Oth1 by done. by rewrite DO0.
    + rewrite Oth2 by done. by rewrite DO1.
    + done.
  - unfold dirtyCount. rewrite It2, list_lookup_fmap, Hp2. simpl. by rewrite Hd3.
Qed.

(** ** The wait before a frame resource is reused *)

Lemma newEvents_app w w' evs : trace w' = trace w ++ evs -> newEvents w w' = evs.
Proof. intros E. unfold newEvents. rewrite E. apply drop_app_length. Qed.

Lemma newEvents_same w w' : trace w' = trace w -> newEvents w w' = [].
Proof. intros E. apply newEvents_app. by rewrite E, app_nil_r. Qed.

Lemma trace_armed v w :
  trace (log (EvWait v INFINITE) (afterCall "mFence->SetEventOnCompletion" (tick w)))
  = trace w ++ [EvApi "mFence->SetEventOnCompletion" (hresults w (calls w)); EvWait v INFINITE].
Proof. simpl. by rewrite <- app_assoc. Qed.

(** Every way the wait of [Update] can end, for the slot [fr] it is about to
    populate. *)
Lemma waitForFrameResource_cases fuel m fr :
  currFrameResource (app m) = Some fr ->
  let w := world m in
  let armed := log (EvWait (Fence fr) INFINITE)
                   (afterCall "mFence->SetEventOnCompletion" (tick w)) in
  (* the slot is free: no wait *)
  ((Fence fr = 0 \/ Fence fr <= fenceTimeline w (clock w)) /\
   exists w', waitForFrameResource fuel m = Returns tt (mkMachine (app m) w') /\
              trace w' = trace w /\ (clock w <= clock w')%nat /\
              (Fence fr = 0 \/ clock w' = S (clock w))) \/
  (* the slot is busy and arming the event fails *)
  (Fence fr ≠ 0 /\ fenceTimeline w (clock w) < Fence fr /\
   FAILED (hresults w (calls w)) = true /\
   waitForFrameResource fuel m =
     Throws (mkDxException (hresults w (calls w))
               "mFence->SetEventOnCompletion(mCurrFrameResource->Fence, eventHandle)" 218)
            (mkMachine (app m) (afterCall "mFence->SetEventOnCompletion" (tick w)))) \/
  (* the slot is busy and the thread sleeps until the fence arrives *)
  (Fence fr ≠ 0 /\ fenceTimeline w (clock w) < Fence fr /\
   FAILED (hresults w (calls w)) = false /\
   exists w' t,
     sleep fuel (Fence fr) armed = inl w' /\
     waitForFrameResource fuel m = Returns tt (mkMachine (app m) w') /\
     trace w' = trace armed /\ clock w' = S t /\
     (clock w < t <= clock w + 1 + fuel)%nat /\ Fence fr <= fenceTimeline w t) \/
  (* the slot is busy and the fence has not arrived *)
  (Fence fr ≠ 0 /\ fenceTimeline w (clock w) < Fence fr /\
   FAILED (hresults w (calls w)) = false /\
   exists w',
     sleep fuel (Fence fr) armed = inr w' /\
     waitForFrameResource fuel m = Blocked (mkMachine (app m) w') /\
     trace w' = trace armed /\
     forall t, (clock w < t <= clock w + 1 + fuel)%nat -> fenceTimeline w t < Fence fr).
Proof.
  intros Hfr w armed. rewrite (waitForFrameResource_eq _ _ _ Hfr). cbv zeta. fold w.
  destruct (decide (Fence fr = 0)) as [H0|H0].
  { left. split; [by left|]. exists w. destruct m. simpl. split_and!; auto. }
  destruct (decide (fenceTimeline w (clock w) < Fence fr)) as [Hb|Hb].
  2:{ left. split; [right; lia|]. exists (tick w). simpl. split_and!; auto. }
  right. destruct (FAILED (hresults w (calls w))) eqn:Hf.
  { left. done. }
  right. fold armed. destruct (sleep fuel (Fence fr) armed) as [w'|w'] eqn:Hs.
  - left. split_and!; try done.
    destruct (sleep_env _ _ _ _ (or_introl Hs)) as (_ & _ & _ & Ht & _).
    destruct (sleep_inl _ _ _ _ Hs) as (t & Hrange & Hv & Hc & _).
    exists w', t. simpl in Hrange, Hv. split_and!; try done; lia.
  - right. split_and!; try done.
    destruct (sleep_env _ _ _ _ (or_intror Hs)) as (_ & _ & _ & Ht & _).
    exists w'. split_and!; try done.
    intros t Ht'. apply (sleep_inr _ _ _ _ Hs t). simpl. lia.
Qed.

(** The rest of [Update] leaves the world alone. *)
Lemma Update_after_wait fuel gt m a1 :
  cycleFrameResource (afterInput gt (app m)) = Some a1 ->
  (forall m', Update fuel gt m = Returns tt m' ->
     waitForFrameResource fuel (mkMachine a1 (world m)) = Returns tt (mkMachine a1 (world m'))) /\
  (forall e m', Update fuel gt m = Throws e m' ->
     waitForFrameResource fuel (mkMachine a1 (world m)) = Throws e m') /\
  (forall m', Update fuel gt m = Blocked m' ->
     waitForFrameResource fuel (mkMachine a1 (world m)) = Blocked m') /\
  (forall e m', waitForFrameResource fuel (mkMachine a1 (world m)) = Throws e m' ->
     Update fuel gt m = Throws e m') /\
  (forall m', waitForFrameResource fuel (mkMachine a1 (world m)) = Blocked m' ->
     Update fuel gt m = Blocked m').
Proof.
  intros Hc. split_and!.
  - intros m' H. apply Update_Returns in H as (a1' & ? & ? & w1 & Hc' & Hw & _ & _ & _ & <-).
    congruence.
  - intros e m' H. apply Update_Throws in H as (a1' & Hc' & Hw). congruence.
  - intros m' H. apply Update_Blocked in H as (a1' & Hc' & Hw). congruence.
  - intros e m' H. rewrite Update_eq, Hc. unfold mbind, M_bind. by rewrite H.
  - intros m' H. rewrite Update_eq, Hc. unfold mbind, M_bind. by rewrite H.
Qed.

Lemma readUB_not_Blocked {A} (f : i4CastleApp -> option A) m m' : readUB f m ≠ Blocked m'.
Proof. unfold readUB. by destruct (f (app m)). Qed.

(** [Draw] never waits. *)
Lemma Draw_not_Blocked gt m m' : Draw gt m ≠ Blocked m'.
Proof.
  unfold Draw. intros H.
  apply bind_Blocked in H as [H|(? & ? & _ & H)]; [by apply readUB_not_Blocked in H|].
  apply bind_Blocked in H as [H|(? & ? & _ & H)]; [by apply checked_not_Blocked in H|].
  apply bind_Blocked in H as [H|(? & ? & _ & H)]; [by apply checked_not_Blocked in H|].
  apply bind_Blocked in H as [H|(? & ? & _ & H)]; [by apply readUB_not_Blocked in H|].
  apply bind_Blocked in H as [H|(? & ? & _ & H)]; [by apply checked_not_Blocked in H|].
  apply bind_Blocked in H as [H|(? & ? & _ & H)]; [done|].
  apply bind_Blocked in H as [H|(? & ? & _ & H)]; [by apply checked_not_Blocked in H|].
  apply bind_Blocked in H as [H|(? & ? & _ & H)]; [by apply liftUB_not_Blocked in H|].
  apply bind_Blocked in H as [H|(? & ? & _ & H)]; [by apply liftUB_not_Blocked in H|].
  done.
Qed.

(** C1: at the start of every update the ring advances to a slot [fr]; when the
    fence value recorded in that slot is nonzero and the value the GPU has
    completed is below it, the thread waits, with the time-out [INFINITE], until
    the fence is seen at that value, and only then are the buffers of the slot
    written.  That wait is the only one in [Update], and [Draw] has none; while the fence stays
    below the value the update is blocked, however long it is followed, and
    the slot is untouched; and an update that returns has seen the fence at or
    above the recorded value (or the slot was never submitted). *)
Theorem C1_update_waits_for_fence
    (fuel : nat) (gt : GameTimer) (m : Machine) (a1 : i4CastleApp) (fr : FrameResource) :
  cycleFrameResource (afterInput gt (app m)) = Some a1 ->
  currFrameResource a1 = Some fr ->
  let w := world m in
  let busy := Fence fr ≠ 0 /\ fenceTimeline w (clock w) < Fence fr in
  (* an update that returns waited if and only if the slot was busy, with no
     time-out, and has seen the fence at the recorded value *)
  (forall m', Update fuel gt m = Returns tt m' ->
     (Fence fr = 0 \/
      exists t, (clock w <= t < clock (world m'))%nat /\ Fence fr <= fenceTimeline w t) /\
     filter (fun ev => isWait ev = true) (newEvents w (world m'))
       = (if decide busy then [EvWait (Fence fr) INFINITE] else [])) /\
  (* a blocked update is blocked in that wait, before any buffer is written *)
  (forall m', Update fuel gt m = Blocked m' ->
     busy /\ app m' = a1 /\ mFrameResources a1 = mFrameResources (app m) /\
     newEvents w (world m')
       = [EvApi "mFence->SetEventOnCompletion" (hresults w (calls w));
          EvWait (Fence fr) INFINITE] /\
     forall t, (clock w < t <= clock w + 1 + fuel)%nat -> fenceTimeline w t < Fence fr) /\
  (* when the event cannot be armed the update throws, before any buffer is
     written *)
  (forall e m', Update fuel gt m = Throws e m' ->
     busy /\ app m' = a1 /\ mFrameResources a1 = mFrameResources (app m) /\
     FAILED (ErrorCode e) = true) /\
  (* the wait is unbounded: while the fence is below the value, the update is
     blocked, for every amount of time it is followed *)
  (busy -> FAILED (hresults w (calls w)) = false ->
   (forall t, (clock w < t)%nat -> fenceTimeline w t < Fence fr) ->
   forall fuel', exists m', Update fuel' gt m = Blocked m' /\ app m' = a1) /\
  (* when the fence arrives the thread is released *)
  ((exists t, (clock w < t <= clock w + 1 + fuel)%nat /\ Fence fr <= fenceTimeline w t) ->
   forall m', Update fuel gt m ≠ Blocked m') /\
  (* a slot that is not busy is used at once *)
  (¬ busy -> forall m', Update fuel gt m ≠ Blocked m') /\
  (* and drawing never waits *)
  (forall gt' m0 m', Draw gt' m0 ≠ Blocked m').
Proof.
  intros Hc Hfr w busy.
  assert (Hframes : mFrameResources a1 = mFrameResources (app m)).
  { apply cycleFrameResource_Some in Hc as [_ ->]. done. }
  assert (Hcases := fun f => waitForFrameResource_cases f (mkMachine a1 w) fr Hfr).
  destruct (Update_after_wait fuel gt m a1 Hc) as (UR & UT & UB & WT & WB).
  simpl in Hcases. fold w in Hcases.
  split_and!.
  - intros m' H. apply UR in H. fold w in H.
    destruct (Hcases fuel) as [(Hfree & w' & Hw & Htr & Hclk & Hclk')
      |[(H0 & Hb & Hf & Hw)|[(H0 & Hb & Hf & w' & t & Hs & Hw & Htr & Hclk & Ht & Hv)
      |(H0 & Hb & Hf & w' & Hs & Hw & _)]]]; rewrite Hw in H; try discriminate.
    + injection H as <-. split.
      * destruct Hclk' as [?|Hclk']; [by left|]. destruct Hfree as [?|?]; [by left|].
        right. exists (clock w). split; [lia|done].
      * rewrite (newEvents_same _ _ Htr). simpl. rewrite decide_False; [done|].
        unfold busy. lia.
    + injection H as <-. split.
      * right. exists t. split; [lia|done].
      * rewrite (newEvents_app _ _ _ (eq_trans Htr (trace_armed _ _))).
        rewrite decide_True by done. reflexivity.
  - intros m' H. apply UB in H. fold w in H.
    destruct (Hcases fuel) as [(Hfree & w' & Hw & _)
      |[(H0 & Hb & Hf & Hw)|[(H0 & Hb & Hf & w' & t & Hs & Hw & _)
      |(H0 & Hb & Hf & w' & Hs & Hw & Htr & Hbelow)]]]; rewrite Hw in H; try discriminate.
    injection H as <-. simpl. split_and!; try done.
    apply (newEvents_app _ _ _ (eq_trans Htr (trace_armed _ _))).
  - intros e m' H. apply UT in H. fold w in H.
    destruct (Hcases fuel) as [(Hfree & w' & Hw & _)
      |[(H0 & Hb & Hf & Hw)|[(H0 & Hb & Hf & w' & t & Hs & Hw & _)
      |(H0 & Hb & Hf & w' & Hs & Hw & Htr & Hbelow)]]]; rewrite Hw in H; try discriminate.
    injection H as <- <-. simpl. split_and!; done.
  - intros [H0 Hb] Hf Hnever fuel'.
    destruct (Update_after_wait fuel' gt m a1 Hc) as (_ & _ & _ & _ & WB').
    destruct (Hcases fuel') as [(Hfree & _)
      |[(_ & _ & Hf' & _)|[(_ & _ & _ & w' & t & _ & _ & _ & _ & Ht & Hv)
      |(_ & _ & _ & w' & Hs & Hw & _)]]].
    + lia.
    + congruence.
    + specialize (Hnever t). lia.
    + exists (mkMachine a1 w'). split; [|done]. by apply WB'.
  - intros (t & Ht & Hv) m' H. apply UB in H. fold w in H.
    destruct (Hcases fuel) as [(Hfree & w' & Hw & _)
      |[(H0 & Hb & Hf & Hw)|[(H0 & Hb & Hf & w' & t' & Hs & Hw & _)
      |(H0 & Hb & Hf & w' & Hs & Hw & Htr & Hbelow)]]]; rewrite Hw in H; try discriminate.
    specialize (Hbelow t Ht). lia.
  - intros Hfree m' H. apply UB in H. fold w in H.
    destruct (Hcases fuel) as [(_ & w' & Hw & _)
      |[(H0 & Hb & Hf & Hw)|[(H0 & Hb & Hf & w' & t' & Hs & Hw & _)
      |(H0 & Hb & Hf & w' & Hs & Hw & Htr & Hbelow)]]]; rewrite Hw in H; try discriminate.
    apply Hfree. done.
  - apply Draw_not_Blocked.
Qed.

(** ** The fence counter *)

Lemma Update_fences fuel gt m m' :
  Update fuel gt m = Returns tt m' ->
  exists j : nat,
    mCurrFrameResource (app m') = Some j /\
    Z.of_nat j = nextFrameResourceIndex gNumFrameResources (mCurrFrameResourceIndex (app m)) /\
    mCurrFrameResourceIndex (app m') = Z.of_nat j /\
    mCurrentFence (app m') = mCurrentFence (app m) /\
    length (mFrameResources (app m')) = length (mFrameResources (app m)) /\
    forall k, FenceAt (app m') k = FenceAt (app m) k.
Proof.
  intros H. apply Update_effect in H
    as (fr & fr' & Hi & Hidx & Hcur & Hfr & Hfrs & Hfence & _ & _ & _ & _ & Hcf & _).
  eexists. split; [exact Hcur|]. rewrite Z2Nat.id by done. split_and!; try done.
  { by rewrite Hfrs, length_insert. }
  intros k. unfold FenceAt. rewrite Hfrs.
  destruct (decide (k = Z.to_nat (nextFrameResourceIndex gNumFrameResources
                                    (mCurrFrameResourceIndex (app m))))) as [->|Hne].
  - rewrite list_lookup_insert_eq by (by eapply lookup_lt_Some). rewrite Hfr. simpl. by f_equal.
  - by rewrite list_lookup_insert_ne.
Qed.

Lemma Draw_fences gt m m' :
  Draw gt m = Returns tt m' ->
  exists (j : nat) hr,
    mCurrFrameResource (app m) = Some j /\
    mCurrFrameResource (app m') = Some j /\
    mCurrFrameResourceIndex (app m') = mCurrFrameResourceIndex (app m) /\
    mCurrentFence (app m') = Int.UINT64 (mCurrentFence (app m) + 1) /\
    FenceAt (app m') j = Some (mCurrentFence (app m')) /\
    (forall k, k ≠ j -> FenceAt (app m') k = FenceAt (app m) k) /\
    length (mFrameResources (app m')) = length (mFrameResources (app m)) /\
    last (trace (world m')) = Some (EvSignal (mCurrentFence (app m')) hr).
Proof.
  intros H. apply Draw_effect in H as (j & fr & draws & w1 & Hj & Hfr & _ & E & Ew & _).
  exists j. eexists. rewrite E, Ew. simpl. split_and!; try done.
  3: by rewrite length_insert.
  - unfold FenceAt. simpl. by rewrite list_lookup_insert_eq by (by eapply lookup_lt_Some).
  - intros k Hk. unfold FenceAt. simpl. by rewrite list_lookup_insert_ne.
  - by rewrite last_snoc.
Qed.

Lemma currFrameResource_FenceAt a (j : nat) :
  mCurrFrameResource a = Some j -> Fence <$> currFrameResource a = FenceAt a j.
Proof. intros Hj. unfold currFrameResource, FenceAt. by rewrite Hj. Qed.

(** C3: the fence counter starts at 0; every submission ([Draw]) increments it by
    exactly one (in [UINT64]; by one as an integer below [2^64 - 1]), stores
    the new value in the [Fence] field of the submitted slot and asks the queue
    to signal it, and [Update] leaves the counter and the recorded values
    alone, so the counter only grows.  Starting from 0 with three frame
    resources, frames 1, 2, 3 record 1, 2, 3; the update of frame 4 selects the
    slot of frame 1, whose recorded value is 1: it returns only once the fence
    has been seen at 1 or more, and is blocked while the fence stays below 1;
    frames 4 and 5 then record 4 and 5. *)
Theorem C3_fence_counter_and_reuse :
  mCurrentFence theApp = 0 /\
  (forall gt m m', Draw gt m = Returns tt m' ->
     mCurrentFence (app m') = Int.UINT64 (mCurrentFence (app m) + 1) /\
     (0 <= mCurrentFence (app m) < 2 ^ 64 - 1 ->
        mCurrentFence (app m') = mCurrentFence (app m) + 1) /\
     Fence <$> currFrameResource (app m') = Some (mCurrentFence (app m')) /\
     exists hr, last (trace (world m')) = Some (EvSignal (mCurrentFence (app m')) hr)) /\
  (forall fuel gt m m', Update fuel gt m = Returns tt m' ->
     mCurrentFence (app m') = mCurrentFence (app m) /\
     forall k, FenceAt (app m') k = FenceAt (app m) k) /\
  (forall fuel1 gt1 fuel2 gt2 fuel3 gt3 (m0 m1 m1' m2 m2' m3 m3' : Machine),
     mCurrentFence (app m0) = 0 ->
     length (mFrameResources (app m0)) = Z.to_nat gNumFrameResources ->
     Update fuel1 gt1 m0 = Returns tt m1 -> Draw gt1 m1 = Returns tt m1' ->
     Update fuel2 gt2 m1' = Returns tt m2 -> Draw gt2 m2 = Returns tt m2' ->
     Update fuel3 gt3 m2' = Returns tt m3 -> Draw gt3 m3 = Returns tt m3' ->
     mCurrentFence (app m1') = 1 /\ mCurrentFence (app m2') = 2 /\
     mCurrentFence (app m3') = 3 /\
     forall fuel4 gt4,
       let w := world m3' in
       exists a4 fr,
         (* frame 4 selects the slot of frame 1, which recorded 1 *)
         cycleFrameResource (afterInput gt4 (app m3')) = Some a4 /\
         currFrameResource a4 = Some fr /\
         mCurrFrameResource a4 = mCurrFrameResource (app m1) /\
         Fence fr = 1 /\
         (* it is acquired only once the fence has been seen at 1 *)
         (forall m4, Update fuel4 gt4 m3' = Returns tt m4 ->
            (exists t, (clock w <= t < clock (world m4))%nat /\ 1 <= fenceTimeline w t) /\
            (fenceTimeline w (clock w) < 1 ->
               filter (fun ev => isWait ev = true) (newEvents w (world m4))
               = [EvWait 1 INFINITE])) /\
         (* and the request blocks while the fence is below 1 *)
         (FAILED (hresults w (calls w)) = false ->
          (forall t, (clock w <= t <= clock w + 1 + fuel4)%nat -> fenceTimeline w t < 1) ->
          exists m4, Update fuel4 gt4 m3' = Blocked m4 /\
                     last (trace (world m4)) = Some (EvWait 1 INFINITE)) /\
         (* frames 4 and 5 record 4 and 5 *)
         (forall fuel5 gt5 m4 m4' m5 m5',
            Update fuel4 gt4 m3' = Returns tt m4 -> Draw gt4 m4 = Returns tt m4' ->
            Update fuel5 gt5 m4' = Returns tt m5 -> Draw gt5 m5 = Returns tt m5' ->
            mCurrentFence (app m4') = 4 /\ mCurrentFence (app m5') = 5 /\
            Fence <$> currFrameResource (app m4') = Some 4 /\
            Fence <$> currFrameResource (app m5') = Some 5)).
Proof.
  split_and!.
  - done.
  - intros gt m m' H.
    destruct (Draw_fences _ _ _ H) as (j & hr & Hj & Hj' & _ & Hv & Hat & _ & _ & Hlast).
    split_and!; try done.
    + intros Hr. rewrite Hv. apply UINT64_small. lia.
    + by rewrite (currFrameResource_FenceAt _ _ Hj').
    + by exists hr.
  - intros fuel gt m m' H.
    destruct (Update_fences _ _ _ _ H) as (j & _ & _ & _ & Hcf & _ & Hat). done.
  - intros fuel1 gt1 fuel2 gt2 fuel3 gt3 m0 m1 m1' m2 m2' m3 m3' Hzero Hlen U1 D1 U2 D2 U3 D3.
    unfold gNumFrameResources in Hlen.
    destruct (Update_fences _ _ _ _ U1) as (j1 & C1 & N1 & I1 & F1 & L1 & A1).
    destruct (Draw_fences _ _ _ D1) as (j1' & hr1 & C1' & C1'' & DI1 & V1 & At1 & O1 & DL1 & _).
    rewrite C1 in C1'. injection C1' as <-.
    destruct (Update_fences _ _ _ _ U2) as (j2 & C2 & N2 & I2 & F2 & L2 & A2).
    destruct (Draw_fences _ _ _ D2) as (j2' & hr2 & C2' & C2'' & DI2 & V2 & At2 & O2 & DL2 & _).
    rewrite C2 in C2'. injection C2' as <-.
    destruct (Update_fences _ _ _ _ U3) as (j3 & C3 & N3 & I3 & F3 & L3 & A3).
    destruct (Draw_fences _ _ _ D3) as (j3' & hr3 & C3' & C3'' & DI3 & V3 & At3 & O3 & DL3 & _).
    rewrite C3 in C3'. injection C3' as <-.
    assert (E1 : mCurrentFence (app m1') = 1) by (rewrite V1, F1, Hzero; reflexivity).
    assert (E2 : mCurrentFence (app m2') = 2) by (rewrite V2, F2, E1; reflexivity).
    assert (E3 : mCurrentFence (app m3') = 3) by (rewrite V3, F3, E2; reflexivity).
    pose proof (nextFrameResourceIndex_nat _ _ N1) as B1.
    rewrite DI1, I1 in N2. pose proof (nextFrameResourceIndex_succ _ _ B1 N2) as S2.
    assert (B2 : (j2 < 3)%nat) by lia.
    rewrite DI2, I2 in N3. pose proof (nextFrameResourceIndex_succ _ _ B2 N3) as S3.
    assert (B3 : (j3 < 3)%nat) by lia.
    assert (Hidx3 : mCurrFrameResourceIndex (app m3') = Z.of_nat j3) by (by rewrite DI3, I3).
    assert (Hnext : nextFrameResourceIndex gNumFrameResources (Z.of_nat j3) = Z.of_nat j1).
    { unfold nextFrameResourceIndex, gNumFrameResources.
      assert ((j3 = 0 /\ j1 = 1) \/ (j3 = 1 /\ j1 = 2) \/ (j3 = 2 /\ j1 = 0))%nat
        as [[-> ->] | [[-> ->] | [-> ->]]] by lia; reflexivity. }
    assert (Hlen3 : length (mFrameResources (app m3')) = 3%nat)
      by (by rewrite DL3, L3, DL2, L2, DL1, L1).
    assert (HAt : FenceAt (app m3') j1 = Some 1).
    { rewrite O3 by lia. rewrite A3. rewrite O2 by lia. rewrite A2. by rewrite At1, E1. }
    split_and!; try done.
    intros fuel4 gt4 w.
    set (a4 := set_mCurrFrameResource (Some j1)
                 (set_mCurrFrameResourceIndex (Z.of_nat j1) (afterInput gt4 (app m3')))).
    assert (Hc4 : cycleFrameResource (afterInput gt4 (app m3')) = Some a4).
    { unfold cycleFrameResource. simpl. rewrite Hidx3, Hnext.
      rewrite decide_True by lia. rewrite decide_True by lia.
      by rewrite Nat2Z.id. }
    unfold FenceAt in HAt.
    destruct (mFrameResources (app m3') !! j1) as [fr|] eqn:Hfr; [|done].
    injection HAt as HFence.
    assert (Hcur4 : currFrameResource a4 = Some fr) by done.
    exists a4, fr. split_and!; try done.
    + intros m4 U4. destruct (Update_after_wait fuel4 gt4 m3' a4 Hc4) as (UR & _).
      apply UR in U4. fold w in U4.
      destruct (waitForFrameResource_cases fuel4 (mkMachine a4 w) fr Hcur4)
        as [(Hfree & w' & Hw & Htr & Hclk & Hclk')
           |[(H0 & Hb & Hf & Hw)|[(H0 & Hb & Hf & w' & t & Hs & Hw & Htr & Hclk & Ht & Hv)
           |(H0 & Hb & Hf & w' & Hs & Hw & _)]]];
        simpl in *; rewrite Hw in U4; try discriminate; injection U4 as <-.
      * split; [|lia]. exists (clock w). split; [lia|]. lia.
      * split; [exists t; split; [lia|lia]|]. intros _.
        rewrite (newEvents_app _ _ _ (eq_trans Htr (trace_armed _ _))).
        rewrite HFence. reflexivity.
    + intros Hf Hbelow. destruct (Update_after_wait fuel4 gt4 m3' a4 Hc4) as (_ & _ & _ & _ & WB).
      destruct (waitForFrameResource_cases fuel4 (mkMachine a4 w) fr Hcur4)
        as [(Hfree & _)
           |[(_ & _ & Hf' & _)|[(_ & _ & _ & w' & t & _ & _ & _ & _ & Ht & Hv)
           |(_ & _ & _ & w' & Hs & Hw & Htr & _)]]]; simpl in *.
      * specialize (Hbelow (clock w)). lia.
      * congruence.
      * specialize (Hbelow t). lia.
      * exists (mkMachine a4 w'). split; [by apply WB|].
        simpl. rewrite Htr, last_snoc. by rewrite HFence.
    + intros fuel5 gt5 m4 m4' m5 m5' U4 D4 U5 D5.
      destruct (Update_fences _ _ _ _ U4) as (j4 & C4 & _ & _ & F4 & _ & _).
      destruct (Draw_fences _ _ _ D4) as (j4' & hr4 & _ & C4'' & _ & V4 & At4 & _).
      destruct (Update_fences _ _ _ _ U5) as (j5 & C5 & _ & _ & F5 & _ & _).
      destruct (Draw_fences _ _ _ D5) as (j5' & hr5 & _ & C5'' & _ & V5 & At5 & _).
      assert (E4 : mCurrentFence (app m4') = 4) by (rewrite V4, F4, E3; reflexivity).
      assert (E5 : mCurrentFence (app m5') = 5) by (rewrite V5, F5, E4; reflexivity).
      split_and!; try done.
      * by rewrite (currFrameResource_FenceAt _ _ C4''), At4, E4.
      * by rewrite (currFrameResource_FenceAt _ _ C5''), At5, E5.
Qed.

(** ** Packing the meshes into one buffer pair *)

Lemma lookup_concat_prefix {A} (ls : list (list A)) (k : nat) (l : list A) (i : nat) :
  ls !! k = Some l -> (i < length l)%nat ->
  concat ls !! (sum_list (take k (map length ls)) + i)%nat = l !! i.
Proof.
  revert k. induction ls as [|l0 ls IH]; intros k Hk Hi; [done|].
  destruct k as [|k]; simpl in *.
  - injection Hk as ->. by apply lookup_app_l.
  - rewrite <- Nat.add_assoc. rewrite lookup_app_r by lia.
    replace (length l0 + (sum_list (take k (map length ls)) + i) - length l0)%nat
      with (sum_list (take k (map length ls)) + i)%nat by lia.
    by apply IH.
Qed.

Lemma sum_list_take_le (ns : list nat) (k k' : nat) (n : nat) :
  (k' < k)%nat -> ns !! k' = Some n ->
  (sum_list (take k' ns) + n <= sum_list (take k ns))%nat.
Proof.
  revert k k'. induction ns as [|n0 ns IH]; intros k k' Hlt Hn; [done|].
  destruct k as [|k]; [lia|]. destruct k' as [|k']; simpl in *.
  - injection Hn as ->. lia.
  - specialize (IH k k' ltac:(lia) Hn). lia.
Qed.

Lemma sum_list_take_total (ns : list nat) (k : nat) (n : nat) :
  ns !! k = Some n -> (sum_list (take k ns) + n <= sum_list ns)%nat.
Proof.
  revert k. induction ns as [|n0 ns IH]; intros k Hn; [done|].
  destruct k as [|k]; simpl in *.
  - injection Hn as ->. lia.
  - specialize (IH k Hn). lia.
Qed.

(** The two buffers are the concatenations of the meshes, in order. *)
Lemma shapeGeo_vertices :
  MeshGeometry.VertexBufferCPU shapeGeo = concat (map (fun s => packVertices s.2) shapes).
Proof. unfold shapeGeo, shapes. simpl. by rewrite app_nil_r. Qed.

Lemma shapeGeo_indices :
  MeshGeometry.IndexBufferCPU shapeGeo
  = concat (map (fun s => GeometryGenerator.GetIndices16 s.2) shapes).
Proof. unfold shapeGeo, shapes. simpl. by rewrite app_nil_r. Qed.

Ltac small_UINT :=
  unfold nVertices, nIndices, Int.size;
  repeat match goal with
  | |- context [Int.UINT ?x] => rewrite (UINT_small x) by lia
  end;
  repeat match goal with
  | |- context [Int.INT ?x] => rewrite (INT_small x) by lia
  end.

(** The draw arguments recorded for the [k]-th mesh are the counts of what
    precedes it, as long as the totals fit the integer types. *)
Lemma shapeGeo_layout (k : nat) name mesh :
  Z.of_nat (verticesBefore (length shapes)) < 2 ^ 31 ->
  Z.of_nat (indicesBefore (length shapes)) < 2 ^ 32 ->
  shapes !! k = Some (name, mesh) ->
  MeshGeometry.DrawArgs shapeGeo !! name
  = Some (SubmeshGeometry.mk (Z.of_nat (length (GeometryGenerator.Indices32 mesh)))
                             (Z.of_nat (indicesBefore k))
                             (Z.of_nat (verticesBefore k))).
Proof.
  intros Hv Hi Hk.
  unfold verticesBefore, indicesBefore, shapes in Hv, Hi. simpl in Hv, Hi.
  do 14 (destruct k as [|k]; [injection Hk as <- <-;
    unfold shapeGeo, verticesBefore, indicesBefore, shapes;
    cbn [MeshGeometry.DrawArgs map take sum_list snd length];
    rewrite ?lookup_insert_ne by done; rewrite lookup_insert_eq;
    f_equal; small_UINT; unfold id; f_equal; lia|]).
  done.
Qed.

Lemma list_lookup_map {A B} (f : A -> B) (l : list A) (i : nat) :
  map f l !! i = f <$> l !! i.
Proof. revert i. induction l as [|x l IH]; intros [|i]; simpl; auto. Qed.

Lemma shapes_vertex_lengths :
  map length (map (fun s : string * GeometryGenerator.MeshData => packVertices s.2) shapes)
  = map (fun s => length (GeometryGenerator.Vertices s.2)) shapes.
Proof.
  rewrite map_map. apply map_ext. intros s. unfold packVertices. by rewrite length_map.
Qed.

Lemma shapes_index_lengths :
  map length (map (fun s : string * GeometryGenerator.MeshData =>
                     GeometryGenerator.GetIndices16 s.2) shapes)
  = map (fun s => length (GeometryGenerator.Indices32 s.2)) shapes.
Proof.
  rewrite map_map. apply map_ext. intros s. unfold GeometryGenerator.GetIndices16.
  by rewrite length_map.
Qed.

(** C5: the meshes are concatenated in order into one vertex array and one
    index array; the base-vertex offset recorded for a mesh is the number of
    vertices of the meshes before it, its start-index offset the number of
    their indices, its index count its own; hence every index stored for mesh
    [k], added to the base-vertex offset of mesh [k], addresses a vertex that
    came from mesh [k], at a position in the range of mesh [k] and of no other
    mesh.  The meshes must be well formed (every index below the number of
    vertices of its mesh) and the totals must fit [INT] and [UINT]. *)
Theorem C5_geometry_packing_no_aliasing :
  Z.of_nat (verticesBefore (length shapes)) < 2 ^ 31 ->
  Z.of_nat (indicesBefore (length shapes)) < 2 ^ 32 ->
  (forall name mesh idx,
     (name, mesh) ∈ shapes -> idx ∈ GeometryGenerator.Indices32 mesh ->
     0 <= idx < Z.of_nat (length (GeometryGenerator.Vertices mesh))) ->
  MeshGeometry.VertexBufferCPU shapeGeo = concat (map (fun s => packVertices s.2) shapes) /\
  MeshGeometry.IndexBufferCPU shapeGeo
    = concat (map (fun s => GeometryGenerator.GetIndices16 s.2) shapes) /\
  forall (k : nat) name mesh,
    shapes !! k = Some (name, mesh) ->
    exists sm,
      MeshGeometry.DrawArgs shapeGeo !! name = Some sm /\
      SubmeshGeometry.BaseVertexLocation sm = Z.of_nat (verticesBefore k) /\
      SubmeshGeometry.StartIndexLocation sm = Z.of_nat (indicesBefore k) /\
      SubmeshGeometry.IndexCount sm = Z.of_nat (length (GeometryGenerator.Indices32 mesh)) /\
      forall (i : nat) idx,
        GeometryGenerator.Indices32 mesh !! i = Some idx ->
        let u := Int.uint16 idx in
        (* the index stored at position i of the sub-range of the mesh *)
        MeshGeometry.IndexBufferCPU shapeGeo
          !! (Z.to_nat (SubmeshGeometry.StartIndexLocation sm) + i)%nat = Some u /\
        (idx < 2 ^ 16 -> u = idx) /\
        0 <= u < Z.of_nat (length (GeometryGenerator.Vertices mesh)) /\
        (* base + index addresses a vertex of this mesh *)
        (exists v,
           GeometryGenerator.Vertices mesh !! Z.to_nat u = Some v /\
           MeshGeometry.VertexBufferCPU shapeGeo
             !! Z.to_nat (SubmeshGeometry.BaseVertexLocation sm + u) = Some (packVertex v)) /\
        (* and lies in the range of no other mesh *)
        (forall (k' : nat) name' mesh',
           shapes !! k' = Some (name', mesh') -> k' ≠ k ->
           ¬ (Z.of_nat (verticesBefore k') <= SubmeshGeometry.BaseVertexLocation sm + u
              < Z.of_nat (verticesBefore k')
                + Z.of_nat (length (GeometryGenerator.Vertices mesh')))).
Proof.
  intros Hv Hi Hwf. split; [apply shapeGeo_vertices|]. split; [apply shapeGeo_indices|].
  intros k name mesh Hk. eexists. split; [by apply shapeGeo_layout|].
  cbn [SubmeshGeometry.BaseVertexLocation SubmeshGeometry.StartIndexLocation
       SubmeshGeometry.IndexCount].
  split_and!; try done.
  intros i idx Hidx. set (u := Int.uint16 idx).
  assert (Hin : (name, mesh) ∈ shapes) by (by eapply list_elem_of_lookup_2).
  assert (Hidx_in : idx ∈ GeometryGenerator.Indices32 mesh) by (by eapply list_elem_of_lookup_2).
  pose proof (Hwf name mesh idx Hin Hidx_in) as Hrange.
  assert (Hu : 0 <= u <= idx).
  { unfold u, Int.uint16. split; [apply Z.mod_pos_bound; lia|apply Z.mod_le; lia]. }
  assert (Hlen : shapes.*2 !! k = Some mesh) by (by rewrite list_lookup_map, Hk).
  split_and!.
  - rewrite shapeGeo_indices, Nat2Z.id. unfold indicesBefore.
    rewrite <- shapes_index_lengths.
    rewrite (lookup_concat_prefix _ k (GeometryGenerator.GetIndices16 mesh)).
    + unfold GeometryGenerator.GetIndices16. rewrite list_lookup_map.
      rewrite Hidx. done.
    + by rewrite list_lookup_map, Hk.
    + simpl. unfold GeometryGenerator.GetIndices16. rewrite length_map.
      by eapply lookup_lt_Some.
  - intros Hsmall. apply uint16_small. lia.
  - lia.
  - lia.
  - assert (is_Some (GeometryGenerator.Vertices mesh !! Z.to_nat u)) as [v Hvtx]
      by (apply lookup_lt_is_Some_2; lia).
    exists v. split; [done|].
    rewrite shapeGeo_vertices. rewrite Z2Nat.inj_add, Nat2Z.id by lia. unfold verticesBefore.
    rewrite <- shapes_vertex_lengths.
    rewrite (lookup_concat_prefix _ k (packVertices mesh)).
    + unfold packVertices. rewrite list_lookup_map.
      rewrite Hvtx. done.
    + by rewrite list_lookup_map, Hk.
    + simpl. unfold packVertices. rewrite length_map. lia.
  - intros k' name' mesh' Hk' Hne.
    assert (Hn' : map (fun s => length (GeometryGenerator.Vertices s.2)) shapes !! k'
                  = Some (length (GeometryGenerator.Vertices mesh')))
      by (by rewrite list_lookup_map, Hk').
    assert (Hn : map (fun s => length (GeometryGenerator.Vertices s.2)) shapes !! k
                 = Some (length (GeometryGenerator.Vertices mesh)))
      by (by rewrite list_lookup_map, Hk).
    unfold verticesBefore.
    destruct (decide (k' < k)%nat).
    + pose proof (sum_list_take_le _ k k' _ ltac:(lia) Hn'). lia.
    + pose proof (sum_list_take_le _ k' k _ ltac:(lia) Hn). lia.
Qed.

(** ** Failures of API calls *)

Lemma readUB_not_Throws {A} (f : i4CastleApp -> option A) m e m' :
  readUB f m ≠ Throws e m'.
Proof. unfold readUB. by destruct (f _). Qed.

Lemma checked_thrownAtFailure name x line m e m' :
  checked name x line m = Throws e m' -> thrownAtFailure e m'.
Proof.
  intros (Hf & -> & ->)%checked_Throws. split; [done|].
  unfold afterCall, log. simpl. rewrite last_snoc. eauto.
Qed.






(** ** The scene that [Initialize] builds *)

(** The geometry generator is not run: the meshes stay symbolic, and so do
    the offsets computed from their sizes. *)
Ltac abstract_geometry :=
  cbv beta zeta delta [buildScene shapeGeo];
  repeat match goal with
  | |- context [SubmeshGeometry.mk ?a ?b ?c] =>
      let x := fresh "submesh" in generalize (SubmeshGeometry.mk a b c); intro x
  end;
  match goal with
  | |- context [MeshGeometry.mk ?n ?v ?i ?s ?vb ?ib ?d] =>
      let vs := fresh "vertices" in let is_ := fresh "indices" in
      let vbs := fresh "vb" in let ibs := fresh "ib" in
      generalize v; intro vs; generalize i; intro is_;
      generalize vb; intro vbs; generalize ib; intro ibs
  end.

Ltac scene_compute := abstract_geometry; vm_compute; reflexivity.

Lemma scene_ObjCBIndex :
  (fun s => map RenderItem.ObjCBIndex (mAllRitems s)) <$> buildScene theApp
  = Some (seqZ 0 50).
Proof. scene_compute. Qed.

Lemma scene_mOpaqueRitems :
  mOpaqueRitems <$> buildScene theApp = Some (seq 0 50).
Proof. scene_compute. Qed.

Lemma scene_capacities :
  (fun s => map (fun fr => (length (ObjectCB fr), length (MaterialBuffer fr)))
                (mFrameResources s)) <$> buildScene theApp
  = Some [(50, 4); (50, 4); (50, 4)]%nat.
Proof. scene_compute. Qed.

Lemma scene_drawable :
  (fun s => forallb (drawable s) (seq 0 50)) <$> buildScene theApp = Some true.
Proof. scene_compute. Qed.

Lemma scene_materials :
  (fun s => (size (mMaterials s),
             map (fun k => match mMaterials s !! k with
                           | Some (Some mat) => Some (Material.MatCBIndex mat)
                           | _ => None
                           end)
                 ["bricks0"; "stone0"; "tile0"; "crate0"; "diaMat"]))
    <$> buildScene theApp
  = Some (4%nat, [Some 0; Some 1; Some 2; Some 3; None]).
Proof. scene_compute. Qed.

Lemma scene_item_materials :
  (fun s => forallb (fun e => bool_decide (RenderItem.Mat e ∈
                       [Some "bricks0"; Some "stone0"; Some "tile0"; Some "crate0"]))
                    (mAllRitems s)) <$> buildScene theApp
  = Some true.
Proof. scene_compute. Qed.

Lemma scene_cylinders :
  (fun s => map (fun i => match cylinderPair s i with
                          | Some (l, r) => Some (RenderItem.ObjCBIndex l, RenderItem.World l,
                                                 RenderItem.ObjCBIndex r, RenderItem.World r)
                          | None => None
                          end) [0; 1]%nat) <$> buildScene theApp
  = Some [Some (16, (brickTexTransform * rightCylWorld 0)%xm,
                17, (brickTexTransform * leftCylWorld 0)%xm);
          Some (20, (brickTexTransform * rightCylWorld 1)%xm,
                21, (brickTexTransform * leftCylWorld 1)%xm)].
Proof. scene_compute. Qed.

(** C7: in the scene that [Initialize] builds, the item that the first
    placement loop calls [leftCylRitem] (pushed at position [16 + 4 i], with
    [ObjCBIndex] [16 + 4 i]) has the world matrix computed from
    [rightCylWorld], whose translation has x = +3.0, and the item it calls
    [rightCylRitem] (position and index [17 + 4 i]) has the one computed from
    [leftCylWorld], whose translation has x = -3.0, in both iterations. *)
Theorem C7_cylinder_transforms_swapped :
  exists s, buildScene theApp = Some s /\
    Forall (fun i : nat =>
      exists leftCylRitem rightCylRitem,
        cylinderPair s i = Some (leftCylRitem, rightCylRitem) /\
        RenderItem.ObjCBIndex leftCylRitem = 16 + 4 * Z.of_nat i /\
        RenderItem.ObjCBIndex rightCylRitem = 17 + 4 * Z.of_nat i /\
        RenderItem.World leftCylRitem
          = (brickTexTransform * rightCylWorld (Z.of_nat i))%xm /\
        RenderItem.World rightCylRitem
          = (brickTexTransform * leftCylWorld (Z.of_nat i))%xm /\
        translationX (rightCylWorld (Z.of_nat i)) = F32.dec 30 1 /\
        translationX (RenderItem.World leftCylRitem) = F32.dec 30 1 /\
        translationX (leftCylWorld (Z.of_nat i)) = F32.neg (F32.dec 30 1) /\
        translationX (RenderItem.World rightCylRitem) = F32.neg (F32.dec 30 1))
      [0; 1]%nat.
Proof.
  pose proof scene_cylinders as H.
  destruct (buildScene theApp) as [s|]; [|done]. exists s. split; [done|].
  cbn [fmap option_fmap option_map map] in H. injection H as H0 H1.
  repeat apply Forall_cons_2; [| |apply Forall_nil_2].
  - destruct (cylinderPair s 0) as [[l r]|]; [|done].
    injection H0 as Hl Hlw Hr Hrw. exists l, r. rewrite Hl, Hlw, Hr, Hrw.
    split_and!; try done; vm_compute; reflexivity.
  - destruct (cylinderPair s 1) as [[l r]|]; [|done].
    injection H1 as Hl Hlw Hr Hrw. exists l, r. rewrite Hl, Hlw, Hr, Hrw.
    split_and!; try done; vm_compute; reflexivity.
Qed.

(** ** Capacities *)

Lemma scene_facts :
  exists s, buildScene theApp = Some s /\
    map RenderItem.ObjCBIndex (mAllRitems s) = seqZ 0 50 /\
    mOpaqueRitems s = seq 0 50 /\
    map (fun fr => (length (ObjectCB fr), length (MaterialBuffer fr))) (mFrameResources s)
      = [(50, 4); (50, 4); (50, 4)]%nat /\
    forallb (drawable s) (seq 0 50) = true /\
    (size (mMaterials s),
     map (fun k => match mMaterials s !! k with
                   | Some (Some mat) => Some (Material.MatCBIndex mat)
                   | _ => None
                   end) ["bricks0"; "stone0"; "tile0"; "crate0"; "diaMat"])
      = (4%nat, [Some 0; Some 1; Some 2; Some 3; None]) /\
    forallb (fun e => bool_decide (RenderItem.Mat e ∈
               [Some "bricks0"; Some "stone0"; Some "tile0"; Some "crate0"]))
            (mAllRitems s) = true.
Proof.
  pose proof scene_ObjCBIndex as H1. pose proof scene_mOpaqueRitems as H2.
  pose proof scene_capacities as H3. pose proof scene_drawable as H4.
  pose proof scene_materials as H5. pose proof scene_item_materials as H6.
  destruct (buildScene theApp) as [s|]; [|done]. exists s.
  cbn [fmap option_fmap option_map] in *.
  apply (inj Some) in H1, H2, H3, H4, H5, H6. done.
Qed.

Lemma scene_item_material s e :
  (size (mMaterials s),
   map (fun k => match mMaterials s !! k with
                 | Some (Some mat) => Some (Material.MatCBIndex mat)
                 | _ => None
                 end) ["bricks0"; "stone0"; "tile0"; "crate0"; "diaMat"])
    = (4%nat, [Some 0; Some 1; Some 2; Some 3; None]) ->
  forallb (fun e => bool_decide (RenderItem.Mat e ∈
             [Some "bricks0"; Some "stone0"; Some "tile0"; Some "crate0"]))
          (mAllRitems s) = true ->
  e ∈ mAllRitems s ->
  exists k mat, RenderItem.Mat e = Some k /\ k ≠ "diaMat" /\
                mMaterials s !! k = Some (Some mat) /\ 0 <= Material.MatCBIndex mat < 4.
Proof.
  intros Hm Hi He. injection Hm as _ Hb Hs Ht Hc _.
  apply Is_true_true, forallb_True in Hi. rewrite Forall_forall in Hi.
  specialize (Hi e He). apply bool_decide_unpack in Hi.
  repeat (apply elem_of_cons in Hi as [Hi|Hi]); [..|by apply elem_of_nil in Hi].
  - destruct (mMaterials s !! "bricks0") as [[mat|]|] eqn:E; try done.
    injection Hb as Hb. exists "bricks0", mat. split_and!; try done; lia.
  - destruct (mMaterials s !! "stone0") as [[mat|]|] eqn:E; try done.
    injection Hs as Hs. exists "stone0", mat. split_and!; try done; lia.
  - destruct (mMaterials s !! "tile0") as [[mat|]|] eqn:E; try done.
    injection Ht as Ht. exists "tile0", mat. split_and!; try done; lia.
  - destruct (mMaterials s !! "crate0") as [[mat|]|] eqn:E; try done.
    injection Hc as Hc. exists "crate0", mat. split_and!; try done; lia.
Qed.

(** [DrawRenderItems] over all the items, when each item has its geometry. *)
Lemma DrawRenderItems_all a fr :
  currFrameResource a = Some fr ->
  mOpaqueRitems a = seq 0 (length (mAllRitems a)) ->
  forallb (drawable a) (seq 0 (length (mAllRitems a))) = true ->
  exists draws,
    DrawRenderItems a (mOpaqueRitems a) = Some draws /\
    map dc_objCBOffset draws
    = map (fun e => Int.UINT (RenderItem.ObjCBIndex e * Int.UINT objCBByteSize))
          (mAllRitems a).
Proof.
  intros Hfr Hop Hd. unfold DrawRenderItems. rewrite Hfr, Hop. simpl.
  apply Is_true_true, forallb_True in Hd.
  set (f := fun p : nat => _).
  assert (Hs : is_Some (mapM f (seq 0 (length (mAllRitems a))))).
  { apply mapM_is_Some_2. eapply Forall_impl; [exact Hd|]. intros p Hp. simpl.
    unfold drawable in Hp. unfold f.
    destruct (mAllRitems a !! p) as [ri|]; [|done]. simpl.
    destruct (RenderItem.Geo ri) as [g|]; [|done]. simpl.
    destruct (mGeometries a !! g) as [[geo|]|]; try done; simpl; eauto. }
  destruct Hs as [draws Hdraws]. exists draws. split; [done|].
  apply mapM_Some_1 in Hdraws.
  apply list_eq. intros i. rewrite !list_lookup_map.
  destruct (mAllRitems a !! i) as [ri|] eqn:Hri; simpl.
  - assert (Hi : seq 0 (length (mAllRitems a)) !! i = Some i).
    { apply lookup_seq. split; [done|]. by eapply lookup_lt_Some. }
    destruct (Forall2_lookup_l _ _ _ _ _ Hdraws Hi) as (d & -> & Hfd). simpl.
    unfold f in Hfd. rewrite Hri in Hfd. simpl in Hfd.
    destruct (RenderItem.Geo ri) as [g|]; [|done]. simpl in Hfd.
    destruct (mGeometries a !! g) as [[geo|]|]; try done. simpl in Hfd.
    by injection Hfd as <-.
  - apply Forall2_length in Hdraws. rewrite length_seq in Hdraws.
    apply lookup_ge_None in Hri. rewrite (proj2 (lookup_ge_None draws i)); [done|lia].
Qed.

(** ** What a frame leaves alone *)

Lemma map_insert_same {A B} (f : A -> B) (l : list A) (i : nat) (x y : A) :
  l !! i = Some x -> f y = f x -> map f (<[i := y]> l) = map f l.
Proof.
  intros Hx Hf. apply list_eq. intros j. rewrite !list_lookup_map.
  destruct (decide (j = i)) as [->|Hne].
  - rewrite list_lookup_insert_eq by (by eapply lookup_lt_Some). rewrite Hx. simpl.
    by rewrite Hf.
  - by rewrite list_lookup_insert_ne.
Qed.

Lemma tickItem_ObjCBIndex e : RenderItem.ObjCBIndex (tickItem e) = RenderItem.ObjCBIndex e.
Proof. unfold tickItem. by case_decide. Qed.

Lemma tickItem_Mat e : RenderItem.Mat (tickItem e) = RenderItem.Mat e.
Proof. unfold tickItem. by case_decide. Qed.

Lemma Update_static fuel gt m u m' :
  Update fuel gt m = Returns u m' ->
  map RenderItem.ObjCBIndex (mAllRitems (app m'))
    = map RenderItem.ObjCBIndex (mAllRitems (app m)) /\
  map RenderItem.Mat (mAllRitems (app m')) = map RenderItem.Mat (mAllRitems (app m)) /\
  map (fun fr => (length (ObjectCB fr), length (MaterialBuffer fr))) (mFrameResources (app m'))
    = map (fun fr => (length (ObjectCB fr), length (MaterialBuffer fr)))
          (mFrameResources (app m)) /\
  materialsAgree (mMaterials (app m)) (mMaterials (app m')).
Proof.
  intros H. apply Update_effect in H. cbv zeta in H.
  destruct H as (fr & fr' & _ & _ & _ & Hfr & Hfrs & _ & Hitems & Ho & Hm & _).
  split_and!.
  - rewrite Hitems, map_map. apply map_ext. intros e. apply tickItem_ObjCBIndex.
  - rewrite Hitems, map_map. apply map_ext. intros e. apply tickItem_Mat.
  - rewrite Hfrs. eapply map_insert_same; [exact Hfr|].
    apply UpdateObjectCBs_loop_length in Ho. apply UpdateMaterialBuffer_loop_length in Hm.
    simpl in Ho, Hm. by rewrite Ho, Hm.
  - apply UpdateMaterialBuffer_loop_agree in Hm. exact Hm.
Qed.

Lemma Draw_static gt m u m' :
  Draw gt m = Returns u m' ->
  mAllRitems (app m') = mAllRitems (app m) /\
  map (fun fr => (length (ObjectCB fr), length (MaterialBuffer fr))) (mFrameResources (app m'))
    = map (fun fr => (length (ObjectCB fr), length (MaterialBuffer fr)))
          (mFrameResources (app m)) /\
  mMaterials (app m') = mMaterials (app m).
Proof.
  intros H. apply Draw_effect in H. cbv zeta in H.
  destruct H as (j & fr & draws & w1 & _ & Hfr & _ & -> & _). simpl.
  split_and!; try done. by eapply map_insert_same.
Qed.

Lemma Frame_static fuel gt m u m' :
  Frame fuel gt m = Returns u m' ->
  map RenderItem.ObjCBIndex (mAllRitems (app m'))
    = map RenderItem.ObjCBIndex (mAllRitems (app m)) /\
  map RenderItem.Mat (mAllRitems (app m')) = map RenderItem.Mat (mAllRitems (app m)) /\
  map (fun fr => (length (ObjectCB fr), length (MaterialBuffer fr))) (mFrameResources (app m'))
    = map (fun fr => (length (ObjectCB fr), length (MaterialBuffer fr)))
          (mFrameResources (app m)) /\
  materialsAgree (mMaterials (app m)) (mMaterials (app m')).
Proof.
  unfold Frame. intros H. apply bind_Returns in H as ([] & m1 & HU & HD).
  apply Update_static in HU as (U1 & U2 & U3 & U4).
  apply Draw_static in HD as (D1 & D2 & D3).
  rewrite D1, D2, D3. done.
Qed.

Lemma elem_of_map {A B} (f : A -> B) (l : list A) (x : A) : x ∈ l -> f x ∈ map f l.
Proof. apply (list_elem_of_fmap_2 f). Qed.

Lemma capacities_of s fr :
  map (fun fr => (length (ObjectCB fr), length (MaterialBuffer fr))) (mFrameResources s)
    = [(50, 4); (50, 4); (50, 4)]%nat ->
  fr ∈ mFrameResources s ->
  length (ObjectCB fr) = 50%nat /\ length (MaterialBuffer fr) = 4%nat.
Proof.
  intros Hcap Hfr.
  apply (elem_of_map (fun fr => (length (ObjectCB fr), length (MaterialBuffer fr)))) in Hfr.
  rewrite Hcap in Hfr.
  repeat (apply elem_of_cons in Hfr as [Hfr|Hfr]); [..|by apply elem_of_nil in Hfr];
    by injection Hfr as -> ->.
Qed.

Lemma indices_of s e :
  map RenderItem.ObjCBIndex (mAllRitems s) = seqZ 0 50 ->
  e ∈ mAllRitems s -> 0 <= RenderItem.ObjCBIndex e < 50.
Proof.
  intros Hidx He. apply (elem_of_map RenderItem.ObjCBIndex) in He. rewrite Hidx in He.
  apply elem_of_seqZ in He. lia.
Qed.

(** C9: [BuildRenderItems] makes 50 render items whose [ObjCBIndex] values
    are 0, 1, ..., 49 in the order of [mAllRitems], hence pairwise distinct
    and each below the number of items; each of the three frame resources is
    made with as many per-object elements as there are items.  So for every
    item and every frame resource the [CopyData] of [UpdateObjectCBs] writes
    an element of the buffer, the whole loop of [UpdateObjectCBs] runs
    through, and the offset that [DrawRenderItems] computes for the item is
    its index times the element size, which lies in the buffer when the
    product of 50 and the element size fits [UINT].  A frame changes neither
    the indices of the items nor the sizes of the buffers. *)
Theorem C9_object_indices_within_capacity :
  (exists s, buildScene theApp = Some s /\
     length (mAllRitems s) = 50%nat /\
     map RenderItem.ObjCBIndex (mAllRitems s) = seqZ 0 50 /\
     NoDup (map RenderItem.ObjCBIndex (mAllRitems s)) /\
     length (mFrameResources s) = Z.to_nat gNumFrameResources /\
     Forall (fun fr => length (ObjectCB fr) = length (mAllRitems s)) (mFrameResources s) /\
     Forall (fun e => 0 <= RenderItem.ObjCBIndex e < Z.of_nat (length (mAllRitems s)) /\
                      slotOf e = RenderItem.ObjCBIndex e) (mAllRitems s) /\
     Forall (fun fr =>
               Forall (fun e => forall c,
                         is_Some (UploadBuffer.CopyData (slotOf e) c (ObjectCB fr)))
                      (mAllRitems s) /\
               is_Some (UpdateObjectCBs_loop (mMaterials s) (mAllRitems s) (ObjectCB fr)))
            (mFrameResources s) /\
     Forall (fun p : nat =>
               exists draws,
                 DrawRenderItems (set_mCurrFrameResource (Some p) s) (mOpaqueRitems s)
                   = Some draws /\
                 map dc_objCBOffset draws
                 = map (fun e => Int.UINT (RenderItem.ObjCBIndex e * Int.UINT objCBByteSize))
                       (mAllRitems s))
            [0; 1; 2]%nat /\
     (0 <= objCBByteSize -> 50 * objCBByteSize <= 2 ^ 32 ->
      Forall (fun e =>
                let offset := Int.UINT (RenderItem.ObjCBIndex e * Int.UINT objCBByteSize) in
                offset = RenderItem.ObjCBIndex e * objCBByteSize /\
                0 <= offset /\
                offset + objCBByteSize <= Z.of_nat (length (mAllRitems s)) * objCBByteSize)
             (mAllRitems s))) /\
  (forall fuel gt m u m',
     Frame fuel gt m = Returns u m' ->
     map RenderItem.ObjCBIndex (mAllRitems (app m'))
       = map RenderItem.ObjCBIndex (mAllRitems (app m)) /\
     map (fun fr => length (ObjectCB fr)) (mFrameResources (app m'))
       = map (fun fr => length (ObjectCB fr)) (mFrameResources (app m))).
Proof.
  split.
  - destruct scene_facts as (s & Hs & Hidx & Hop & Hcap & Hdr & Hmat & Himat).
    exists s. split; [exact Hs|clear Hs].
    assert (Hlen : length (mAllRitems s) = 50%nat).
    { apply (f_equal length) in Hidx. by rewrite length_map, length_seqZ in Hidx. }
    assert (Hfrs : length (mFrameResources s) = 3%nat).
    { apply (f_equal length) in Hcap. by rewrite length_map in Hcap. }
    assert (Hslot : forall e, e ∈ mAllRitems s ->
                      0 <= RenderItem.ObjCBIndex e < 50 /\ slotOf e = RenderItem.ObjCBIndex e).
    { intros e He. pose proof (indices_of s e Hidx He). split; [done|].
      unfold slotOf. apply INT_small. lia. }
    rewrite Hlen. split_and!.
    + reflexivity.
    + exact Hidx.
    + rewrite Hidx. apply NoDup_seqZ.
    + exact Hfrs.
    + apply Forall_forall. intros fr Hfr. by apply (capacities_of s fr Hcap).
    + apply Forall_forall. intros e He. destruct (Hslot e He). split; [lia|done].
    + apply Forall_forall. intros fr Hfr.
      destruct (capacities_of s fr Hcap Hfr) as [Ho _]. split.
      * apply Forall_forall. intros e He c. destruct (Hslot e He) as [Hr He'].
        apply CopyData_is_Some. rewrite He', Ho. lia.
      * apply UpdateObjectCBs_loop_is_Some. intros e He _.
        destruct (Hslot e He) as [Hr He']. split; [|rewrite He', Ho; lia].
        destruct (scene_item_material s e Hmat Himat He) as (k & mat & Hk & _ & Hl & _).
        unfold objectConstantsOf. rewrite Hk. simpl. rewrite Hl. simpl. eauto.
    + apply Forall_forall. intros p Hp.
      assert (Hlt : (p < length (mFrameResources s))%nat).
      { rewrite Hfrs. repeat (apply elem_of_cons in Hp as [->|Hp]); try lia.
        by apply elem_of_nil in Hp. }
      destruct (lookup_lt_is_Some_2 _ _ Hlt) as [fr Hfr].
      destruct (DrawRenderItems_all (set_mCurrFrameResource (Some p) s) fr)
        as (draws & Hd & Ho).
      { exact Hfr. }
      { change (mOpaqueRitems s = seq 0 (length (mAllRitems s))).
        rewrite Hlen. exact Hop. }
      { change (forallb (drawable s) (seq 0 (length (mAllRitems s))) = true).
        rewrite Hlen. exact Hdr. }
      exists draws. split; [exact Hd|exact Ho].
    + intros Hpos Hfit. apply Forall_forall. intros e He. cbv zeta.
      destruct (Hslot e He) as [Hr _].
      rewrite (UINT_small objCBByteSize) by lia.
      rewrite UINT_small by nia. nia.
  - intros fuel gt m u m' H. apply Frame_static in H as (H1 & _ & H3 & _).
    split; [done|].
    apply (f_equal (map fst)) in H3. by rewrite !map_map in H3.
Qed.

(** ** Materials *)

Lemma scene_material_entries :
  (fun s => (match mMaterials s !! "diaMat" with None => true | Some _ => false end,
             forallb (fun kv : string * option Material.t =>
                        match kv.2 with
                        | Some mat => bool_decide (0 <= Material.MatCBIndex mat < 4)
                        | None => false
                        end) (map_to_list (mMaterials s)))) <$> buildScene theApp
  = Some (true, true).
Proof. scene_compute. Qed.

(** [BuildMaterials] stores four entries and nothing else. *)
Lemma BuildMaterials_lookup a k :
  mMaterials (BuildMaterials a) !! k
  = if decide (k = "crate0") then Some (Some crate0)
    else if decide (k = "tile0") then Some (Some tile0)
    else if decide (k = "stone0") then Some (Some stone0)
    else if decide (k = "bricks0") then Some (Some bricks0)
    else mMaterials a !! k.
Proof.
  unfold BuildMaterials. cbn [mMaterials set_mMaterials].
  repeat case_decide; subst;
    rewrite ?lookup_insert_eq; try done;
    repeat (rewrite lookup_insert_ne by done; rewrite ?lookup_insert_eq); done.
Qed.

(** The loop of [UpdateMaterialBuffer] runs through when every key it visits
    has a material whose index is an element of the buffer. *)
Lemma UpdateMaterialBuffer_loop_is_Some keys mats buf :
  (forall k, k ∈ keys ->
     exists mat, mats !! k = Some (Some mat) /\
                 0 <= Material.MatCBIndex mat < Z.of_nat (length buf)) ->
  is_Some (UpdateMaterialBuffer_loop keys mats buf).
Proof.
  revert mats buf. induction keys as [|k keys IH]; intros mats buf H; simpl; [eauto|].
  destruct (H k) as (mat & -> & Hr); [left|]. simpl.
  case_decide.
  - destruct (CopyData_is_Some (Material.MatCBIndex mat) (materialDataOf mat) buf Hr)
      as [buf' Hbuf].
    rewrite Hbuf. simpl. apply CopyData_Some in Hbuf as [_ ->]. apply IH.
    intros k' Hk'. rewrite length_insert.
    destruct (decide (k' = k)) as [->|Hne].
    + rewrite lookup_insert_eq. eexists. split; [done|]. exact Hr.
    + rewrite lookup_insert_ne by done. apply H. by right.
  - apply IH. intros k' Hk'. apply H. by right.
Qed.

Lemma materialsAgree_matCBIndexAt a a' k :
  materialsAgree (mMaterials a) (mMaterials a') ->
  matCBIndexAt a' k = matCBIndexAt a k.
Proof.
  intros H. specialize (H k). unfold matCBIndexAt.
  destruct (mMaterials a !! k) as [[mat|]|], (mMaterials a' !! k) as [[mat'|]|]; try done.
  destruct H as [H _]. unfold sameMaterial in H.
  apply (f_equal Material.MatCBIndex) in H. simpl in H. by rewrite H.
Qed.

(** C10: [BuildMaterials] constructs [diamondMat], named "diaMat" with both
    indices 4, but stores nothing under that name and stores [diamondMat]
    under no name.  In the scene that [Initialize] builds, [mMaterials] has
    exactly four entries, "bricks0", "stone0", "tile0" and "crate0" with
    [MatCBIndex] 0, 1, 2 and 3, and no entry "diaMat"; every render item
    points to one of the four, so the [MaterialIndex] of its object constants
    is below 4; every frame resource has a material buffer of 4 elements, and
    the loop of [UpdateMaterialBuffer] writes inside it and runs through.  A
    frame changes neither the materials' indices, nor the items' materials,
    nor the sizes of the buffers. *)
Theorem C10_diamond_material_unused :
  (Material.Name diamondMat = "diaMat" /\
   Material.MatCBIndex diamondMat = 4 /\
   Material.DiffuseSrvHeapIndex diamondMat = 4) /\
  (forall a,
     mMaterials (BuildMaterials a) !! "diaMat" = mMaterials a !! "diaMat" /\
     forall k, mMaterials (BuildMaterials a) !! k = Some (Some diamondMat) ->
               mMaterials a !! k = Some (Some diamondMat)) /\
  (exists s, buildScene theApp = Some s /\
     size (mMaterials s) = 4%nat /\
     matCBIndexAt s "bricks0" = Some 0 /\
     matCBIndexAt s "stone0" = Some 1 /\
     matCBIndexAt s "tile0" = Some 2 /\
     matCBIndexAt s "crate0" = Some 3 /\
     mMaterials s !! "diaMat" = None /\
     map_Forall (fun _ entry =>
                   exists mat, entry = Some mat /\ mat ≠ diamondMat /\
                               0 <= Material.MatCBIndex mat < 4) (mMaterials s) /\
     Forall (fun e =>
               exists k mat oc,
                 RenderItem.Mat e = Some k /\ k ≠ "diaMat" /\
                 mMaterials s !! k = Some (Some mat) /\
                 0 <= Material.MatCBIndex mat < 4 /\
                 objectConstantsOf (mMaterials s) e = Some oc /\
                 oc_MaterialIndex oc = Material.MatCBIndex mat)
            (mAllRitems s) /\
     Forall (fun fr =>
               length (MaterialBuffer fr) = 4%nat /\
               is_Some (UpdateMaterialBuffer_loop (mMaterials_order (mMaterials s))
                          (mMaterials s) (MaterialBuffer fr)))
            (mFrameResources s)) /\
  (forall fuel gt m u m',
     Frame fuel gt m = Returns u m' ->
     (forall k, matCBIndexAt (app m') k = matCBIndexAt (app m) k) /\
     map RenderItem.Mat (mAllRitems (app m')) = map RenderItem.Mat (mAllRitems (app m)) /\
     map (fun fr => length (MaterialBuffer fr)) (mFrameResources (app m'))
       = map (fun fr => length (MaterialBuffer fr)) (mFrameResources (app m))).
Proof.
  split_and!.
  - reflexivity.
  - reflexivity.
  - reflexivity.
  - intros a. split.
    + rewrite BuildMaterials_lookup. by repeat (rewrite decide_False by done).
    + intros k. rewrite BuildMaterials_lookup.
      repeat case_decide; try done; intros [= H]; exfalso; revert H;
        unfold diamondMat, crate0, tile0, stone0, bricks0, makeMaterial; discriminate.
  - destruct scene_facts as (s & Hs & Hidx & Hop & Hcap & Hdr & Hmat & Himat).
    pose proof scene_material_entries as He. rewrite Hs in He.
    cbn [fmap option_fmap option_map] in He. apply (inj Some) in He.
    exists s. split; [exact Hs|clear Hs].
    assert (Hdia : mMaterials s !! "diaMat" = None).
    { apply (f_equal fst) in He. simpl in He. by destruct (mMaterials s !! "diaMat"). }
    assert (Hall : map_Forall (fun _ entry =>
                     exists mat, entry = Some mat /\ mat ≠ diamondMat /\
                                 0 <= Material.MatCBIndex mat < 4) (mMaterials s)).
    { apply (f_equal snd) in He. simpl in He.
      apply Is_true_true, forallb_True in He. rewrite Forall_forall in He.
      intros k entry Hk. apply elem_of_map_to_list in Hk. specialize (He _ Hk). simpl in He.
      destruct entry as [mat|]; [|done]. apply bool_decide_unpack in He.
      exists mat. split_and!; try done; try lia.
      intros ->. simpl in He. lia. }
    pose proof Hmat as Hmat'. injection Hmat' as Hsz Hb Hst Ht Hc _.
    unfold matCBIndexAt. split_and!; try done.
    + apply Forall_forall. intros e Hin.
      destruct (scene_item_material s e Hmat Himat Hin) as (k & mat & Hk & Hne & Hl & Hr).
      exists k, mat. eexists. do 4 (split; [done|]). split.
      * unfold objectConstantsOf. rewrite Hk. simpl. rewrite Hl. simpl. reflexivity.
      * simpl. apply UINT_small. lia.
    + apply Forall_forall. intros fr Hfr.
      destruct (capacities_of s fr Hcap Hfr) as [_ Hm]. split; [done|].
      apply UpdateMaterialBuffer_loop_is_Some. intros k Hk.
      rewrite mMaterials_order_perm in Hk.
      apply list_elem_of_fmap in Hk as ([k' entry] & -> & Hk). simpl.
      apply elem_of_map_to_list in Hk.
      destruct (Hall _ _ Hk) as (mat & -> & _ & Hr). exists mat. split; [done|].
      rewrite Hm. lia.
  - intros fuel gt m u m' H. apply Frame_static in H as (_ & H2 & H3 & H4).
    split_and!.
    + intros k. by apply materialsAgree_matCBIndexAt.
    + done.
    + apply (f_equal (map snd)) in H3. by rewrite !map_map in H3.
Qed.

(** ** Checks that decide a hypothesis on a concrete scene *)

Lemma NoDup_slots_distinct (items : list RenderItem.t) (p : nat) (e : RenderItem.t) :
  NoDup (map slotOf items) -> items !! p = Some e ->
  forall q e', items !! q = Some e' -> q ≠ p -> slotOf e' ≠ slotOf e.
Proof.
  intros Hnd Hp q e' Hq Hne Heq. apply Hne.
  eapply NoDup_lookup; [exact Hnd| |].
  - rewrite list_lookup_map, Hq. simpl. reflexivity.
  - rewrite list_lookup_map, Hp. simpl. by rewrite Heq.
Qed.

Lemma meshes_well_formed (l : list (string * GeometryGenerator.MeshData)) :
  Forall (fun s => Forall (fun idx =>
                     0 <= idx < Z.of_nat (length (GeometryGenerator.Vertices s.2)))
                   (GeometryGenerator.Indices32 s.2)) l ->
  forall name mesh idx,
    (name, mesh) ∈ l -> idx ∈ GeometryGenerator.Indices32 mesh ->
    0 <= idx < Z.of_nat (length (GeometryGenerator.Vertices mesh)).
Proof.
  intros H name mesh idx Hin Hidx. rewrite Forall_forall in H.
  specialize (H _ Hin). simpl in H. rewrite Forall_forall in H. by apply H.
Qed.

(** ** The frame loop is memory safe *)





Lemma bind_Undefined {A B} (c : M A) (f : A -> M B) m :
  (c ≫= f) m = Undefined ->
  c m = Undefined \/ exists a m1, c m = Returns a m1 /\ f a m1 = Undefined.
Proof.
  unfold mbind, M_bind. destruct (c m) as [a m1| | | |]; intros H; try discriminate;
    [right; by eexists _, _ | by left].
Qed.

Lemma bind_Aborted {A B} (c : M A) (f : A -> M B) m m' :
  (c ≫= f) m = Aborted m' ->
  c m = Aborted m' \/ exists a m1, c m = Returns a m1 /\ f a m1 = Aborted m'.
Proof.
  unfold mbind, M_bind. destruct (c m) as [a m1| | | |]; intros H; try discriminate;
    [right; by eexists _, _ | injection H as ->; by left].
Qed.

Lemma liftUB_Undefined f m : liftUB f m = Undefined -> f (app m) = None.
Proof. unfold liftUB. by destruct (f (app m)). Qed.

Lemma liftUB_not_Aborted f m m' : liftUB f m ≠ Aborted m'.
Proof. unfold liftUB. by destruct (f (app m)). Qed.

Lemma readUB_Undefined {A} (f : i4CastleApp -> option A) m :
  readUB f m = Undefined -> f (app m) = None.
Proof. unfold readUB. by destruct (f (app m)). Qed.

Lemma readUB_not_Aborted {A} (f : i4CastleApp -> option A) m m' : readUB f m ≠ Aborted m'.
Proof. unfold readUB. by destruct (f (app m)). Qed.












Lemma DrawRenderItems_is_Some a ritems :
  is_Some (currFrameResource a) ->
  Forall (fun p => drawable a p = true) ritems ->
  is_Some (DrawRenderItems a ritems).
Proof.
  intros [fr Hfr] Hd. unfold DrawRenderItems. rewrite Hfr. simpl.
  apply mapM_is_Some_2. eapply Forall_impl; [exact Hd|]. intros p Hp. simpl in *.
  unfold drawable in Hp.
  destruct (mAllRitems a !! p) as [ri|]; [|done]. simpl.
  destruct (RenderItem.Geo ri) as [g|]; [|done]. simpl.
  destruct (mGeometries a !! g) as [[geo|]|]; try done; simpl; eauto.
Qed.






(** ** Initialisation *)

Local Arguments BuildRenderItems : simpl never.
Local Arguments shapeGeo : simpl never.
Local Arguments buildScene : simpl never.

Lemma wellFormedSceneb_sound a : wellFormedSceneb a = true -> wellFormedScene a.
Proof.
  unfold wellFormedSceneb, wellFormedScene. intros H.
  repeat (apply andb_true_iff in H as [H ?]).
  repeat match goal with
  | H : bool_decide _ = true |- _ => apply bool_decide_eq_true in H
  | H : forallb _ _ = true |- _ => apply Is_true_true, forallb_True in H
  end.
  split_and!; try done; try lia.
  - eapply Forall_impl; [eassumption|]. intros e He. simpl in He.
    by apply bool_decide_unpack in He.
  - apply map_Forall_to_list. eapply Forall_impl; [eassumption|].
    intros [k entry] He. simpl in *. by apply bool_decide_unpack in He.
  - eapply Forall_impl; [eassumption|]. intros p Hp. by apply Is_true_true.
  - eapply Forall_impl; [eassumption|]. intros fr Hfr. simpl in Hfr.
    apply andb_prop_elim in Hfr as [Hfr Hc]. apply andb_prop_elim in Hfr as [Ha Hb].
    apply bool_decide_unpack in Ha. apply forallb_True in Hb, Hc. split_and!.
    + done.
    + eapply Forall_impl; [exact Hb|]. intros e He. simpl in He.
      by apply bool_decide_unpack in He.
    + apply map_Forall_to_list. eapply Forall_impl; [exact Hc|].
      intros [k entry] He. simpl in *. destruct entry; [|done].
      by apply bool_decide_unpack in He.
Qed.

Lemma fresh_scene_check pc cam fence bb dev :
  wellFormedSceneb <$> buildScene (mkApp [] None 0 ∅ ∅ [] [] pc cam fence bb dev) = Some true.
Proof. scene_compute. Qed.

(** From the members as the constructor leaves them, the scene is built and
    it is well formed. *)
Lemma buildScene_fresh a :
  freshApp a -> exists s, buildScene a = Some s /\ wellFormedScene s.
Proof.
  destruct a as [frs cur idx geos mats items opaque pc cam fence bb dev].
  unfold freshApp. cbn [mFrameResources mCurrFrameResource mCurrFrameResourceIndex
    mGeometries mMaterials mAllRitems mOpaqueRitems].
  intros (-> & -> & -> & -> & -> & -> & ->).
  pose proof (fresh_scene_check pc cam fence bb dev) as H.
  destruct (buildScene _) as [s|]; [|done]. exists s. split; [done|].
  apply wellFormedSceneb_sound. by injection H.
Qed.

Lemma checked_app name x line m u m' :
  checked name x line m = Returns u m' -> app m' = app m.
Proof. by intros [_ ->]%checked_Returns. Qed.

Lemma modifyApp_app f m u m' : modifyApp f m = Returns u m' -> app m' = f (app m).
Proof. unfold modifyApp. by intros [= _ <-]. Qed.

Lemma logEvent_app ev m u m' : logEvent ev m = Returns u m' -> app m' = app m.
Proof. unfold logEvent. by intros [= _ <-]. Qed.

Lemma call_app h m u m' : call h m = Returns u m' -> app m' = app m.
Proof. unfold call. destruct (h (world m)) as [w|[e w]]; [|done]. by intros [= _ <-]. Qed.

Lemma reportErrorBlob_app m u m' : reportErrorBlob m = Returns u m' -> app m' = app m.
Proof.
  unfold reportErrorBlob. destruct (errorBlob (world m)); [apply logEvent_app|].
  by intros [= _ <-].
Qed.

Lemma throughDevice_Returns m u m' :
  throughDevice m = Returns u m' -> md3dDevice (app m) = true /\ m' = m.
Proof.
  unfold throughDevice, readUB. destruct (md3dDevice (app m)); [|done].
  by intros [= _ <-].
Qed.

(** The steps of [Initialize] that only talk to the device. *)
Lemma LoadTextures_app m u m' : LoadTextures m = Returns u m' -> app m' = app m.
Proof.
  unfold LoadTextures. intros H.
  apply bind_Returns in H as (? & m1 & H1%checked_app & H).
  apply bind_Returns in H as (? & m2 & H2%checked_app & H).
  apply bind_Returns in H as (? & m3 & H3%checked_app & H).
  apply checked_app in H. by rewrite H, H3, H2, H1.
Qed.

Lemma BuildRootSignature_app m u m' : BuildRootSignature m = Returns u m' -> app m' = app m.
Proof.
  unfold BuildRootSignature. intros H.
  apply bind_Returns in H as (hr & m1 & H1 & H).
  assert (E1 : app m1 = app m) by (unfold api in H1; by injection H1 as _ <-).
  apply bind_Returns in H as (? & m2 & H2%reportErrorBlob_app & H).
  apply bind_Returns in H as (? & m3 & HT & H).
  unfold ThrowIfFailed in HT. destruct (FAILED _); [done|]. injection HT as _ <-.
  apply checked_app in H. by rewrite H, H2, E1.
Qed.

Lemma BuildShadersAndInputLayout_app m u m' :
  BuildShadersAndInputLayout m = Returns u m' -> app m' = app m.
Proof.
  unfold BuildShadersAndInputLayout. intros H.
  apply bind_Returns in H as (? & m1 & H1%call_app & H).
  apply call_app in H. by rewrite H, H1.
Qed.

Lemma BuildShapeGeometry_app m u m' :
  BuildShapeGeometry m = Returns u m' ->
  app m' = set_mGeometries (<[MeshGeometry.Name shapeGeo := Some shapeGeo]> (mGeometries (app m)))
             (app m).
Proof.
  unfold BuildShapeGeometry. cbv zeta. intros H.
  apply bind_Returns in H as (? & m1 & H1%checked_app & H).
  apply bind_Returns in H as (? & m2 & H2%checked_app & H).
  apply bind_Returns in H as (? & m3 & H3%call_app & H).
  apply bind_Returns in H as (? & m4 & H4%call_app & H).
  apply modifyApp_app in H. rewrite H, H4, H3, H2, H1. reflexivity.
Qed.

Lemma BuildFrameResources_app m u m' :
  BuildFrameResources m = Returns u m' ->
  app m' = pushFrameResource (pushFrameResource (pushFrameResource (app m))).
Proof.
  unfold BuildFrameResources. change (Z.to_nat gNumFrameResources) with 3%nat.
  cbn [BuildFrameResources_loop]. intros H.
  apply bind_Returns in H as (? & ? & [= <- <-] & H).
  apply bind_Returns in H as (? & m1 & H1%call_app & H).
  apply bind_Returns in H as (? & m2 & H2%modifyApp_app & H).
  apply bind_Returns in H as (? & ? & [= <- <-] & H).
  apply bind_Returns in H as (? & m3 & H3%call_app & H).
  apply bind_Returns in H as (? & m4 & H4%modifyApp_app & H).
  apply bind_Returns in H as (? & ? & [= <- <-] & H).
  apply bind_Returns in H as (? & m5 & H5%call_app & H).
  apply bind_Returns in H as (? & m6 & H6%modifyApp_app & H).
  injection H as _ <-. rewrite H6, H5, H4, H3, H2, H1. reflexivity.
Qed.

(** What [Initialize] has done when it returns [true]. *)
Lemma Initialize_Returns_true m m' :
  Initialize m = Returns true m' ->
  exists m1 s mf,
    D3DApp_Initialize m = Returns true m1 /\
    md3dDevice (app m1) = true /\
    buildScene (placeCamera (app m1)) = Some s /\
    app mf = s /\
    FlushCommandQueue mf = Returns tt m'.
Proof.
  unfold Initialize. intros H.
  apply bind_Returns in H as (ok & m1 & H1 & H). destruct ok; cbn [negb] in H;
    [|discriminate H].
  apply bind_Returns in H as (? & m2 & H2%checked_app & H).
  apply bind_Returns in H as (? & m2' & [Hdev ->]%throughDevice_Returns & H).
  apply bind_Returns in H as (? & m3 & H3%modifyApp_app & H).
  apply bind_Returns in H as (? & m4 & H4%LoadTextures_app & H).
  apply bind_Returns in H as (? & m5 & H5%BuildRootSignature_app & H).
  apply bind_Returns in H as (? & m6 & H6%checked_app & H).
  apply bind_Returns in H as (? & m7 & H7%BuildShadersAndInputLayout_app & H).
  apply bind_Returns in H as (? & m8 & H8%BuildShapeGeometry_app & H).
  apply bind_Returns in H as (? & m9 & H9%modifyApp_app & H).
  apply bind_Returns in H as (? & m10 & [H10 _]%liftUB_Returns & H).
  apply bind_Returns in H as (? & m11 & H11%BuildFrameResources_app & H).
  apply bind_Returns in H as (? & m12 & H12%checked_app & H).
  apply bind_Returns in H as (? & m13 & H13%checked_app & H).
  apply bind_Returns in H as (? & m14 & H14%logEvent_app & H).
  apply bind_Returns in H as ([] & m15 & H15 & H).
  injection H as <-.
  exists m1, (app m14), m14.
  split; [exact H1|]. split; [by rewrite <- H2|].
  split; [|split; [reflexivity|exact H15]].
  rewrite H14, H13, H12, H11. unfold buildScene. cbv zeta.
  rewrite H9, H8, H7, H6, H5, H4, H3, H2 in H10. fold (placeCamera (app m1)) in H10.
  destruct (BuildRenderItems _) as [[[] r]|]; [|discriminate H10].
  cbn [fmap option_fmap option_map snd] in H10. injection H10 as ->.
  reflexivity.
Qed.

Lemma Initialize_Returns_false m m' :
  Initialize m = Returns false m' <-> D3DApp_Initialize m = Returns false m'.
Proof.
  split.
  - unfold Initialize. intros H.
    apply bind_Returns in H as (ok & m1 & H1 & H). destruct ok; cbn [negb] in H.
    + do 14 (apply bind_Returns in H as (? & ? & _ & H)).
      apply bind_Returns in H as (? & ? & _ & H). discriminate H.
    + injection H as <-. exact H1.
  - intros H. unfold Initialize. rewrite (bind_eq_Returns _ _ _ _ _ H). reflexivity.
Qed.

Lemma bind_assoc_M {A B C} (c : M A) (f : A -> M B) (g : B -> M C) m :
  ((c ≫= f) ≫= g) m = (c ≫= (fun a => f a ≫= g)) m.
Proof. unfold mbind, M_bind. by destruct (c m). Qed.

(** X2: [Initialize] returns [false] exactly when [D3DApp::Initialize] does,
    in the same state: it has then done nothing itself.  When it returns
    [true], the base class was initialised and left a device, the camera was
    placed, and the application object handed to the final flush is the
    scene that [BuildShapeGeometry], [BuildMaterials], [BuildRenderItems] and
    [BuildFrameResources] build, in this order; built from the members as the
    constructor leaves them, that scene is well formed. *)
Theorem Initialize_builds_the_scene :
  (forall m m', Initialize m = Returns false m' <-> D3DApp_Initialize m = Returns false m') /\
  (forall m m',
     Initialize m = Returns true m' ->
     exists m1 s mf,
       D3DApp_Initialize m = Returns true m1 /\
       md3dDevice (app m1) = true /\
       buildScene (placeCamera (app m1)) = Some s /\
       app mf = s /\
       FlushCommandQueue mf = Returns tt m' /\
       (freshApp (app m1) -> wellFormedScene s)).
Proof.
  split; [apply Initialize_Returns_false|].
  intros m m' H.
  apply Initialize_Returns_true in H as (m1 & s & mf & H1 & Hdev & Hs & Hmf & Hfl).
  exists m1, s, mf. do 5 (split; [assumption|]).
  intros Hfresh.
  destruct (buildScene_fresh (placeCamera (app m1))) as (s' & Hs' & Hwf).
  { exact Hfresh. }
  rewrite Hs in Hs'. by injection Hs' as ->.
Qed.

(** ** Initialisation proceeds or throws *)

Lemma bind_eq_Throws {A B} (c : M A) (f : A -> M B) m e m' :
  c m = Throws e m' -> (c ≫= f) m = Throws e m'.
Proof. unfold mbind, M_bind. by intros ->. Qed.

Lemma proceeds_checked name x line : proceeds (checked name x line) (fun a => a).
Proof. intros m. rewrite checked_eq. destruct (FAILED _); eauto. Qed.

Lemma proceeds_call h : proceeds (call h) (fun a => a).
Proof. intros m. unfold call. destruct (h (world m)) as [w|[e w]]; eauto. Qed.

Lemma proceeds_modifyApp f : proceeds (modifyApp f) f.
Proof. intros m. right. by eexists. Qed.

Lemma proceeds_logEvent ev : proceeds (logEvent ev) (fun a => a).
Proof. intros m. right. by eexists. Qed.

Lemma proceeds_reportErrorBlob : proceeds reportErrorBlob (fun a => a).
Proof.
  intros m. right. unfold reportErrorBlob. destruct (errorBlob (world m)).
  - by eexists.
  - exists (world m). by destruct m.
Qed.

Lemma proceeds_ThrowIfFailed hr x line : proceeds (ThrowIfFailed hr x line) (fun a => a).
Proof.
  intros m. unfold ThrowIfFailed. destruct (FAILED hr); [eauto|].
  right. exists (world m). by destruct m.
Qed.

Lemma proceeds_bind c c' f g :
  proceeds c f -> proceeds c' g -> proceeds (c ≫= fun _ => c') (fun a => g (f a)).
Proof.
  intros Hc Hc' m. destruct (Hc m) as [(e & m' & H)|(w & H)].
  - left. exists e, m'. by apply bind_eq_Throws.
  - rewrite (bind_eq_Returns _ _ _ _ _ H).
    destruct (Hc' (mkMachine (f (app m)) w)) as [(e & m' & H')|(w' & H')]; eauto.
Qed.

Lemma proceeds_api name (k : Z -> M unit) g :
  (forall hr, proceeds (k hr) g) -> proceeds (api name ≫= k) g.
Proof.
  intros Hk m. unfold mbind, M_bind, api. cbv zeta.
  destruct (Hk (hresults (world m) (calls (world m)))
              (mkMachine (app m)
                 (log (EvApi name (hresults (world m) (calls (world m)))) (called (world m)))))
    as [H|H]; eauto.
Qed.

Lemma proceeds_getApp (k : i4CastleApp -> M unit) g :
  (forall a, proceeds (k a) g) -> proceeds (getApp ≫= k) g.
Proof. intros Hk m. unfold mbind, M_bind, getApp. apply Hk. Qed.

Lemma LoadTextures_proceeds : proceeds LoadTextures (fun a => a).
Proof.
  unfold LoadTextures.
  repeat (apply (proceeds_bind _ _ (fun a => a) (fun a => a)); [apply proceeds_checked|]).
  apply proceeds_checked.
Qed.

Lemma BuildRootSignature_proceeds : proceeds BuildRootSignature (fun a => a).
Proof.
  unfold BuildRootSignature. apply proceeds_api. intros hr.
  apply (proceeds_bind _ _ (fun a => a) (fun a => a)); [apply proceeds_reportErrorBlob|].
  apply (proceeds_bind _ _ (fun a => a) (fun a => a)); [apply proceeds_ThrowIfFailed|].
  apply proceeds_checked.
Qed.

Lemma BuildShadersAndInputLayout_proceeds :
  proceeds BuildShadersAndInputLayout (fun a => a).
Proof.
  unfold BuildShadersAndInputLayout.
  apply (proceeds_bind _ _ (fun a => a) (fun a => a)); apply proceeds_call.
Qed.

Lemma BuildShapeGeometry_proceeds :
  proceeds BuildShapeGeometry
    (fun a => set_mGeometries (<[MeshGeometry.Name shapeGeo := Some shapeGeo]> (mGeometries a)) a).
Proof.
  unfold BuildShapeGeometry. cbv zeta.
  apply (proceeds_bind _ _ (fun a => a)); [apply proceeds_checked|].
  apply (proceeds_bind _ _ (fun a => a)); [apply proceeds_checked|].
  apply (proceeds_bind _ _ (fun a => a)); [apply proceeds_call|].
  apply (proceeds_bind _ _ (fun a => a)); [apply proceeds_call|].
  apply proceeds_modifyApp.
Qed.

Lemma BuildFrameResources_proceeds :
  proceeds BuildFrameResources
    (fun a => pushFrameResource (pushFrameResource (pushFrameResource a))).
Proof.
  unfold BuildFrameResources. change (Z.to_nat gNumFrameResources) with 3%nat.
  cbn [BuildFrameResources_loop].
  apply proceeds_getApp. intros a1.
  apply (proceeds_bind _ _ (fun a => a)); [apply proceeds_call|].
  apply (proceeds_bind _ _ pushFrameResource (fun a => pushFrameResource (pushFrameResource a)));
    [apply proceeds_modifyApp|].
  apply proceeds_getApp. intros a2.
  apply (proceeds_bind _ _ (fun a => a)); [apply proceeds_call|].
  apply (proceeds_bind _ _ pushFrameResource pushFrameResource); [apply proceeds_modifyApp|].
  apply proceeds_getApp. intros a3.
  apply (proceeds_bind _ _ (fun a => a)); [apply proceeds_call|].
  apply (proceeds_bind _ _ pushFrameResource (fun a => a)); [apply proceeds_modifyApp|].
  intros m. right. exists (world m). by destruct m.
Qed.

Lemma logEvent_mk ev a w : logEvent ev (mkMachine a w) = Returns tt (mkMachine a (log ev w)).
Proof. reflexivity. Qed.

Lemma liftUB_mk f a w a' : f a = Some a' -> liftUB f (mkMachine a w) = Returns tt (mkMachine a' w).
Proof. unfold liftUB. cbn [app world]. by intros ->. Qed.

(** One step of a computation that proceeds, under a property of results
    that every exception satisfies. *)
Lemma proceeds_step {B} (c : M unit) f (k : unit -> M B) (Q : result B -> Prop) a w :
  proceeds c f ->
  (forall e m', Q (Throws e m')) ->
  (forall w', Q (k tt (mkMachine (f a) w'))) ->
  Q ((c ≫= k) (mkMachine a w)).
Proof.
  intros Hc HT Hk. destruct (Hc (mkMachine a w)) as [(e & m' & H)|(w' & H)].
  - rewrite (bind_eq_Throws _ _ _ _ _ H). apply HT.
  - rewrite (bind_eq_Returns _ _ _ _ _ H). apply Hk.
Qed.

(** X3: [Initialize] does not stop half way.  When [D3DApp::Initialize] has
    returned [true], leaving a device and the members of [i4CastleApp] as its
    constructor made them, then [Initialize] either throws, or it reaches
    the final [FlushCommandQueue] with the well-formed scene built and the
    command list submitted, and from there it returns [true] as soon as the
    flush returns: the device pointer it calls through is not null, and
    [BuildRenderItems] finds every material and every geometry it looks
    up. *)
Theorem Initialize_throws_or_reaches_the_flush m m1 :
  D3DApp_Initialize m = Returns true m1 ->
  freshApp (app m1) ->
  md3dDevice (app m1) = true ->
  (exists e m', Initialize m = Throws e m') \/
  (exists s w,
     buildScene (placeCamera (app m1)) = Some s /\
     wellFormedScene s /\
     last (trace w) = Some (EvExecute []) /\
     Initialize m = (_ ← FlushCommandQueue; mret true) (mkMachine s w)).
Proof.
  intros H1 Hfresh Hdev.
  destruct (buildScene_fresh (placeCamera (app m1)) Hfresh) as (s & Hs & Hwf).
  destruct m1 as [a1 w1]. cbn [app world] in *.
  pose proof Hs as Hs'. unfold buildScene in Hs'. cbv zeta in Hs'.
  match type of Hs' with
  | context [BuildRenderItems ?x] => destruct (BuildRenderItems x) as [[[] r]|] eqn:Hr
  end; [|discriminate Hs'].
  cbn [mbind option_bind snd] in Hs'. injection Hs' as Es.
  set (Q := fun r : result bool =>
              (exists e m', r = Throws e m') \/
              (exists s w,
                 buildScene (placeCamera a1) = Some s /\ wellFormedScene s /\
                 last (trace w) = Some (EvExecute []) /\
                 r = (_ ← FlushCommandQueue; mret true) (mkMachine s w))).
  assert (HT : forall e m', Q (Throws e m')) by (intros e m'; left; eauto).
  change (Q (Initialize m)).
  unfold Initialize. rewrite (bind_eq_Returns _ _ _ _ _ H1). cbn [negb].
  apply (proceeds_step _ (fun a => a)); [apply proceeds_checked|exact HT|]. intros w2.
  erewrite (bind_eq_Returns throughDevice _ _ tt _);
    [|unfold throughDevice, readUB; cbn [app]; rewrite Hdev; reflexivity].
  apply (proceeds_step _ _ _ _ _ _ (proceeds_modifyApp _) HT). intros w3.
  apply (proceeds_step _ _ _ _ _ _ LoadTextures_proceeds HT). intros w4.
  apply (proceeds_step _ _ _ _ _ _ BuildRootSignature_proceeds HT). intros w5.
  apply (proceeds_step _ _ _ _ _ _ (proceeds_checked _ _ _) HT). intros w6.
  apply (proceeds_step _ _ _ _ _ _ BuildShadersAndInputLayout_proceeds HT). intros w7.
  apply (proceeds_step _ _ _ _ _ _ BuildShapeGeometry_proceeds HT). intros w8.
  apply (proceeds_step _ _ _ _ _ _ (proceeds_modifyApp _) HT). intros w9.
  erewrite (bind_eq_Returns (liftUB _) _ _ tt _);
    [|apply (liftUB_mk _ _ _ r); unfold placeCamera in Hr; rewrite Hr; reflexivity].
  apply (proceeds_step _ _ _ _ _ _ BuildFrameResources_proceeds HT). intros w11.
  apply (proceeds_step _ _ _ _ _ _ (proceeds_checked _ _ _) HT). intros w12.
  apply (proceeds_step _ _ _ _ _ _ (proceeds_checked _ _ _) HT). intros w13.
  erewrite (bind_eq_Returns (logEvent _) _ _ tt _); [|apply logEvent_mk].
  right. exists s. eexists. split; [exact Hs|]. split; [exact Hwf|].
  split; [|rewrite Es; reflexivity].
  apply last_snoc.
Qed.

(** ** Failures during initialisation *)

Lemma checked_failedCall name x line m e m' :
  checked name x line m = Throws e m' -> failedCall e m'.
Proof. intros [Hf Hl]%checked_thrownAtFailure. split; [done|]. by left. Qed.

Lemma call_thrownByHelper h m e m' :
  isHelper h -> call h m = Throws e m' -> thrownByHelper e m'.
Proof.
  intros Hh. unfold call. destruct (h (world m)) as [w|[e0 w]] eqn:E; [done|].
  intros [= <- <-]. by exists h, (world m).
Qed.

Lemma modifyApp_not_Throws f m e m' : modifyApp f m ≠ Throws e m'.
Proof. done. Qed.

Ltac throws_step H :=
  apply bind_Throws in H as [H|(? & ? & _ & H)];
  [first [by apply modifyApp_not_Throws in H
         |right; eapply checked_failedCall; exact H
         |left; eapply call_thrownByHelper; [|exact H];
          solve [unfold isHelper; eauto 10]]|].

Lemma LoadTextures_Throws m e m' :
  LoadTextures m = Throws e m' -> thrownByHelper e m' \/ failedCall e m'.
Proof.
  unfold LoadTextures. intros H. throws_step H. throws_step H. throws_step H.
  right. by eapply checked_failedCall.
Qed.

Lemma BuildRootSignature_Throws m e m' :
  BuildRootSignature m = Throws e m' -> thrownByHelper e m' \/ failedCall e m'.
Proof.
  unfold BuildRootSignature. intros H. right.
  apply bind_Throws in H as [H|(hr & m1 & H1 & H)]; [done|].
  unfold api in H1. injection H1 as <- <-.
  apply bind_Throws in H as [H|(? & m2 & H2 & H)].
  { unfold reportErrorBlob in H. by destruct (errorBlob _). }
  apply bind_Throws in H as [H|(? & ? & _ & H)]; [|by eapply checked_failedCall].
  unfold ThrowIfFailed in H. destruct (FAILED _) eqn:Hf; [|done].
  injection H as <- <-. split; [done|]. cbn [ErrorCode].
  unfold reportErrorBlob in H2. cbn [world] in H2.
  destruct (errorBlob _) as [text|].
  - right. unfold logEvent in H2. injection H2 as _ <-. cbn [world app log trace called].
    eexists _, text. rewrite <- app_assoc. reflexivity.
  - left. injection H2 as _ <-. cbn [world log trace called]. eexists. apply last_snoc.
Qed.

Lemma BuildShadersAndInputLayout_Throws m e m' :
  BuildShadersAndInputLayout m = Throws e m' -> thrownByHelper e m' \/ failedCall e m'.
Proof.
  unfold BuildShadersAndInputLayout. intros H. throws_step H.
  left. eapply call_thrownByHelper; [|exact H]. unfold isHelper. eauto 10.
Qed.

Lemma BuildShapeGeometry_Throws m e m' :
  BuildShapeGeometry m = Throws e m' -> thrownByHelper e m' \/ failedCall e m'.
Proof.
  unfold BuildShapeGeometry. cbv zeta. intros H.
  throws_step H. throws_step H. throws_step H. throws_step H.
  by apply modifyApp_not_Throws in H.
Qed.

Lemma BuildFrameResources_Throws m e m' :
  BuildFrameResources m = Throws e m' -> thrownByHelper e m' \/ failedCall e m'.
Proof.
  unfold BuildFrameResources. change (Z.to_nat gNumFrameResources) with 3%nat.
  cbn [BuildFrameResources_loop]. intros H.
  apply bind_Throws in H as [H|(? & ? & _ & H)]; [discriminate H|].
  throws_step H. throws_step H.
  apply bind_Throws in H as [H|(? & ? & _ & H)]; [discriminate H|].
  throws_step H. throws_step H.
  apply bind_Throws in H as [H|(? & ? & _ & H)]; [discriminate H|].
  throws_step H. throws_step H.
  discriminate H.
Qed.

(** X4: an exception that leaves [Initialize] comes from
    [D3DApp::Initialize], from the final [FlushCommandQueue], from one of the
    helpers ([d3dUtil::CompileShader], [d3dUtil::CreateDefaultBuffer], the
    constructor of [FrameResource]), or from a [ThrowIfFailed] of
    [Initialize] itself and the functions of this file that it calls.  In the
    last case it carries the failure code of the API call that has just
    returned: nothing was attempted after that call, except that the error
    blob of [D3D12SerializeRootSignature], when there is one, has been sent
    to the debugger. *)
Theorem Initialize_throws_at_the_failed_call m e m' :
  Initialize m = Throws e m' ->
  D3DApp_Initialize m = Throws e m' \/
  (exists mf, FlushCommandQueue mf = Throws e m') \/
  thrownByHelper e m' \/
  failedCall e m'.
Proof.
  unfold Initialize. intros H.
  apply bind_Throws in H as [H|(ok & m1 & H1 & H)]; [by left|].
  right. destruct ok; cbn [negb] in H; [|discriminate H].
  apply bind_Throws in H as [H|(? & ? & _ & H)];
    [right; right; by eapply checked_failedCall|].
  apply bind_Throws in H as [H|(? & ? & _ & H)]; [unfold throughDevice in H; by apply readUB_not_Throws in H|].
  apply bind_Throws in H as [H|(? & ? & _ & H)]; [by apply modifyApp_not_Throws in H|].
  apply bind_Throws in H as [H|(? & ? & _ & H)]; [right; by eapply LoadTextures_Throws|].
  apply bind_Throws in H as [H|(? & ? & _ & H)]; [right; by eapply BuildRootSignature_Throws|].
  apply bind_Throws in H as [H|(? & ? & _ & H)];
    [right; right; by eapply checked_failedCall|].
  apply bind_Throws in H as [H|(? & ? & _ & H)];
    [right; by eapply BuildShadersAndInputLayout_Throws|].
  apply bind_Throws in H as [H|(? & ? & _ & H)]; [right; by eapply BuildShapeGeometry_Throws|].
  apply bind_Throws in H as [H|(? & ? & _ & H)]; [by apply modifyApp_not_Throws in H|].
  apply bind_Throws in H as [H|(? & ? & _ & H)]; [by apply liftUB_not_Throws in H|].
  apply bind_Throws in H as [H|(? & ? & _ & H)]; [right; by eapply BuildFrameResources_Throws|].
  apply bind_Throws in H as [H|(? & ? & _ & H)];
    [right; right; by eapply checked_failedCall|].
  apply bind_Throws in H as [H|(? & ? & _ & H)];
    [right; right; by eapply checked_failedCall|].
  apply bind_Throws in H as [H|(? & ? & _ & H)]; [discriminate H|].
  apply bind_Throws in H as [H|(? & ? & _ & H)]; [left; by eexists|].
  discriminate H.
Qed.

(** ** The first frames *)

(** An update whose slot has never been submitted does not look at the
    fence. *)
Lemma Update_free_slot fuel gt m j :
  0 <= mCurrFrameResourceIndex (app m) < gNumFrameResources ->
  Z.of_nat j = nextFrameResourceIndex gNumFrameResources (mCurrFrameResourceIndex (app m)) ->
  FenceAt (app m) j = Some 0 ->
  (forall m', Update fuel gt m ≠ Blocked m') /\
  (forall e m', Update fuel gt m ≠ Throws e m') /\
  (forall m', Update fuel gt m = Returns tt m' -> world m' = world m).
Proof.
  intros Hidx Hj HF.
  unfold FenceAt in HF. destruct (mFrameResources (app m) !! j) as [fr|] eqn:Hfr; [|done].
  injection HF as HF.
  assert (Hlt : (j < length (mFrameResources (app m)))%nat) by (by eapply lookup_lt_Some).
  assert (Hc : cycleFrameResource (afterInput gt (app m))
               = Some (set_mCurrFrameResource (Some j)
                         (set_mCurrFrameResourceIndex (Z.of_nat j) (afterInput gt (app m))))).
  { unfold cycleFrameResource.
    change (mCurrFrameResourceIndex (afterInput gt (app m)))
      with (mCurrFrameResourceIndex (app m)).
    change (mFrameResources (afterInput gt (app m))) with (mFrameResources (app m)).
    pose proof (nextFrameResourceIndex_nat j _ Hj) as Hj3.
    rewrite decide_True by (unfold gNumFrameResources in Hidx; lia).
    cbv zeta. rewrite <- Hj, Nat2Z.id. rewrite decide_True by lia. done. }
  set (a1 := set_mCurrFrameResource _ _) in Hc.
  assert (Hcur : currFrameResource a1 = Some fr) by exact Hfr.
  assert (Hw : waitForFrameResource fuel (mkMachine a1 (world m))
               = Returns tt (mkMachine a1 (world m))).
  { rewrite (waitForFrameResource_eq fuel (mkMachine a1 (world m)) fr Hcur). cbv zeta. by rewrite decide_True. }
  destruct (Update_after_wait fuel gt m a1 Hc) as (HR & HT & HB & _).
  split_and!.
  - intros m' H. apply HB in H. by rewrite Hw in H.
  - intros e m' H. apply HT in H. by rewrite Hw in H.
  - intros m' H. apply HR in H. rewrite Hw in H. by injection H.
Qed.

(** X5: with three frame resources none of which has been submitted (every
    [Fence] is 0, as [BuildFrameResources] leaves them), the first three
    updates never wait: each selects a slot whose [Fence] is still 0, so it
    does not read the fence, arms no event and returns with the world
    untouched.  (The fourth update is the first that can wait.) *)
Theorem first_three_updates_never_wait fuel1 gt1 fuel2 gt2 (m0 m1 m1' m2 m2' : Machine) :
  0 <= mCurrFrameResourceIndex (app m0) < gNumFrameResources ->
  length (mFrameResources (app m0)) = Z.to_nat gNumFrameResources ->
  Forall (fun fr => Fence fr = 0) (mFrameResources (app m0)) ->
  Update fuel1 gt1 m0 = Returns tt m1 -> Draw gt1 m1 = Returns tt m1' ->
  Update fuel2 gt2 m1' = Returns tt m2 -> Draw gt2 m2 = Returns tt m2' ->
  updatesAtOnce m0 /\ updatesAtOnce m1' /\ updatesAtOnce m2' /\
  world m1 = world m0 /\ world m2 = world m1'.
Proof.
  intros Hidx Hlen Hall U1 D1 U2 D2.
  assert (H0 : forall k, (k < 3)%nat -> FenceAt (app m0) k = Some 0).
  { intros k Hk. unfold FenceAt.
    destruct (lookup_lt_is_Some_2 (mFrameResources (app m0)) k) as [fr Hfr];
      [rewrite Hlen; unfold gNumFrameResources; lia|].
    rewrite Hfr. simpl. f_equal. rewrite Forall_forall in Hall. apply Hall.
    by eapply list_elem_of_lookup_2. }
  destruct (Update_fences _ _ _ _ U1) as (j1 & Hc1 & Hj1 & Hi1 & _ & Hl1 & HF1).
  destruct (Draw_fences _ _ _ D1) as (j1' & hr1 & Hd1 & _ & Hi1' & _ & _ & HF1' & Hl1' & _).
  rewrite Hc1 in Hd1. injection Hd1 as <-.
  destruct (Update_fences _ _ _ _ U2) as (j2 & Hc2 & Hj2 & Hi2 & _ & Hl2 & HF2).
  destruct (Draw_fences _ _ _ D2) as (j2' & hr2 & Hd2 & _ & Hi2' & _ & _ & HF2' & Hl2' & _).
  rewrite Hc2 in Hd2. injection Hd2 as <-.
  pose proof (nextFrameResourceIndex_nat _ _ Hj1) as Hj1lt.
  rewrite Hi1', Hi1 in Hj2.
  pose proof (nextFrameResourceIndex_succ j1 j2 Hj1lt Hj2) as Hs12.
  assert (Hj2lt : (j2 < 3)%nat) by lia.
  assert (A0 : updatesAtOnce m0).
  { intros fuel gt. apply (Update_free_slot fuel gt m0 j1); [done|done|by apply H0]. }
  assert (A1 : updatesAtOnce m1').
  { intros fuel gt. apply (Update_free_slot fuel gt m1' j2).
    - rewrite Hi1', Hi1. unfold gNumFrameResources. lia.
    - by rewrite Hi1', Hi1.
    - rewrite HF1' by lia. rewrite HF1. by apply H0. }
  assert (Hi2n : mCurrFrameResourceIndex (app m2') = Z.of_nat j2) by (by rewrite Hi2', Hi2).
  assert (A2 : updatesAtOnce m2').
  { intros fuel gt.
    set (j3 := Z.to_nat (nextFrameResourceIndex gNumFrameResources (Z.of_nat j2))).
    assert (Hj3 : Z.of_nat j3 = nextFrameResourceIndex gNumFrameResources (Z.of_nat j2)).
    { unfold j3. rewrite Z2Nat.id; [done|].
      apply nextFrameResourceIndex_range; [done|lia]. }
    pose proof (nextFrameResourceIndex_succ j2 j3 Hj2lt Hj3) as Hs23.
    apply (Update_free_slot fuel gt m2' j3).
    - rewrite Hi2n. unfold gNumFrameResources. lia.
    - by rewrite Hi2n.
    - rewrite HF2' by lia. rewrite HF2. rewrite HF1' by lia. rewrite HF1.
      apply H0. lia. }
  split_and!; try done.
  - by apply (A0 fuel1 gt1).
  - by apply (A1 fuel2 gt2).
Qed.

(** ** Dirty counts *)

Lemma tickItem_count e :
  RenderItem.NumFramesDirty (tickItem e) = countDown (RenderItem.NumFramesDirty e).
Proof. unfold tickItem, countDown. by case_decide. Qed.

Lemma UpdateObjectCBs_loop_clean mats items cb r :
  UpdateObjectCBs_loop mats items cb = Some r ->
  Forall (fun e => RenderItem.NumFramesDirty e <= 0) items ->
  r = (items, cb).
Proof.
  revert cb r. induction items as [|e items IH]; intros cb r; simpl.
  - by intros [= <-].
  - intros Hr Hc. apply Forall_cons in Hc as [He Hc].
    rewrite decide_False in Hr by lia.
    destruct (UpdateObjectCBs_loop mats items cb) as [r'|] eqn:Hr'; [|done].
    simpl in Hr. injection Hr as <-. by rewrite (IH cb r' Hr' Hc).
Qed.

Lemma UpdateMaterialBuffer_loop_clean keys mats buf r :
  UpdateMaterialBuffer_loop keys mats buf = Some r ->
  map_Forall (fun _ entry =>
                match entry with
                | Some mat => Material.NumFramesDirty mat <= 0
                | None => True
                end) mats ->
  r = (mats, buf).
Proof.
  revert buf r. induction keys as [|k keys IH]; intros buf r; simpl.
  - by intros [= <-].
  - intros Hr Hc. destruct (mats !! k) as [[mat|]|] eqn:Hk; simpl in Hr; try done.
    pose proof (Hc k _ Hk) as Hm. simpl in Hm.
    rewrite decide_False in Hr by lia. by apply IH.
Qed.

(** X6: an update that returns has counted every positive dirty count of a
    render item down by exactly one and left the others; no material's count
    has grown, and nothing else of a material has changed.  When no item and
    no material is dirty, the update leaves the items, the materials, and the
    per-object and per-material buffers and fences of every frame resource as
    they were: the only thing it writes is the pass buffer of the slot it
    selects. *)
Theorem Update_counts_down_and_settles fuel gt m m' :
  Update fuel gt m = Returns tt m' ->
  (forall p, dirtyCount (app m') p = countDown <$> dirtyCount (app m) p) /\
  materialsAgree (mMaterials (app m)) (mMaterials (app m')) /\
  (allClean (app m) ->
   allClean (app m') /\
   mAllRitems (app m') = mAllRitems (app m) /\
   mMaterials (app m') = mMaterials (app m) /\
   length (mFrameResources (app m')) = length (mFrameResources (app m)) /\
   forall k fr', mFrameResources (app m') !! k = Some fr' ->
     exists fr, mFrameResources (app m) !! k = Some fr /\
                ObjectCB fr' = ObjectCB fr /\ MaterialBuffer fr' = MaterialBuffer fr /\
                Fence fr' = Fence fr /\
                (mCurrFrameResource (app m') ≠ Some k -> fr' = fr)).
Proof.
  intros H. apply Update_effect in H. cbv zeta in H.
  destruct H as (fr & fr' & Hi0 & Hidx' & Hcur & Hfr & Hfrs & HFence & Hitems & Ho & Hm & HP & _).
  split_and!.
  - intros p. unfold dirtyCount. rewrite Hitems, list_lookup_map.
    destruct (mAllRitems (app m) !! p) as [e|]; [|done]. simpl. by rewrite tickItem_count.
  - by apply UpdateMaterialBuffer_loop_agree in Hm.
  - intros [Hci Hcm].
    apply UpdateObjectCBs_loop_clean in Ho; [|done]. injection Ho as Ho1 Ho2.
    apply UpdateMaterialBuffer_loop_clean in Hm; [|done]. injection Hm as Hm1 Hm2.
    assert (Hlt : (Z.to_nat (nextFrameResourceIndex gNumFrameResources
                              (mCurrFrameResourceIndex (app m)))
                   < length (mFrameResources (app m)))%nat) by (by eapply lookup_lt_Some).
    unfold allClean. rewrite Hitems, Ho1, Hm1. split_and!; try done.
    + by rewrite Hfrs, length_insert.
    + intros k fr2 Hk. rewrite Hfrs in Hk.
      destruct (decide (k = Z.to_nat (nextFrameResourceIndex gNumFrameResources
                                        (mCurrFrameResourceIndex (app m))))) as [->|Hne].
      * rewrite list_lookup_insert_eq in Hk by done. injection Hk as <-.
        exists fr. split_and!; try done.
      * rewrite list_lookup_insert_ne in Hk by done. exists fr2. by split_and!.
Qed.

(** ** Drawing *)

Lemma mapM_app_option {A B} (f : A -> option B) (l1 l2 : list A) :
  mapM f (l1 ++ l2) = d1 ← mapM f l1; d2 ← mapM f l2; Some (d1 ++ d2).
Proof.
  induction l1 as [|x l1 IH]; simpl.
  - by destruct (mapM f l2).
  - destruct (f x) as [y|]; simpl; [|done]. rewrite IH.
    destruct (mapM f l1) as [d1|]; simpl; [|done].
    by destruct (mapM f l2).
Qed.

(** X7: [DrawRenderItems] is defined exactly when there is a current frame
    resource and every listed position is an item with its geometry; it then
    records one draw for each listed position, in the order of the list, with
    the arguments stored in that item and the address [ObjCBIndex *
    objCBByteSize] (in [UINT]); drawing two lists one after the other is
    drawing their concatenation. *)
Theorem DrawRenderItems_one_draw_per_item a ritems :
  (is_Some (DrawRenderItems a ritems) <->
   is_Some (currFrameResource a) /\ Forall (fun p => drawable a p = true) ritems) /\
  (forall draws, DrawRenderItems a ritems = Some draws ->
     Forall2 (fun p d =>
                exists ri, mAllRitems a !! p = Some ri /\
                  d = mkDrawCall (Int.UINT (RenderItem.ObjCBIndex ri * Int.UINT objCBByteSize))
                                 (RenderItem.IndexCount ri)
                                 (RenderItem.StartIndexLocation ri)
                                 (RenderItem.BaseVertexLocation ri))
             ritems draws) /\
  (forall l1 l2,
     ritems = l1 ++ l2 ->
     DrawRenderItems a ritems
     = d1 ← DrawRenderItems a l1; d2 ← DrawRenderItems a l2; Some (d1 ++ d2)).
Proof.
  split_and!.
  - split.
    + intros [draws H]. unfold DrawRenderItems in H.
      destruct (currFrameResource a) as [fr|]; simpl in H; [|done].
      split; [eauto|].
      assert (Hs : is_Some (mapM (fun p =>
                      ri ← mAllRitems a !! p;
                      g ← RenderItem.Geo ri;
                      entry ← mGeometries a !! g;
                      _ ← (entry : option MeshGeometry.t);
                      Some (mkDrawCall
                              (Int.UINT (RenderItem.ObjCBIndex ri * Int.UINT objCBByteSize))
                              (RenderItem.IndexCount ri)
                              (RenderItem.StartIndexLocation ri)
                              (RenderItem.BaseVertexLocation ri))) ritems)) by eauto.
      apply mapM_is_Some_1 in Hs. eapply Forall_impl; [exact Hs|].
      intros p [d Hp]. simpl in Hp. unfold drawable.
      destruct (mAllRitems a !! p) as [ri|]; simpl in Hp; [|done].
      destruct (RenderItem.Geo ri) as [g|]; simpl in Hp; [|done].
      by destruct (mGeometries a !! g) as [[geo|]|].
    + intros [Hc Hd]. by apply DrawRenderItems_is_Some.
  - intros draws H. unfold DrawRenderItems in H.
    destruct (currFrameResource a) as [fr|]; simpl in H; [|done].
    apply mapM_Some_1 in H. eapply Forall2_impl; [exact H|].
    intros p d Hp. simpl in Hp.
    destruct (mAllRitems a !! p) as [ri|]; simpl in Hp; [|done].
    destruct (RenderItem.Geo ri) as [g|]; simpl in Hp; [|done].
    destruct (mGeometries a !! g) as [[geo|]|]; simpl in Hp; try done.
    injection Hp as <-. eauto.
  - intros l1 l2 ->. unfold DrawRenderItems.
    destruct (currFrameResource a) as [fr|]; simpl; [|done].
    apply mapM_app_option.
Qed.
(** ** The draws stay inside the geometry buffers *)

(** As [abstract_geometry], for goals that keep the geometry itself: the
    byte sizes are made symbolic before the arrays they are computed from. *)
Ltac abstract_geometry_sizes :=
  cbv beta zeta delta [buildScene shapeGeo];
  repeat match goal with
  | |- context [SubmeshGeometry.mk ?a ?b ?c] =>
      let x := fresh "submesh" in generalize (SubmeshGeometry.mk a b c); intro x
  end;
  match goal with
  | |- context [MeshGeometry.mk ?n ?v ?i ?s ?vb ?ib ?d] =>
      let vs := fresh "vertices" in let is_ := fresh "indices" in
      let vbs := fresh "vb" in let ibs := fresh "ib" in
      generalize vb; intro vbs; generalize ib; intro ibs;
      generalize v; intro vs; generalize i; intro is_
  end.

Lemma scene_geometry pc cam fence bb dev :
  (fun s => (mGeometries s !! "shapeGeo",
             map RenderItem.Geo (mAllRitems s)))
    <$> buildScene (mkApp [] None 0 ∅ ∅ [] [] pc cam fence bb dev)
  = Some (Some (Some shapeGeo), replicate 50 (Some "shapeGeo")).
Proof. abstract_geometry_sizes. vm_compute. reflexivity. Qed.

Lemma scene_draw_args pc cam fence bb dev :
  (fun s => map itemArgs (mAllRitems s))
    <$> buildScene (mkApp [] None 0 ∅ ∅ [] [] pc cam fence bb dev)
  = Some (map (fun name => match MeshGeometry.DrawArgs shapeGeo !! name with
                           | Some sm => submeshArgs sm
                           | None => (0, 0, 0)
                           end) itemShapes).
Proof. scene_compute. Qed.

Lemma shapes_names :
  map fst shapes
  = ["box"; "grid"; "sphere"; "cylinder"; "diamond"; "wedge"; "octahedron";
     "triangularPrism"; "hexagon"; "octagon"; "cone"; "pyramid"; "container"; "star"].
Proof. reflexivity. Qed.

Lemma itemShapes_known : Forall (fun name => name ∈ map fst shapes) itemShapes.
Proof.
  rewrite shapes_names. unfold itemShapes.
  repeat (apply Forall_cons; split; [set_solver|]). apply Forall_nil_2.
Qed.

Lemma length_concat_sum {A} (ls : list (list A)) :
  length (concat ls) = sum_list (map length ls).
Proof. induction ls as [|l ls IH]; simpl; [done|]. by rewrite length_app, IH. Qed.

(** The draw arguments of the [k]-th mesh address only its own part of the
    two buffers. *)
Lemma mesh_drawInBounds (k : nat) name mesh e :
  Z.of_nat (verticesBefore (length shapes)) < 2 ^ 31 ->
  Z.of_nat (indicesBefore (length shapes)) < 2 ^ 32 ->
  (forall idx, idx ∈ GeometryGenerator.Indices32 mesh ->
     0 <= idx < Z.of_nat (length (GeometryGenerator.Vertices mesh))) ->
  shapes !! k = Some (name, mesh) ->
  itemArgs e = (Z.of_nat (length (GeometryGenerator.Indices32 mesh)),
                Z.of_nat (indicesBefore k), Z.of_nat (verticesBefore k)) ->
  drawInBounds shapeGeo e.
Proof.
  intros Hv Hi Hwf Hk [= HC HS HB]. unfold drawInBounds. rewrite HC, HS, HB.
  assert (HkI : map (fun s : string * GeometryGenerator.MeshData =>
                       length (GeometryGenerator.Indices32 s.2)) shapes !! k
                = Some (length (GeometryGenerator.Indices32 mesh)))
    by (by rewrite list_lookup_map, Hk).
  assert (HkV : map (fun s : string * GeometryGenerator.MeshData =>
                       length (GeometryGenerator.Vertices s.2)) shapes !! k
                = Some (length (GeometryGenerator.Vertices mesh)))
    by (by rewrite list_lookup_map, Hk).
  pose proof (sum_list_take_total _ _ _ HkI) as HtI.
  pose proof (sum_list_take_total _ _ _ HkV) as HtV.
  fold (indicesBefore k) in HtI. fold (verticesBefore k) in HtV.
  split; [lia|]. split.
  - rewrite shapeGeo_indices, length_concat_sum, shapes_index_lengths. lia.
  - intros i Hlt.
    assert (is_Some (GeometryGenerator.Indices32 mesh !! i)) as [idx Hidx]
      by (apply lookup_lt_is_Some; lia).
    exists (Int.uint16 idx). split.
    + rewrite shapeGeo_indices, Nat2Z.id. unfold indicesBefore.
      rewrite <- shapes_index_lengths.
      rewrite (lookup_concat_prefix _ k (GeometryGenerator.GetIndices16 mesh)).
      * unfold GeometryGenerator.GetIndices16. by rewrite list_lookup_map, Hidx.
      * by rewrite list_lookup_map, Hk.
      * unfold GeometryGenerator.GetIndices16. rewrite length_map.
        by eapply lookup_lt_Some.
    + pose proof (Hwf idx ltac:(by eapply list_elem_of_lookup_2)) as Hrange.
      assert (0 <= Int.uint16 idx <= idx).
      { unfold Int.uint16. split; [apply Z.mod_pos_bound; lia|apply Z.mod_le; lia]. }
      rewrite shapeGeo_vertices, length_concat_sum, shapes_vertex_lengths. lia.
Qed.

(** X8: from the members as the constructor leaves them,
    [BuildShapeGeometry] and [BuildRenderItems] leave a scene of fifty render
    items in which every item points to the one geometry "shapeGeo" and draws
    with arguments that stay inside its index buffer and, through the indices
    read, inside its vertex buffer.  The meshes must be well formed and the
    totals must fit [INT] and [UINT], as for the packing itself. *)
Theorem draws_stay_inside_geometry a :
  freshApp a ->
  Z.of_nat (verticesBefore (length shapes)) < 2 ^ 31 ->
  Z.of_nat (indicesBefore (length shapes)) < 2 ^ 32 ->
  (forall name mesh idx,
     (name, mesh) ∈ shapes -> idx ∈ GeometryGenerator.Indices32 mesh ->
     0 <= idx < Z.of_nat (length (GeometryGenerator.Vertices mesh))) ->
  exists s,
    buildScene a = Some s /\
    mGeometries s !! "shapeGeo" = Some (Some shapeGeo) /\
    length (mAllRitems s) = 50%nat /\
    Forall (fun e => RenderItem.Geo e = Some "shapeGeo" /\ drawInBounds shapeGeo e)
           (mAllRitems s).
Proof.
  destruct a as [frs cur idx geos mats items opaque pc cam fence bb dev].
  unfold freshApp. cbn [mFrameResources mCurrFrameResource mCurrFrameResourceIndex
    mGeometries mMaterials mAllRitems mOpaqueRitems].
  intros (-> & -> & -> & -> & -> & -> & ->) Hv Hi Hwf.
  pose proof (scene_geometry pc cam fence bb dev) as HG.
  pose proof (scene_draw_args pc cam fence bb dev) as HA.
  destruct (buildScene _) as [s|]; [|discriminate HG]. exists s.
  split; [reflexivity|].
  apply (inj Some) in HG. apply (inj Some) in HA.
  apply pair_equal_spec in HG as [HG1 HG2].
  split; [exact HG1|].
  assert (Hlen : length (mAllRitems s) = 50%nat).
  { rewrite <- (length_map RenderItem.Geo), HG2. apply length_replicate. }
  split; [exact Hlen|].
  apply Forall_lookup_2. intros i e He. split.
  - assert (E : map RenderItem.Geo (mAllRitems s) !! i = Some (RenderItem.Geo e))
      by (by rewrite list_lookup_map, He).
    rewrite HG2 in E. apply lookup_replicate in E as [E _]. by symmetry.
  - assert (E : map itemArgs (mAllRitems s) !! i = Some (itemArgs e))
      by (by rewrite list_lookup_map, He).
    rewrite HA, list_lookup_map in E.
    destruct (itemShapes !! i) as [name|] eqn:Hname; [|discriminate E].
    apply (inj Some) in E.
    pose proof (Forall_lookup_1 _ _ i name itemShapes_known Hname) as Hin.
    apply (list_elem_of_fmap_1 fst) in Hin as ([name' mesh] & Hn & Hin).
    simpl in Hn. subst name'.
    apply list_elem_of_lookup_1 in Hin as [k Hk].
    rewrite (shapeGeo_layout k name mesh Hv Hi Hk) in E.
    apply (mesh_drawInBounds k name mesh); try done.
    intros idx' Hidx'. apply (Hwf name mesh); [by eapply list_elem_of_lookup_2|done].
Qed.
(** ** What an update does to the materials *)

Lemma UpdateMaterialBuffer_loop_frame_keys keys mats buf r (s : nat) :
  UpdateMaterialBuffer_loop keys mats buf = Some r ->
  (forall k mat, k ∈ keys -> mats !! k = Some (Some mat) -> Material.NumFramesDirty mat > 0 ->
                 Material.MatCBIndex mat ≠ Z.of_nat s) ->
  r.2 !! s = buf !! s.
Proof.
  revert mats buf r. induction keys as [|k keys IH]; intros mats buf r; simpl.
  - intros [= <-]. done.
  - intros Hr Hs. destruct (mats !! k) as [[mat|]|] eqn:Hk; simpl in Hr; try done.
    case_decide.
    + simplify_option_eq.
      match goal with H : UploadBuffer.CopyData _ _ _ = Some _ |- _ =>
        apply CopyData_Some in H as [Hrange ->] end.
      erewrite IH; [|eassumption|].
      * apply list_lookup_insert_ne. specialize (Hs k mat ltac:(left) Hk). lia.
      * intros k' mat' Hin Hk' Hd'.
        pose proof (materialsAgree_tick mats k mat Hk ltac:(done) k') as Hag.
        rewrite Hk' in Hag. destruct (mats !! k') as [[m0|]|] eqn:Hm0; try done.
        destruct Hag as [Hsame Hle].
        assert (Material.MatCBIndex mat' = Material.MatCBIndex m0) as ->
          by (unfold sameMaterial in Hsame; by injection Hsame).
        apply (Hs k' m0); [by right|done|lia].
    + eapply IH; [eassumption|]. intros k' mat' Hin. apply Hs. by right.
Qed.

(** Every key of the list is visited once: its material is counted down
    once, the others are left. *)
Lemma UpdateMaterialBuffer_loop_ticks keys mats buf r k mat :
  NoDup keys ->
  UpdateMaterialBuffer_loop keys mats buf = Some r ->
  mats !! k = Some (Some mat) ->
  r.1 !! k = Some (Some (if decide (k ∈ keys) then tickMaterial mat else mat)).
Proof.
  revert mats buf r mat. induction keys as [|k0 keys IH]; intros mats buf r mat Hnd;
    cbn [UpdateMaterialBuffer_loop].
  - intros [= <-] Hk. rewrite decide_False by apply not_elem_of_nil. done.
  - apply NoDup_cons in Hnd as [Hnotin Hnd].
    intros Hr Hk. destruct (mats !! k0) as [[mat0|]|] eqn:Hk0; simpl in Hr; try done.
    destruct (decide (Material.NumFramesDirty mat0 > 0)) as [Hd|Hd].
    + destruct (UploadBuffer.CopyData _ _ _) as [buf1|]; simpl in Hr; [|done].
      destruct (decide (k = k0)) as [->|Hne].
      * rewrite (IH _ _ _
                   (Material.set_NumFramesDirty (Material.NumFramesDirty mat0 - 1) mat0)
                   Hnd Hr)
          by apply lookup_insert_eq.
        rewrite decide_False by done. rewrite decide_True by left.
        rewrite Hk0 in Hk. injection Hk as <-.
        unfold tickMaterial. by rewrite decide_True.
      * rewrite (IH _ _ _ mat Hnd Hr) by (by rewrite lookup_insert_ne).
        destruct (decide (k ∈ keys)) as [Hin|Hin].
        -- by rewrite decide_True by (by right).
        -- rewrite decide_False; [done|]. intros [?|?]%elem_of_cons; done.
    + rewrite (IH _ _ _ mat Hnd Hr Hk).
      destruct (decide (k = k0)) as [->|Hne].
      * rewrite decide_False by done. rewrite decide_True by left.
        rewrite Hk0 in Hk. injection Hk as <-.
        unfold tickMaterial. by rewrite decide_False.
      * destruct (decide (k ∈ keys)) as [Hin|Hin].
        -- by rewrite decide_True by (by right).
        -- rewrite decide_False; [done|]. intros [?|?]%elem_of_cons; done.
Qed.

(** The element of a dirty material holds its data when the loop is over,
    unless another dirty material of the list has the same element. *)
Lemma UpdateMaterialBuffer_loop_writes keys mats buf r k mat :
  NoDup keys ->
  UpdateMaterialBuffer_loop keys mats buf = Some r ->
  k ∈ keys ->
  mats !! k = Some (Some mat) ->
  Material.NumFramesDirty mat > 0 ->
  (forall k' mat', k' ∈ keys -> k' ≠ k -> mats !! k' = Some (Some mat') ->
                   Material.NumFramesDirty mat' > 0 ->
                   Material.MatCBIndex mat' ≠ Material.MatCBIndex mat) ->
  r.2 !! Z.to_nat (Material.MatCBIndex mat) = Some (Some (materialDataOf mat)).
Proof.
  revert mats buf r. induction keys as [|k0 keys IH]; intros mats buf r Hnd;
    cbn [UpdateMaterialBuffer_loop].
  - intros _ Hin. by apply elem_of_nil in Hin.
  - apply NoDup_cons in Hnd as [Hnotin Hnd].
    intros Hr Hin Hk Hdirty Hothers.
    destruct (mats !! k0) as [[mat0|]|] eqn:Hk0; simpl in Hr; try done.
    destruct (decide (Material.NumFramesDirty mat0 > 0)) as [Hd|Hd].
    + destruct (UploadBuffer.CopyData _ _ _) as [buf1|] eqn:Hcopy; simpl in Hr; [|done].
      apply CopyData_Some in Hcopy as [Hrange ->].
      destruct (decide (k = k0)) as [->|Hne].
      * rewrite Hk0 in Hk. injection Hk as <-.
        rewrite (UpdateMaterialBuffer_loop_frame_keys _ _ _ _ _ Hr).
        -- apply list_lookup_insert_eq. lia.
        -- intros k' mat' Hin' Hk' Hd'.
           assert (k' ≠ k0) by (intros ->; done).
           rewrite lookup_insert_ne in Hk' by done.
           rewrite Z2Nat.id by lia. apply (Hothers k' mat'); [by right|done..].
      * apply elem_of_cons in Hin as [?|Hin]; [done|].
        apply (IH _ _ _ Hnd Hr Hin); [by rewrite lookup_insert_ne|done|].
        intros k' mat' Hin' Hne' Hk' Hd'.
        assert (k' ≠ k0) by (intros ->; done).
        rewrite lookup_insert_ne in Hk' by done.
        apply (Hothers k' mat'); [by right|done..].
    + destruct (decide (k = k0)) as [->|Hne].
      * rewrite Hk0 in Hk. injection Hk as <-. done.
      * apply elem_of_cons in Hin as [?|Hin]; [done|].
        apply (IH _ _ _ Hnd Hr Hin Hk Hdirty).
        intros k' mat' Hin' Hne' Hk' Hd'. apply (Hothers k' mat'); [by right|done..].
Qed.

Lemma mMaterials_order_NoDup (mats : gmap string (option Material.t)) :
  NoDup (mMaterials_order mats).
Proof. rewrite mMaterials_order_perm. apply NoDup_fst_map_to_list. Qed.

Lemma mMaterials_order_elem (mats : gmap string (option Material.t)) k entry :
  mats !! k = Some entry -> k ∈ mMaterials_order mats.
Proof.
  intros Hk. rewrite mMaterials_order_perm.
  apply (list_elem_of_fmap_2 fst _ (k, entry)). by apply elem_of_map_to_list.
Qed.

(** X9: an update that returns has visited every material once, in whatever
    order the map enumerates them: a material whose dirty count is positive
    has it decreased by one and nothing else changed, a clean one is as it
    was; and the data of a dirty material is then in its element
    [MatCBIndex] of the material buffer of the frame resource the update
    selected, unless another dirty material has the same [MatCBIndex]. *)
Theorem Update_copies_each_dirty_material fuel gt m m' :
  Update fuel gt m = Returns tt m' ->
  exists j fr',
    mCurrFrameResource (app m') = Some j /\
    mFrameResources (app m') !! j = Some fr' /\
    forall k mat,
      mMaterials (app m) !! k = Some (Some mat) ->
      mMaterials (app m') !! k = Some (Some (tickMaterial mat)) /\
      (Material.NumFramesDirty mat > 0 ->
       (forall k' mat', k' ≠ k -> mMaterials (app m) !! k' = Some (Some mat') ->
                        Material.NumFramesDirty mat' > 0 ->
                        Material.MatCBIndex mat' ≠ Material.MatCBIndex mat) ->
       MaterialBuffer fr' !! Z.to_nat (Material.MatCBIndex mat)
       = Some (Some (materialDataOf mat))).
Proof.
  intros H. apply Update_effect in H. cbv zeta in H.
  destruct H as (fr & fr' & Hi & _ & Hcur & Hfr & Hfrs & _ & _ & _ & Hloop & _).
  eexists _, fr'. split; [exact Hcur|]. split.
  { rewrite Hfrs. apply list_lookup_insert_eq. by eapply lookup_lt_Some. }
  intros k mat Hk.
  pose proof (mMaterials_order_NoDup (mMaterials (app m))) as Hnd.
  pose proof (mMaterials_order_elem _ _ _ Hk) as Hin.
  split.
  - pose proof (UpdateMaterialBuffer_loop_ticks _ _ _ _ k mat Hnd Hloop Hk) as Ht.
    simpl in Ht. by rewrite decide_True in Ht.
  - intros Hd Hothers.
    apply (UpdateMaterialBuffer_loop_writes _ _ _ _ k mat Hnd Hloop Hin Hk Hd).
    intros k' mat' _ Hne Hk' Hd'. by apply (Hothers k' mat').
Qed.

(** ** The dirty counts run out *)

Lemma Update_dirtyAtMost fuel gt m m' c :
  0 <= c ->
  Update fuel gt m = Returns tt m' ->
  dirtyAtMost (c + 1) (app m) -> dirtyAtMost c (app m').
Proof.
  intros Hc H [Hitems Hmats]. apply Update_effect in H. cbv zeta in H.
  destruct H as (fr & fr' & _ & _ & _ & _ & _ & _ & Hi & _ & Hloop & _).
  split.
  - rewrite Hi. apply Forall_forall. intros e' Hin.
    apply (list_elem_of_fmap_1 tickItem) in Hin as (e & -> & Hin).
    rewrite Forall_forall in Hitems. specialize (Hitems e Hin). cbv beta in Hitems.
    rewrite tickItem_count. unfold countDown. case_decide; lia.
  - intros k entry' Hk'.
    pose proof (UpdateMaterialBuffer_loop_agree _ _ _ _ Hloop k) as Hag.
    cbn [fst] in Hag. rewrite Hk' in Hag.
    destruct (mMaterials (app m) !! k) as [[mat|]|] eqn:Hk; [|by destruct entry'..].
    pose proof (UpdateMaterialBuffer_loop_ticks _ _ _ _ k mat
                  (mMaterials_order_NoDup _) Hloop Hk) as Ht.
    cbn [fst] in Ht. rewrite decide_True in Ht by (by eapply mMaterials_order_elem).
    rewrite Hk' in Ht. injection Ht as ->.
    specialize (Hmats k _ Hk). cbv beta iota in Hmats.
    unfold tickMaterial. case_decide; simpl; lia.
Qed.

Lemma dirtyAtMostb_sound n a : dirtyAtMostb n a = true -> dirtyAtMost n a.
Proof.
  unfold dirtyAtMostb, dirtyAtMost. intros [Hi Hm]%andb_true_iff.
  apply Is_true_true, forallb_True in Hi, Hm. split.
  - eapply Forall_impl; [exact Hi|]. intros e He. by apply bool_decide_unpack in He.
  - apply map_Forall_to_list. eapply Forall_impl; [exact Hm|].
    intros [k [mat|]] Hp; cbn [snd] in Hp |- *; [|exact I].
    by apply bool_decide_unpack in Hp.
Qed.

Lemma dirtyAtMost_Draw gt m m' c :
  Draw gt m = Returns tt m' -> dirtyAtMost c (app m) -> dirtyAtMost c (app m').
Proof.
  intros H Hd. apply Draw_scene in H as (Hi & Hm & _). unfold dirtyAtMost.
  by rewrite Hi, Hm.
Qed.

Lemma frames_dirtyAtMost fuel gts m m' c :
  0 <= c ->
  frames fuel gts m = Returns tt m' ->
  dirtyAtMost (c + Z.of_nat (length gts)) (app m) -> dirtyAtMost c (app m').
Proof.
  intros Hc. revert m. induction gts as [|gt gts IH]; intros m; cbn [frames length].
  - intros [= <-]. by rewrite Z.add_0_r.
  - intros H Hd. apply bind_Returns in H as ([] & m2 & HF & H).
    unfold Frame in HF. apply bind_Returns in HF as ([] & m1 & HU & HD).
    apply (IH m2 H). apply (dirtyAtMost_Draw gt m1 m2 _ HD).
    apply (Update_dirtyAtMost fuel gt m m1); [lia|exact HU|].
    replace (c + Z.of_nat (length gts) + 1) with (c + Z.of_nat (S (length gts))) by lia.
    exact Hd.
Qed.

(** X10: the dirty counts run out.  When no dirty count of an item or a
    material exceeds the number of frames that follow (as after
    [Initialize], where every count is [gNumFrameResources] = 3, for three
    frames), the frames leave no item and no material dirty; and every
    later update that returns then leaves the items, the materials and the
    per-object and per-material buffers of all frame resources as they
    are. *)
Theorem frames_settle fuel gts m m' :
  frames fuel gts m = Returns tt m' ->
  dirtyAtMost (Z.of_nat (length gts)) (app m) ->
  allClean (app m') /\
  forall fuel' gt m'',
    Update fuel' gt m' = Returns tt m'' ->
    allClean (app m'') /\
    mAllRitems (app m'') = mAllRitems (app m') /\
    mMaterials (app m'') = mMaterials (app m') /\
    map ObjectCB (mFrameResources (app m'')) = map ObjectCB (mFrameResources (app m')) /\
    map MaterialBuffer (mFrameResources (app m''))
    = map MaterialBuffer (mFrameResources (app m')).
Proof.
  intros H Hd.
  assert (Hclean : allClean (app m')).
  { apply (frames_dirtyAtMost fuel gts m m' 0); [lia|exact H|exact Hd]. }
  split; [exact Hclean|].
  intros fuel' gt m'' HU. destruct Hclean as [Hitems Hmats].
  pose proof (Update_effect _ _ _ _ _ HU) as HE. cbv zeta in HE.
  destruct HE as (fr & fr' & _ & _ & _ & Hfr & Hfrs & _ & Hi & Hl1 & Hl2 & _).
  apply UpdateObjectCBs_loop_clean in Hl1; [|exact Hitems].
  apply UpdateMaterialBuffer_loop_clean in Hl2; [|exact Hmats].
  injection Hl1 as Hi' Ho. injection Hl2 as Hm Hb.
  assert (HI : mAllRitems (app m'') = mAllRitems (app m')) by (by rewrite Hi).
  split; [|split; [exact HI|split; [exact Hm|]]].
  - split; [by rewrite HI|by rewrite Hm].
  - rewrite Hfrs. split.
    + rewrite (map_insert_same ObjectCB _ _ fr fr'); done.
    + rewrite (map_insert_same MaterialBuffer _ _ fr fr'); done.
Qed.

End Proofs.

(** * The theorems at work on the concrete run *)

Section Witnesses.

#[local] Existing Instances plainPlatform triangleGenerator plainD3DApp plainHelpers.

Import Example.

Lemma C1_witness :
  cycleFrameResource (afterInput tt (app m3')) = Some a4 /\
  currFrameResource a4 = Some fr4 /\
  (Fence fr4 = 0 \/
   exists t, (clock (world m3') <= t < clock (world m4))%nat /\
             Fence fr4 <= fenceTimeline (world m3') t).
Proof.
  assert (H1 : cycleFrameResource (afterInput tt (app m3')) = Some a4)
    by (vm_compute; reflexivity).
  assert (H2 : currFrameResource a4 = Some fr4) by (vm_compute; reflexivity).
  assert (H3 : Update 4 tt m3' = Returns tt m4) by (vm_compute; reflexivity).
  split; [exact H1|]. split; [exact H2|].
  destruct (C1_update_waits_for_fence (platform := plainPlatform) 4 tt m3' a4 fr4 H1 H2) as (Hret & _).
  exact (proj1 (Hret m4 H3)).
Defined.

Lemma C2_witness :
  mAllRitems (app m0) !! 0%nat = Some e0 /\
  RenderItem.NumFramesDirty e0 = gNumFrameResources /\
  length (mFrameResources (app m0)) = Z.to_nat gNumFrameResources /\
  Update 4 tt m0 = Returns tt m1 /\ Draw tt m1 = Returns tt m1' /\
  Update 4 tt m1' = Returns tt m2 /\ Draw tt m2 = Returns tt m2' /\
  Update 4 tt m2' = Returns tt m3 /\
  dirtyCount (app m3) 0 = Some 0.
Proof.
  assert (H1 : mAllRitems (app m0) !! 0%nat = Some e0) by (vm_compute; reflexivity).
  assert (H2 : RenderItem.NumFramesDirty e0 = gNumFrameResources) by (vm_compute; reflexivity).
  assert (H3 : forall q e', mAllRitems (app m0) !! q = Some e' -> q ≠ 0%nat ->
                            slotOf e' ≠ slotOf e0).
  { assert (Hnd : bool_decide (NoDup (map slotOf (mAllRitems (app m0)))) = true)
      by (vm_compute; reflexivity).
    apply bool_decide_eq_true in Hnd. by apply NoDup_slots_distinct. }
  assert (H4 : length (mFrameResources (app m0)) = Z.to_nat gNumFrameResources)
    by (vm_compute; reflexivity).
  assert (H5 : Update 4 tt m0 = Returns tt m1) by (vm_compute; reflexivity).
  assert (H6 : Draw tt m1 = Returns tt m1') by (vm_compute; reflexivity).
  assert (H7 : Update 4 tt m1' = Returns tt m2) by (vm_compute; reflexivity).
  assert (H8 : Draw tt m2 = Returns tt m2') by (vm_compute; reflexivity).
  assert (H9 : Update 4 tt m2' = Returns tt m3) by (vm_compute; reflexivity).
  do 8 (split; [assumption|]).
  destruct (C2_dirty_count_propagation (platform := plainPlatform) 4 tt 4 tt 4 tt m0 m1 m1' m2 m2' m3 0 e0
              H1 H2 H3 H4 H5 H6 H7 H8 H9) as (payload & j0 & j1 & j2 & H).
  apply H.
Defined.

Lemma C3_witness :
  mCurrentFence (app m0) = 0 /\
  length (mFrameResources (app m0)) = Z.to_nat gNumFrameResources /\
  Update 4 tt m0 = Returns tt m1 /\ Draw tt m1 = Returns tt m1' /\
  Update 4 tt m1' = Returns tt m2 /\ Draw tt m2 = Returns tt m2' /\
  Update 4 tt m2' = Returns tt m3 /\ Draw tt m3 = Returns tt m3' /\
  mCurrentFence (app m1') = 1 /\ mCurrentFence (app m2') = 2 /\ mCurrentFence (app m3') = 3.
Proof.
  assert (H1 : mCurrentFence (app m0) = 0) by (vm_compute; reflexivity).
  assert (H2 : length (mFrameResources (app m0)) = Z.to_nat gNumFrameResources)
    by (vm_compute; reflexivity).
  assert (H3 : Update 4 tt m0 = Returns tt m1) by (vm_compute; reflexivity).
  assert (H4 : Draw tt m1 = Returns tt m1') by (vm_compute; reflexivity).
  assert (H5 : Update 4 tt m1' = Returns tt m2) by (vm_compute; reflexivity).
  assert (H6 : Draw tt m2 = Returns tt m2') by (vm_compute; reflexivity).
  assert (H7 : Update 4 tt m2' = Returns tt m3) by (vm_compute; reflexivity).
  assert (H8 : Draw tt m3 = Returns tt m3') by (vm_compute; reflexivity).
  do 8 (split; [assumption|]).
  destruct (C3_fence_counter_and_reuse (platform := plainPlatform)) as (_ & _ & _ & H).
  destruct (H 4%nat tt 4%nat tt 4%nat tt m0 m1 m1' m2 m2' m3 m3' H1 H2 H3 H4 H5 H6 H7 H8)
    as (F1 & F2 & F3 & _).
  auto.
Defined.

Lemma C4_witness :
  0 <= mCurrFrameResourceIndex (app m0) < gNumFrameResources /\
  Update 4 tt m0 = Returns tt m1 /\ Draw tt m1 = Returns tt m1' /\
  Update 4 tt m1' = Returns tt m2 /\ Draw tt m2 = Returns tt m2' /\
  Update 4 tt m2' = Returns tt m3 /\
  mCurrFrameResourceIndex (app m3) = mCurrFrameResourceIndex (app m0) /\
  Nat.iter (1 + Z.to_nat 3) (nextFrameResourceIndex 3) 0
    = Nat.iter 1 (nextFrameResourceIndex 3) 0.
Proof.
  assert (H1 : 0 <= mCurrFrameResourceIndex (app m0) < gNumFrameResources)
    by (vm_compute; split; [discriminate|reflexivity]).
  assert (H3 : Update 4 tt m0 = Returns tt m1) by (vm_compute; reflexivity).
  assert (H4 : Draw tt m1 = Returns tt m1') by (vm_compute; reflexivity).
  assert (H5 : Update 4 tt m1' = Returns tt m2) by (vm_compute; reflexivity).
  assert (H6 : Draw tt m2 = Returns tt m2') by (vm_compute; reflexivity).
  assert (H7 : Update 4 tt m2' = Returns tt m3) by (vm_compute; reflexivity).
  do 6 (split; [assumption|]).
  destruct (C4_ring_index_periodic (platform := plainPlatform)) as (Hp & _ & _ & _ & H).
  split.
  - exact (proj1 (H 4%nat tt 4%nat tt 4%nat tt m0 m1 m1' m2 m2' m3 H1 H3 H4 H5 H6 H7)).
  - destruct (Hp 3 0) as (_ & Hper & _); [lia|lia|]. exact (Hper 1%nat).
Defined.

Lemma C5_witness :
  Z.of_nat (verticesBefore (length shapes)) < 2 ^ 31 /\
  Z.of_nat (indicesBefore (length shapes)) < 2 ^ 32 /\
  Forall (fun s => Forall (fun idx =>
                     0 <= idx < Z.of_nat (length (GeometryGenerator.Vertices s.2)))
                   (GeometryGenerator.Indices32 s.2)) shapes /\
  MeshGeometry.VertexBufferCPU shapeGeo = concat (map (fun s => packVertices s.2) shapes) /\
  MeshGeometry.IndexBufferCPU shapeGeo
    = concat (map (fun s => GeometryGenerator.GetIndices16 s.2) shapes).
Proof.
  assert (H1 : Z.of_nat (verticesBefore (length shapes)) < 2 ^ 31)
    by (vm_compute; reflexivity).
  assert (H2 : Z.of_nat (indicesBefore (length shapes)) < 2 ^ 32)
    by (vm_compute; reflexivity).
  assert (H3 : bool_decide (Forall (fun s => Forall (fun idx =>
                  0 <= idx < Z.of_nat (length (GeometryGenerator.Vertices s.2)))
                (GeometryGenerator.Indices32 s.2)) shapes) = true)
    by (vm_compute; reflexivity).
  apply bool_decide_eq_true in H3.
  do 3 (split; [assumption|]).
  destruct (C5_geometry_packing_no_aliasing (geoGen := triangleGenerator) H1 H2 (meshes_well_formed shapes H3))
    as (Hv & Hi & _).
  split; [exact Hv|exact Hi].
Defined.

Lemma C6_witness :
  UpdateObjectCBs u0 = Some u1 /\ UpdateMaterialBuffer u1 = Some u2 /\
  Update 4 tt m0 = Returns tt m1 /\
  (exists j, mCurrFrameResource u0 = Some j /\
             forall k, k ≠ j -> mFrameResources u2 !! k = mFrameResources u0 !! k) /\
  (exists j, mCurrFrameResource (app m1) = Some j /\
             forall k, k ≠ j ->
               mFrameResources (app m1) !! k = mFrameResources (app m0) !! k).
Proof.
  assert (H1 : UpdateObjectCBs u0 = Some u1) by (vm_compute; reflexivity).
  assert (H2 : UpdateMaterialBuffer u1 = Some u2) by (vm_compute; reflexivity).
  assert (H3 : Update 4 tt m0 = Returns tt m1) by (vm_compute; reflexivity).
  do 3 (split; [assumption|]).
  destruct (C6_update_writes_current_dirty_slots_only (platform := plainPlatform)) as (HA & HB).
  split.
  - destruct (HA u0 u1 u2 H1 H2) as (j & fr & fr2 & Hj & _ & _ & Hk & _).
    exists j. split; [exact Hj|exact Hk].
  - destruct (HB 4%nat tt m0 m1 H3) as (j & fr & fr' & Hj & _ & _ & Hk & _).
    exists j. split; [exact Hj|exact Hk].
Defined.



Lemma C9_witness :
  0 <= objCBByteSize /\ 50 * objCBByteSize <= 2 ^ 32 /\
  Frame 4 tt m0 = Returns tt m1' /\
  map RenderItem.ObjCBIndex (mAllRitems (app m1'))
    = map RenderItem.ObjCBIndex (mAllRitems (app m0)) /\
  exists s, buildScene theApp = Some s /\
    Forall (fun e =>
              let offset := Int.UINT (RenderItem.ObjCBIndex e * Int.UINT objCBByteSize) in
              offset = RenderItem.ObjCBIndex e * objCBByteSize /\
              0 <= offset /\
              offset + objCBByteSize <= Z.of_nat (length (mAllRitems s)) * objCBByteSize)
           (mAllRitems s).
Proof.
  assert (H1 : 0 <= objCBByteSize) by (vm_compute; discriminate).
  assert (H2 : 50 * objCBByteSize <= 2 ^ 32) by (vm_compute; discriminate).
  assert (H3 : Frame 4 tt m0 = Returns tt m1') by (vm_compute; reflexivity).
  do 3 (split; [assumption|]).
  destruct (C9_object_indices_within_capacity (platform := plainPlatform)) as ((s & Hs & H) & HF).
  split; [exact (proj1 (HF 4%nat tt m0 tt m1' H3))|].
  exists s. split; [exact Hs|].
  destruct H as (_ & _ & _ & _ & _ & _ & _ & _ & H). exact (H H1 H2).
Defined.

Lemma C10_witness :
  Frame 4 tt m0 = Returns tt m1' /\
  (forall k, matCBIndexAt (app m1') k = matCBIndexAt (app m0) k) /\
  mMaterials (BuildMaterials theApp) !! "diaMat" = mMaterials theApp !! "diaMat".
Proof.
  assert (H3 : Frame 4 tt m0 = Returns tt m1') by (vm_compute; reflexivity).
  split; [assumption|].
  destruct (C10_diamond_material_unused (platform := plainPlatform)) as (_ & HB & _ & HF).
  split; [exact (proj1 (HF 4%nat tt m0 tt m1' H3))|exact (proj1 (HB theApp))].
Defined.


Lemma X2_witness :
  Initialize (mkMachine theApp promptWorld) = Returns true m0 /\
  exists m1 s mf,
    D3DApp_Initialize (mkMachine theApp promptWorld) = Returns true m1 /\
    buildScene (placeCamera (app m1)) = Some s /\
    app mf = s /\
    FlushCommandQueue mf = Returns tt m0.
Proof.
  assert (H : Initialize (mkMachine theApp promptWorld) = Returns true m0)
    by (vm_compute; reflexivity).
  split; [exact H|].
  destruct (proj2 (Initialize_builds_the_scene (platform := plainPlatform)) _ _ H)
    as (m1 & s & mf & H1 & _ & H2 & H3 & H4 & _).
  exists m1, s, mf. auto.
Defined.

Lemma X3_witness :
  D3DApp_Initialize (mkMachine theApp promptWorld) = Returns true mBase /\
  freshApp (app mBase) /\
  md3dDevice (app mBase) = true /\
  exists s w,
    buildScene (placeCamera (app mBase)) = Some s /\
    wellFormedScene s /\
    last (trace w) = Some (EvExecute []) /\
    Initialize (mkMachine theApp promptWorld)
    = (_ ← FlushCommandQueue; mret true) (mkMachine s w).
Proof.
  assert (H1 : D3DApp_Initialize (mkMachine theApp promptWorld) = Returns true mBase)
    by (vm_compute; reflexivity).
  assert (H2 : freshApp (app mBase)) by (vm_compute; repeat split).
  assert (H3 : md3dDevice (app mBase) = true) by (vm_compute; reflexivity).
  assert (H4 : Initialize (mkMachine theApp promptWorld) = Returns true m0)
    by (vm_compute; reflexivity).
  do 3 (split; [assumption|]).
  destruct (Initialize_throws_or_reaches_the_flush (platform := plainPlatform) _ _ H1 H2 H3)
    as [(e & m' & HT)|HR].
  - rewrite H4 in HT. discriminate HT.
  - exact HR.
Defined.

Lemma X4_witness :
  Initialize (mkMachine theApp brokenWorld) = Throws initFailure mInitFailed /\
  (D3DApp_Initialize (mkMachine theApp brokenWorld) = Throws initFailure mInitFailed \/
   (exists mf, FlushCommandQueue mf = Throws initFailure mInitFailed) \/
   thrownByHelper initFailure mInitFailed \/
   failedCall initFailure mInitFailed).
Proof.
  assert (H : Initialize (mkMachine theApp brokenWorld) = Throws initFailure mInitFailed)
    by (vm_compute; reflexivity).
  split; [exact H|].
  exact (Initialize_throws_at_the_failed_call (platform := plainPlatform) _ _ _ H).
Defined.

Lemma X5_witness :
  0 <= mCurrFrameResourceIndex (app m0) < gNumFrameResources /\
  length (mFrameResources (app m0)) = Z.to_nat gNumFrameResources /\
  Forall (fun fr => Fence fr = 0) (mFrameResources (app m0)) /\
  Update 4 tt m0 = Returns tt m1 /\ Draw tt m1 = Returns tt m1' /\
  Update 4 tt m1' = Returns tt m2 /\ Draw tt m2 = Returns tt m2' /\
  updatesAtOnce m0 /\ updatesAtOnce m1' /\ updatesAtOnce m2' /\
  world m1 = world m0 /\ world m2 = world m1'.
Proof.
  assert (H1 : 0 <= mCurrFrameResourceIndex (app m0) < gNumFrameResources)
    by (vm_compute; split; [discriminate|reflexivity]).
  assert (H2 : length (mFrameResources (app m0)) = Z.to_nat gNumFrameResources)
    by (vm_compute; reflexivity).
  assert (H3 : bool_decide (Forall (fun fr => Fence fr = 0) (mFrameResources (app m0))) = true)
    by (vm_compute; reflexivity).
  apply bool_decide_eq_true in H3.
  assert (H4 : Update 4 tt m0 = Returns tt m1) by (vm_compute; reflexivity).
  assert (H5 : Draw tt m1 = Returns tt m1') by (vm_compute; reflexivity).
  assert (H6 : Update 4 tt m1' = Returns tt m2) by (vm_compute; reflexivity).
  assert (H7 : Draw tt m2 = Returns tt m2') by (vm_compute; reflexivity).
  do 7 (split; [assumption|]).
  exact (first_three_updates_never_wait (platform := plainPlatform)
           4 tt 4 tt m0 m1 m1' m2 m2' H1 H2 H3 H4 H5 H6 H7).
Defined.

Lemma X6_witness :
  Update 4 tt m0 = Returns tt m1 /\
  (forall p, dirtyCount (app m1) p = countDown <$> dirtyCount (app m0) p) /\
  materialsAgree (mMaterials (app m0)) (mMaterials (app m1)).
Proof.
  assert (H : Update 4 tt m0 = Returns tt m1) by (vm_compute; reflexivity).
  split; [exact H|].
  destruct (Update_counts_down_and_settles (platform := plainPlatform) 4 tt m0 m1 H)
    as (Hc & Hm & _).
  split; [exact Hc|exact Hm].
Defined.

Lemma X8_witness :
  freshApp theApp /\
  Z.of_nat (verticesBefore (length shapes)) < 2 ^ 31 /\
  Z.of_nat (indicesBefore (length shapes)) < 2 ^ 32 /\
  Forall (fun s => Forall (fun idx =>
                     0 <= idx < Z.of_nat (length (GeometryGenerator.Vertices s.2)))
                   (GeometryGenerator.Indices32 s.2)) shapes /\
  exists s,
    buildScene theApp = Some s /\
    Forall (fun e => RenderItem.Geo e = Some "shapeGeo" /\ drawInBounds shapeGeo e)
           (mAllRitems s).
Proof.
  assert (H0 : freshApp theApp) by (vm_compute; repeat split).
  assert (H1 : Z.of_nat (verticesBefore (length shapes)) < 2 ^ 31)
    by (vm_compute; reflexivity).
  assert (H2 : Z.of_nat (indicesBefore (length shapes)) < 2 ^ 32)
    by (vm_compute; reflexivity).
  assert (H3 : bool_decide (Forall (fun s => Forall (fun idx =>
                  0 <= idx < Z.of_nat (length (GeometryGenerator.Vertices s.2)))
                (GeometryGenerator.Indices32 s.2)) shapes) = true)
    by (vm_compute; reflexivity).
  apply bool_decide_eq_true in H3.
  do 4 (split; [assumption|]).
  destruct (draws_stay_inside_geometry (platform := plainPlatform)
              (geoGen := triangleGenerator) theApp H0 H1 H2 (meshes_well_formed shapes H3))
    as (s & Hs & _ & _ & Hall).
  exists s. split; [exact Hs|exact Hall].
Defined.

Lemma X9_witness :
  Update 4 tt m0 = Returns tt m1 /\
  exists j fr',
    mCurrFrameResource (app m1) = Some j /\
    mFrameResources (app m1) !! j = Some fr' /\
    forall k mat,
      mMaterials (app m0) !! k = Some (Some mat) ->
      mMaterials (app m1) !! k = Some (Some (tickMaterial mat)).
Proof.
  assert (H : Update 4 tt m0 = Returns tt m1) by (vm_compute; reflexivity).
  split; [exact H|].
  destruct (Update_copies_each_dirty_material (platform := plainPlatform) 4 tt m0 m1 H)
    as (j & fr' & Hj & Hfr & Hall).
  exists j, fr'. split; [exact Hj|]. split; [exact Hfr|].
  intros k mat Hk. exact (proj1 (Hall k mat Hk)).
Defined.

Lemma X10_witness :
  frames 4 [tt; tt; tt] m0 = Returns tt m3' /\
  dirtyAtMost 3 (app m0) /\
  allClean (app m3').
Proof.
  assert (H1 : frames 4 [tt; tt; tt] m0 = Returns tt m3') by (vm_compute; reflexivity).
  assert (Hb : dirtyAtMostb 3 (app m0) = true) by (vm_compute; reflexivity).
  assert (H2 : dirtyAtMost 3 (app m0))
    by exact (dirtyAtMostb_sound (platform := plainPlatform) 3 (app m0) Hb).
  split; [exact H1|]. split; [exact H2|].
  exact (proj1 (frames_settle (platform := plainPlatform) 4 [tt; tt; tt] m0 m3' H1 H2)).
Defined.

End Witnesses.
